(** * MCP bridge (mcp-client.py): the stdio JSON-RPC session and its endpoints

    A shallow embedding of [src/mcp-client.py], in six parts:

    - [Text]: Python [str] values as lists of code points, [bytes] as lists of
      bytes, with [str.encode()], [bytes.decode()] and [str.strip()];
    - [Json]: the values [json.dumps] accepts and [json.loads] returns, and the
      two functions themselves in their default configuration;
    - [Bridge]: [MCPClient] (fields [process], [connected]), its methods
      [connect], [send_request], [disconnect], and the FastAPI handlers
      [list_tools], [call_tool], [send_mcp_request], [health_check];
    - [Scenario]: concrete configurations, children and messages;
    - [App]: the application as a whole, from [startup_event] over the
      calls of the handlers to [shutdown_event];
    - the properties: what one call does, what is written to the child, the
      handshake, failures, the round trip of the codec, and the run of the
      application.

    The child process is an I/O script: what each [drain()] and each
    [readline()] will do, the chunks written to its stdin so far, and what
    the transport knows of the child when it is terminated. *)

From Stdlib Require Import List NArith ZArith Bool Lia String Ascii.
From Stdlib Require Import Strings.Byte Numbers.DecimalN Numbers.DecimalPos.
From Stdlib Require Numbers.DecimalFacts.
Import ListNotations.

Set Implicit Arguments.

(* ================================================================== *)
(** ** Text: str, bytes, encode, decode, strip *)
(* ================================================================== *)

Module Text.

Local Open Scope N_scope.

(** A Python [str]: a sequence of code points. *)
Definition str := list N.

(** Python [bytes]. *)
Definition bytes := list byte.

(** A literal of the source, as a [str]. *)
Definition lit (s : string) : str :=
  List.map N_of_ascii (list_ascii_of_string s).

Fixpoint str_eqb (a b : str) : bool :=
  match a, b with
  | [], [] => true
  | x :: a', y :: b' => (x =? y) && str_eqb a' b'
  | _, _ => false
  end.

(** [prefix ++ rest = s]: [s.startswith(prefix)], returning the rest. *)
Fixpoint strip_prefix (prefix s : str) : option str :=
  match prefix, s with
  | [], _ => Some s
  | p :: ps, c :: cs => if p =? c then strip_prefix ps cs else None
  | _ :: _, [] => None
  end.

(** [sub in s] on two strings. *)
Fixpoint str_contains (sub s : str) : bool :=
  match strip_prefix sub s with
  | Some _ => true
  | None => match s with
            | [] => false
            | _ :: cs => str_contains sub cs
            end
  end.

(** [str.isspace] on one code point: the characters Python's
    [str.strip()] removes. *)
Definition isspace (c : N) : bool :=
  ((9 <=? c) && (c <=? 13)) || ((28 <=? c) && (c <=? 32))
  || (c =? 133) || (c =? 160) || (c =? 5760)
  || ((8192 <=? c) && (c <=? 8202))
  || (c =? 8232) || (c =? 8233) || (c =? 8239) || (c =? 8287)
  || (c =? 12288).

Fixpoint lstrip (s : str) : str :=
  match s with
  | c :: cs => if isspace c then lstrip cs else s
  | [] => []
  end.

Definition rstrip (s : str) : str := rev (lstrip (rev s)).

(** [s.strip()] *)
Definition strip (s : str) : str := rstrip (lstrip s).

(** *** UTF-8, the default codec of [encode()] and [decode()] *)

Definition is_surrogate (c : N) : bool := (0xD800 <=? c) && (c <=? 0xDFFF).

Definition byte_of (n : N) : byte :=
  match Byte.of_N n with Some b => b | None => x00 end.

(** The bytes of one code point; [None] where [str.encode()] raises
    [UnicodeEncodeError] (a surrogate) or the value is no code point. *)
Definition utf8_char (c : N) : option (list N) :=
  if c <? 0x80 then Some [c]
  else if c <? 0x800 then Some [0xC0 + c / 64; 0x80 + c mod 64]
  else if is_surrogate c then None
  else if c <? 0x10000 then
    Some [0xE0 + c / 4096; 0x80 + (c / 64) mod 64; 0x80 + c mod 64]
  else if c <? 0x110000 then
    Some [0xF0 + c / 262144; 0x80 + (c / 4096) mod 64;
          0x80 + (c / 64) mod 64; 0x80 + c mod 64]
  else None.

Fixpoint utf8_units (s : str) : option (list N) :=
  match s with
  | [] => Some []
  | c :: cs =>
      match utf8_char c, utf8_units cs with
      | Some u, Some us => Some (u ++ us)
      | _, _ => None
      end
  end.

(** [s.encode()] *)
Definition encode (s : str) : option bytes :=
  option_map (List.map byte_of) (utf8_units s).

Definition is_cont (b : N) : bool := (0x80 <=? b) && (b <=? 0xBF).

Definition between (lo b hi : N) : bool := (lo <=? b) && (b <=? hi).

(** Strict UTF-8 decoding of a list of byte values: overlong forms,
    surrogates and values above U+10FFFF are refused, as CPython does. *)
Fixpoint utf8_decode (bs : list N) : option str :=
  match bs with
  | [] => Some []
  | b0 :: r0 =>
      if b0 <? 0x80 then option_map (cons b0) (utf8_decode r0)
      else if between 0xC2 b0 0xDF then
        match r0 with
        | b1 :: r1 =>
            if is_cont b1
            then option_map (cons ((b0 - 0xC0) * 64 + (b1 - 0x80)))
                            (utf8_decode r1)
            else None
        | _ => None
        end
      else if between 0xE0 b0 0xEF then
        match r0 with
        | b1 :: b2 :: r2 =>
            if between (if b0 =? 0xE0 then 0xA0 else 0x80) b1
                       (if b0 =? 0xED then 0x9F else 0xBF)
               && is_cont b2
            then option_map
                   (cons ((b0 - 0xE0) * 4096 + (b1 - 0x80) * 64 + (b2 - 0x80)))
                   (utf8_decode r2)
            else None
        | _ => None
        end
      else if between 0xF0 b0 0xF4 then
        match r0 with
        | b1 :: b2 :: b3 :: r3 =>
            if between (if b0 =? 0xF0 then 0x90 else 0x80) b1
                       (if b0 =? 0xF4 then 0x8F else 0xBF)
               && is_cont b2 && is_cont b3
            then option_map
                   (cons ((b0 - 0xF0) * 262144 + (b1 - 0x80) * 4096
                          + (b2 - 0x80) * 64 + (b3 - 0x80)))
                   (utf8_decode r3)
            else None
        | _ => None
        end
      else None
  end.

(** [b.decode()]; [None] where it raises [UnicodeDecodeError]. *)
Definition decode (b : bytes) : option str :=
  utf8_decode (List.map Byte.to_N b).

(** The bytes of an ASCII literal. *)
Definition blit (s : string) : bytes := list_byte_of_string s.

End Text.

(* ================================================================== *)
(** ** Json: the values of the [json] module, [dumps] and [loads] *)
(* ================================================================== *)

Module Json.

Import Text.
Local Open Scope N_scope.

(** *** Floats

    A Python [float] is an IEEE 754 binary64 value: a NaN, an infinity, a
    signed zero, or [FFinite s m e], which is [m * 2^e], negated when [s]
    is set. *)
Inductive float : Type :=
| FNan
| FInf (negative : bool)
| FZero (negative : bool)
| FFinite (negative : bool) (m : positive) (e : Z).

Definition float_eqb (x y : float) : bool :=
  match x, y with
  | FNan, FNan => true
  | FInf s, FInf t | FZero s, FZero t => Bool.eqb s t
  | FFinite s m e, FFinite t m' e' =>
      Bool.eqb s t && Pos.eqb m m' && Z.eqb e e'
  | _, _ => false
  end.

(** The finite numbers of binary64 other than zero, each written once:
    53 bits with the exponent between -1073 and 971 (normal), or fewer
    bits with the exponent -1074 (subnormal, and the smallest normal
    numbers). *)
Definition binary64 (x : float) : bool :=
  match x with
  | FFinite _ m e =>
      ((e =? -1074)%Z && (Zpos m <? 2 ^ 53)%Z)
      || ((-1074 <? e)%Z && (e <=? 971)%Z
          && (2 ^ 52 <=? Zpos m)%Z && (Zpos m <? 2 ^ 53)%Z)
  | _ => true
  end.

Definition finite (x : float) : bool :=
  match x with
  | FZero _ | FFinite _ _ _ => true
  | FNan | FInf _ => false
  end.

(** What [json.loads] returns and [json.dumps] accepts.  A [dict] keeps its
    insertion order, so it is an association list (keys are [str]).
    Integers are unbounded and values nest to any depth: the interpreter's
    limits (recursion depth, digits of an integer conversion, memory) are
    not modelled. *)
#[local] Unset Elimination Schemes.
Inductive json : Type :=
| JNull
| JBool (b : bool)
| JInt (z : Z)
| JFloat (x : float)
| JStr (s : str)
| JList (xs : list json)
| JDict (kvs : list (str * json)).
#[local] Set Elimination Schemes.

(** *** dict operations *)

Definition dict := list (str * json).

Fixpoint dict_get (d : dict) (k : str) : option json :=
  match d with
  | [] => None
  | (k', v) :: d' => if str_eqb k k' then Some v else dict_get d' k
  end.

Definition dict_has (d : dict) (k : str) : bool :=
  match dict_get d k with Some _ => true | None => false end.

(** [d[k] = v]: the value is replaced in place, a new key goes last. *)
Fixpoint dict_set (d : dict) (k : str) (v : json) : dict :=
  match d with
  | [] => [(k, v)]
  | (k', v') :: d' =>
      if str_eqb k k' then (k', v) :: d' else (k', v') :: dict_set d' k v
  end.

(** [dict(pairs)] *)
Definition dict_of_pairs (pairs : list (str * json)) : dict :=
  fold_left (fun d kv => dict_set d (fst kv) (snd kv)) pairs [].

(** *** Characters of the JSON grammar *)

Definition is_digit (c : N) : bool := (48 <=? c) && (c <=? 57).

Definition is_ws (c : N) : bool :=
  (c =? 32) || (c =? 9) || (c =? 10) || (c =? 13).

Fixpoint skip_ws (s : str) : str :=
  match s with
  | c :: cs => if is_ws c then skip_ws cs else s
  | [] => []
  end.

(** The longest prefix of digits, and the rest. *)
Fixpoint span_digits (s : str) : str * str :=
  match s with
  | c :: cs =>
      if is_digit c then let (ds, r) := span_digits cs in (c :: ds, r)
      else ([], s)
  | [] => ([], [])
  end.

(** The value of a run of decimal digits. *)
Definition nat_value (ds : str) : N :=
  fold_left (fun a c => 10 * a + (c - 48)) ds 0.

(** *** Numbers: the scanner's number pattern

    An optional minus sign; then a single 0, or a digit 1-9 followed by any
    digits; then optionally a dot and one or more digits; then optionally
    e or E, an optional sign and one or more digits.  Longest match.
    The result is the integer part, the fraction (with its dot, or empty),
    the exponent (with its letter, or empty) and the rest of the input. *)

Definition match_integer (s : str) : option (str * str) :=
  let (sign, s1) :=
    match s with
    | c :: r => if c =? 45 then ([45], r) else ([], s)
    | [] => ([], s)
    end in
  match s1 with
  | c :: r =>
      if c =? 48 then Some (sign ++ [48], r)
      else if is_digit c then
        let (ds, r') := span_digits r in Some (sign ++ c :: ds, r')
      else None
  | [] => None
  end.

Definition match_frac (s : str) : str * str :=
  match s with
  | c :: r =>
      if c =? 46 then
        match span_digits r with
        | ([], _) => ([], s)
        | (ds, r') => (46 :: ds, r')
        end
      else ([], s)
  | [] => ([], s)
  end.

Definition match_exp (s : str) : str * str :=
  match s with
  | c :: r =>
      if (c =? 101) || (c =? 69) then
        let (sign, r1) :=
          match r with
          | c1 :: r1 => if (c1 =? 45) || (c1 =? 43) then ([c1], r1) else ([], r)
          | [] => ([], r)
          end in
        match span_digits r1 with
        | ([], _) => ([], s)
        | (ds, r') => (c :: sign ++ ds, r')
        end
      else ([], s)
  | [] => ([], s)
  end.

Definition match_number (s : str) : option (str * str * str * str) :=
  match match_integer s with
  | None => None
  | Some (i, r) =>
      let (f, r1) := match_frac r in
      let (e, r2) := match_exp r1 in
      Some (i, f, e, r2)
  end.

(** [int(text)] on the integer part the pattern matched. *)
Definition int_of_text (i : str) : Z :=
  match i with
  | c :: ds => if c =? 45 then Z.opp (Z.of_N (nat_value ds))
               else Z.of_N (nat_value i)
  | [] => 0%Z
  end.

(** The binary64 number nearest to [p / q] (for [0 <= p] and [0 < q]),
    ties going to the even one; past the largest the result is an
    infinity, and what rounds to nothing is a zero.  [n] is [p / q] in
    units of [2^-1074], cut off; [s] is the number of its bits that do not
    fit into 53; what is cut off is compared with half a unit. *)
Definition round_binary64 (negative : bool) (p q : Z) : float :=
  let n := (p * 2 ^ 1074 / q)%Z in
  let r := ((p * 2 ^ 1074) mod q)%Z in
  let s := Z.max 0 (Z.log2 n - 52) in
  let m0 := (n / 2 ^ s)%Z in
  let low := (n mod 2 ^ s)%Z in
  let m := match (2 * (low * q + r) ?= 2 ^ s * q)%Z with
           | Lt => m0
           | Gt => (m0 + 1)%Z
           | Eq => if Z.even m0 then m0 else (m0 + 1)%Z
           end in
  let (m', e') :=
    if (m =? 2 ^ 53)%Z then ((2 ^ 52)%Z, (s - 1073)%Z)
    else (m, (s - 1074)%Z) in
  match m' with
  | Zpos mp => if (971 <? e')%Z then FInf negative else FFinite negative mp e'
  | _ => FZero negative
  end.

(** The value of the exponent part the pattern matched: the letter, an
    optional sign, digits. *)
Definition exponent_value (e : str) : Z :=
  match e with
  | _ :: c :: ds =>
      if c =? 45 then Z.opp (Z.of_N (nat_value ds))
      else if c =? 43 then Z.of_N (nat_value ds)
      else Z.of_N (nat_value (c :: ds))
  | _ => 0%Z
  end.

(** [float(integer + frac + exp)] on the three parts the pattern matched:
    the number the text denotes, correctly rounded. *)
Definition float_of_literal (i f e : str) : float :=
  let (negative, idigits) :=
    match i with
    | c :: ds => if c =? 45 then (true, ds) else (false, i)
    | [] => (false, [])
    end in
  let fdigits := tl f in
  let d := Z.of_N (nat_value (idigits ++ fdigits)) in
  let x := (exponent_value e - Z.of_nat (List.length fdigits))%Z in
  round_binary64 negative (d * 10 ^ Z.max 0 x)%Z (10 ^ Z.max 0 (- x))%Z.

(** Python truth value: [bool(v)], [not v], [v or w]. *)
Definition truthy (v : json) : bool :=
  match v with
  | JNull => false
  | JBool b => b
  | JInt z => negb (Z.eqb z 0)
  | JFloat x => match x with FZero _ => false | _ => true end
  | JStr s => match s with [] => false | _ => true end
  | JList xs => match xs with [] => false | _ => true end
  | JDict kvs => match kvs with [] => false | _ => true end
  end.

(** *** dumps: [json.dumps(obj)] with the default arguments
    ([ensure_ascii=True], separators [", "] and [": "], no indent). *)

Definition hex_digit (n : N) : N := if n <? 10 then 48 + n else 87 + n.

(** ['{0:04x}'.format(n)] for [n < 0x10000] *)
Definition hex4 (n : N) : str :=
  [hex_digit (n / 4096 mod 16); hex_digit (n / 256 mod 16);
   hex_digit (n / 16 mod 16); hex_digit (n mod 16)].

Definition u_escape (n : N) : str := 92 :: 117 :: hex4 n.

(** The replacement of one character in [encode_basestring_ascii]. *)
Definition escape_char (c : N) : str :=
  if c =? 34 then [92; 34]
  else if c =? 92 then [92; 92]
  else if (32 <=? c) && (c <=? 126) then [c]
  else if c =? 8 then [92; 98]
  else if c =? 12 then [92; 102]
  else if c =? 10 then [92; 110]
  else if c =? 13 then [92; 114]
  else if c =? 9 then [92; 116]
  else if c <? 0x10000 then u_escape c
  else
    let n := c - 0x10000 in
    let s1 := N.lor 0xD800 (N.land (N.shiftr n 10) 0x3FF) in
    let s2 := N.lor 0xDC00 (N.land n 0x3FF) in
    u_escape s1 ++ u_escape s2.

Definition encode_basestring_ascii (s : str) : str :=
  34 :: flat_map escape_char s ++ [34].

Fixpoint uint_chars (d : Decimal.uint) : str :=
  match d with
  | Decimal.Nil => []
  | Decimal.D0 d => 48 :: uint_chars d
  | Decimal.D1 d => 49 :: uint_chars d
  | Decimal.D2 d => 50 :: uint_chars d
  | Decimal.D3 d => 51 :: uint_chars d
  | Decimal.D4 d => 52 :: uint_chars d
  | Decimal.D5 d => 53 :: uint_chars d
  | Decimal.D6 d => 54 :: uint_chars d
  | Decimal.D7 d => 55 :: uint_chars d
  | Decimal.D8 d => 56 :: uint_chars d
  | Decimal.D9 d => 57 :: uint_chars d
  end.

(** [int.__repr__]: the decimal numeral. *)
Definition intstr (z : Z) : str :=
  match z with
  | Z0 => [48]
  | Zpos p => uint_chars (Pos.to_uint p)
  | Zneg p => 45 :: uint_chars (Pos.to_uint p)
  end.

(** *** [float.__repr__]

    [repr] of a float is the shortest decimal numeral that [float] reads
    back as it, and of those the one nearest to it.  CPython computes it
    in C, outside the [json] module; here it is computed from what it is:
    the decimals of 1, 2, ... digits next to the float are tried in turn.
    The layout is the one of [repr]. *)

Fixpoint lstrip_zeros (ds : str) : str :=
  match ds with
  | c :: r => if c =? 48 then lstrip_zeros r else ds
  | [] => []
  end.

Definition rstrip_zeros (ds : str) : str := rev (lstrip_zeros (rev ds)).

Definition zeros (n : nat) : str := repeat 48 n.

(** The layout of [repr]: [digits] are the significant digits and [decpt]
    is where the point stands among them.  Exponent notation is used when
    [decpt <= -4] or [decpt > 16], with an exponent of two digits at
    least; otherwise the point is put in place, after a [0] if nothing
    stands before it and before a [0] if nothing stands after it.  The
    result comes in the three parts of the scanner's number pattern. *)
Definition sign_text (negative : bool) : str :=
  if negative then [45] else [].

(** The digits of the exponent: two at least. *)
Definition exponent_digits (x : Z) : str :=
  match intstr (Z.abs x) with
  | [c] => [48; c]
  | xs => xs
  end.

Definition format_float_short (negative : bool) (digits : str) (decpt : Z)
  : str * str * str :=
  let nd := Z.of_nat (List.length digits) in
  if ((decpt <=? -4) || (16 <? decpt))%Z then
    let x := (decpt - 1)%Z in
    (sign_text negative ++ firstn 1 digits,
     match skipn 1 digits with [] => [] | more => 46 :: more end,
     101 :: (if (x <? 0)%Z then 45 else 43) :: exponent_digits x)
  else if (decpt <=? 0)%Z then
    (sign_text negative ++ [48],
     46 :: zeros (Z.to_nat (- decpt)) ++ digits, [])
  else if (decpt <? nd)%Z then
    (sign_text negative ++ firstn (Z.to_nat decpt) digits,
     46 :: skipn (Z.to_nat decpt) digits, [])
  else
    (sign_text negative ++ digits ++ zeros (Z.to_nat (decpt - nd)),
     [46; 48], []).

(** The parts of the numeral for [d * 10^k], [0 < d]. *)
Definition decimal_parts (negative : bool) (d k : Z) : str * str * str :=
  let ds := intstr d in
  format_float_short negative (rstrip_zeros ds)
                     (Z.of_nat (List.length ds) + k).

(** Whether the numeral for [d * 10^k] reads back as [m * 2^e]. *)
Definition round_trips (negative : bool) (m : positive) (e : Z) (d k : Z)
  : bool :=
  let '(i, f, ex) := decimal_parts negative d k in
  float_eqb (float_of_literal i f ex) (FFinite negative m e).

(** Where the decimal point of [p / q] stands: the [z] with
    [10^(z-1) <= p / q < 10^z], for [0 < p] and [0 < q]. *)
Definition decimal_point (p q : Z) : Z :=
  if (q <=? p)%Z then Z.of_nat (List.length (intstr (p / q)))
  else (1 - Z.of_nat (List.length (intstr ((q - 1) / p))))%Z.

(** Of the two decimals of [n] digits next to [m * 2^e], the one that
    reads back as it; the nearer one if both do. *)
Definition candidate (negative : bool) (m : positive) (e : Z) (n : nat)
  : option (Z * Z) :=
  let p := (Zpos m * 2 ^ Z.max 0 e)%Z in
  let q := (2 ^ Z.max 0 (- e))%Z in
  let k := (decimal_point p q - Z.of_nat n)%Z in
  let num := (p * 10 ^ Z.max 0 (- k))%Z in
  let den := (q * 10 ^ Z.max 0 k)%Z in
  let lo := (num / den)%Z in
  let hi := (lo + 1)%Z in
  let lo_ok := (0 <? lo)%Z && round_trips negative m e lo k in
  let hi_ok := round_trips negative m e hi k in
  let lo_nearer := match (2 * (num mod den) ?= den)%Z with
                   | Lt => true
                   | Gt => false
                   | Eq => Z.even lo
                   end in
  if lo_ok && (negb hi_ok || lo_nearer) then Some (lo, k)
  else if hi_ok then Some (hi, k)
  else None.

(** [m * 2^e] written out in full. *)
Definition exact_decimal (m : positive) (e : Z) : Z * Z :=
  if (0 <=? e)%Z then ((Zpos m * 2 ^ e)%Z, 0%Z)
  else ((Zpos m * 5 ^ (- e))%Z, e).

Fixpoint first_candidate (negative : bool) (m : positive) (e : Z)
         (ns : list nat) : option (Z * Z) :=
  match ns with
  | [] => None
  | n :: rest =>
      match candidate negative m e n with
      | Some dk => Some dk
      | None => first_candidate negative m e rest
      end
  end.

(** The decimal [repr] writes: the first that reads back, looking at 1,
    2, ... 17 digits.  CPython stops at 17 digits, which are enough for
    every binary64 number; the number written out in full is the last
    resort here, so that nothing rests on that fact. *)
Definition shortest_decimal (negative : bool) (m : positive) (e : Z)
  : Z * Z :=
  match first_candidate negative m e (seq 1 17) with
  | Some dk => dk
  | None => exact_decimal m e
  end.

Definition float_repr (x : float) : str :=
  match x with
  | FNan => lit "nan"
  | FInf negative => if negative then lit "-inf" else lit "inf"
  | FZero negative => if negative then lit "-0.0" else lit "0.0"
  | FFinite negative m e =>
      let (d, k) := shortest_decimal negative m e in
      let '(i, f, ex) := decimal_parts negative d k in
      i ++ f ++ ex
  end.

(** [floatstr] of the encoder: the three constants for what is not
    finite, [float.__repr__] otherwise. *)
Definition floatstr (x : float) : str :=
  match x with
  | FNan => lit "NaN"
  | FInf negative => if negative then lit "-Infinity" else lit "Infinity"
  | _ => float_repr x
  end.

(** [sep.join(f(x) for x in xs)] *)
Definition join_map {A : Type} (f : A -> str) (sep : str) : list A -> str :=
  fix go (xs : list A) : str :=
    match xs with
    | [] => []
    | [x] => f x
    | x :: rest => f x ++ sep ++ go rest
    end.

Definition item_separator : str := [44; 32].
Definition key_separator : str := [58; 32].

Fixpoint dumps (v : json) : str :=
  match v with
  | JNull => lit "null"
  | JBool true => lit "true"
  | JBool false => lit "false"
  | JInt z => intstr z
  | JFloat x => floatstr x
  | JStr s => encode_basestring_ascii s
  | JList xs => 91 :: join_map dumps item_separator xs ++ [93]
  | JDict kvs =>
      123 :: join_map (fun kv => encode_basestring_ascii (fst kv)
                                   ++ key_separator ++ dumps (snd kv))
               item_separator kvs ++ [125]
  end.

(** *** loads: [json.loads(s)] with the default decoder (strict mode)

    The grammar is the one of the scanner CPython runs (the C accelerator):
    ASCII digits only, four hexadecimal digits after [\u]. *)

Definition hex_value (c : N) : option N :=
  if is_digit c then Some (c - 48)
  else if (97 <=? c) && (c <=? 102) then Some (c - 87)
  else if (65 <=? c) && (c <=? 70) then Some (c - 55)
  else None.

(** The number four hexadecimal digits denote. *)
Definition decode_uXXXX (h1 h2 h3 h4 : N) : option N :=
  match hex_value h1, hex_value h2, hex_value h3, hex_value h4 with
  | Some a, Some b, Some c, Some d => Some (((a * 16 + b) * 16 + c) * 16 + d)
  | _, _, _, _ => None
  end.

(** The decoder's [BACKSLASH] table. *)
Definition backslash (e : N) : option N :=
  if e =? 34 then Some 34
  else if e =? 92 then Some 92
  else if e =? 47 then Some 47
  else if e =? 98 then Some 8
  else if e =? 102 then Some 12
  else if e =? 110 then Some 10
  else if e =? 114 then Some 13
  else if e =? 116 then Some 9
  else None.

Definition is_high_surrogate (c : N) : bool := (0xD800 <=? c) && (c <=? 0xDBFF).
Definition is_low_surrogate (c : N) : bool := (0xDC00 <=? c) && (c <=? 0xDFFF).

Definition join_surrogates (hi lo : N) : N :=
  0x10000 + N.lor (N.shiftl (hi - 0xD800) 10) (lo - 0xDC00).

Definition push (c : N) (r : option (str * str)) : option (str * str) :=
  match r with
  | Some (t, rest) => Some (c :: t, rest)
  | None => None
  end.

(** [scanstring]: [s] starts right after the opening quote; the result is
    the decoded string and the input after the closing quote. *)
Fixpoint scanstring (s : str) : option (str * str) :=
  match s with
  | [] => None
  | c :: r =>
      if c =? 34 then Some ([], r)
      else if c =? 92 then
        match r with
        | [] => None
        | e :: r1 =>
            if e =? 117 then
              match r1 with
              | h1 :: h2 :: h3 :: h4 :: r2 =>
                  match decode_uXXXX h1 h2 h3 h4 with
                  | None => None
                  | Some uni =>
                      match r2 with
                      | b :: u :: g1 :: g2 :: g3 :: g4 :: r3 =>
                          if is_high_surrogate uni && (b =? 92) && (u =? 117)
                          then
                            match decode_uXXXX g1 g2 g3 g4 with
                            | None => None
                            | Some uni2 =>
                                if is_low_surrogate uni2
                                then push (join_surrogates uni uni2)
                                          (scanstring r3)
                                else push uni (scanstring r2)
                            end
                          else push uni (scanstring r2)
                      | _ => push uni (scanstring r2)
                      end
                  end
              | _ => None
              end
            else
              match backslash e with
              | Some ch => push ch (scanstring r1)
              | None => None
              end
        end
      else if c <? 32 then None
      else push c (scanstring r)
  end.

(** A number or one of the three constants, after the other cases of
    [scan_once] have failed. *)
Definition scan_number (s : str) : option (json * str) :=
  match match_number s with
  | Some (i, f, e, r) =>
      match f, e with
      | [], [] => Some (JInt (int_of_text i), r)
      | _, _ => Some (JFloat (float_of_literal i f e), r)
      end
  | None =>
      match strip_prefix (lit "NaN") s with
      | Some r => Some (JFloat FNan, r)
      | None =>
      match strip_prefix (lit "Infinity") s with
      | Some r => Some (JFloat (FInf false), r)
      | None =>
      match strip_prefix (lit "-Infinity") s with
      | Some r => Some (JFloat (FInf true), r)
      | None => None
      end end end
  end.

(** A value that is neither a string, an object nor an array. *)
Definition scan_atom (s : str) : option (json * str) :=
  match strip_prefix (lit "null") s with
  | Some r => Some (JNull, r)
  | None =>
  match strip_prefix (lit "true") s with
  | Some r => Some (JBool true, r)
  | None =>
  match strip_prefix (lit "false") s with
  | Some r => Some (JBool false, r)
  | None => scan_number s
  end end end.

(** [scan_once], [JSONArray] and [JSONObject].  The recursion of the three
    is bounded by [fuel]; [loads] gives one unit per character, which is
    as good as any amount ([decode_document_any_fuel] below).
    - [array_items]: the input stands at the first character of an element;
    - [object_items]: the input stands at the opening quote of a key. *)
Fixpoint scan_once (fuel : nat) (s : str) {struct fuel} : option (json * str) :=
  match fuel with
  | O => None
  | S f =>
      match s with
      | [] => None
      | c :: r =>
          if c =? 34 then
            match scanstring r with
            | Some (t, r') => Some (JStr t, r')
            | None => None
            end
          else if c =? 123 then
            match skip_ws r with
            | c1 :: r1 =>
                if c1 =? 125 then Some (JDict [], r1)
                else
                  match object_items f (c1 :: r1) with
                  | Some (pairs, r') => Some (JDict (dict_of_pairs pairs), r')
                  | None => None
                  end
            | [] => None
            end
          else if c =? 91 then
            match skip_ws r with
            | c1 :: r1 =>
                if c1 =? 93 then Some (JList [], r1)
                else
                  match array_items f (c1 :: r1) with
                  | Some (vs, r') => Some (JList vs, r')
                  | None => None
                  end
            | [] => None
            end
          else scan_atom s
      end
  end

with array_items (fuel : nat) (s : str) {struct fuel}
  : option (list json * str) :=
  match fuel with
  | O => None
  | S f =>
      match scan_once f s with
      | None => None
      | Some (v, r) =>
          match skip_ws r with
          | c :: r1 =>
              if c =? 93 then Some ([v], r1)
              else if c =? 44 then
                match array_items f (skip_ws r1) with
                | Some (vs, r') => Some (v :: vs, r')
                | None => None
                end
              else None
          | [] => None
          end
      end
  end

with object_items (fuel : nat) (s : str) {struct fuel}
  : option (list (str * json) * str) :=
  match fuel with
  | O => None
  | S f =>
      match s with
      | q :: r =>
          if q =? 34 then
            match scanstring r with
            | None => None
            | Some (k, r0) =>
                match skip_ws r0 with
                | c :: r1 =>
                    if c =? 58 then
                      match scan_once f (skip_ws r1) with
                      | None => None
                      | Some (v, r2) =>
                          match skip_ws r2 with
                          | c2 :: r3 =>
                              if c2 =? 125 then Some ([(k, v)], r3)
                              else if c2 =? 44 then
                                match object_items f (skip_ws r3) with
                                | Some (kvs, r') => Some ((k, v) :: kvs, r')
                                | None => None
                                end
                              else None
                          | [] => None
                          end
                      end
                    else None
                | [] => None
                end
            end
          else None
      | [] => None
      end
  end.

(** [JSONDecoder.decode]: one value between optional whitespace, and
    nothing after it. *)
Definition decode_document (s : str) : option json :=
  match scan_once (List.length s) (skip_ws s) with
  | Some (v, r) => match skip_ws r with [] => Some v | _ => None end
  | None => None
  end.

(** [json.loads(s)] for a [str]; [None] where it raises [JSONDecodeError]. *)
Definition loads (s : str) : option json :=
  match s with
  | c :: _ => if c =? 0xFEFF then None else decode_document s
  | [] => decode_document s
  end.


(** *** Well-formed values

    The values the round trip of the codec is stated for: finite floats
    (no NaN and no infinity, which JSON does not have), text made of
    Unicode scalar values (no surrogate code points), and objects whose
    keys are distinct, as the keys of a [dict] are. *)

(** Unicode scalar values: code points that are not surrogates. *)
Definition scalar (c : N) : bool :=
  (c <? 0xD800) || ((0xE000 <=? c) && (c <? 0x110000)).

(** No key occurs twice. *)
Fixpoint unique_keys (ks : list str) : bool :=
  match ks with
  | [] => true
  | k :: rest => negb (existsb (str_eqb k) rest) && unique_keys rest
  end.

(** Finite binary64 numbers for the floats, scalar values in every string
    and key, distinct keys in every object. *)
Fixpoint well_formed (v : json) : bool :=
  match v with
  | JNull | JBool _ | JInt _ => true
  | JFloat x => finite x && binary64 x
  | JStr s => forallb scalar s
  | JList xs => forallb well_formed xs
  | JDict kvs =>
      forallb (fun kv => forallb scalar (fst kv) && well_formed (snd kv)) kvs
      && unique_keys (List.map fst kvs)
  end.

(** What may follow a value inside the text [dumps] writes: the end, a
    comma or a closing bracket. *)
Definition delimited (rest : str) : Prop :=
  match rest with
  | [] => True
  | c :: _ => c = 44 \/ c = 93 \/ c = 125
  end.

(** Induction over values, with the hypothesis for every element of a list
    and every value of a dict. *)
Section JsonInduction.

Variable P : json -> Prop.
Hypothesis HNull : P JNull.
Hypothesis HBool : forall b, P (JBool b).
Hypothesis HInt : forall z, P (JInt z).
Hypothesis HFloat : forall x, P (JFloat x).
Hypothesis HStr : forall s, P (JStr s).
Hypothesis HList : forall xs, Forall P xs -> P (JList xs).
Hypothesis HDict :
  forall kvs, Forall (fun kv => P (snd kv)) kvs -> P (JDict kvs).

Fixpoint json_induction (v : json) : P v :=
  match v with
  | JNull => HNull
  | JBool b => HBool b
  | JInt z => HInt z
  | JFloat x => HFloat x
  | JStr s => HStr s
  | JList xs =>
      @HList xs ((fix all (l : list json) : Forall P l :=
                   match l with
                   | [] => Forall_nil P
                   | x :: r => Forall_cons x (json_induction x) (all r)
                   end) xs)
  | JDict kvs =>
      @HDict kvs ((fix all (l : list (str * json))
                    : Forall (fun kv => P (snd kv)) l :=
                    match l with
                    | [] => Forall_nil _
                    | kv :: r =>
                        Forall_cons kv (json_induction (snd kv)) (all r)
                    end) kvs)
  end.

End JsonInduction.

(** One entry of an object as [dumps] writes it. *)
Definition entry (kv : str * json) : str :=
  encode_basestring_ascii (fst kv) ++ key_separator ++ dumps (snd kv).

(** [scan_once] reads [v] back from what [dumps] wrote, whatever delimited
    input follows: one unit of fuel per character written is enough. *)
Definition reads_back (v : json) : Prop :=
  well_formed v = true ->
  forall (fuel : nat) (rest : str),
    (List.length (dumps v) <= fuel)%nat ->
    delimited rest ->
    scan_once fuel (dumps v ++ rest) = Some (v, rest).

(** Printable ASCII. *)
Definition printable (c : N) : bool := (32 <=? c) && (c <=? 126).

(** A numeral: digits, the first of them not a zero. *)
Definition numeral (ds : str) : Prop :=
  exists c r, ds = c :: r /\ is_digit c = true /\ c <> 48
              /\ forallb is_digit r = true.

(** The characters of a float numeral. *)
Definition float_char (c : N) : bool :=
  is_digit c || (c =? 45) || (c =? 46) || (c =? 101) || (c =? 43).


End Json.

(* ================================================================== *)
(** ** Bridge: MCPClient and the HTTP handlers *)
(* ================================================================== *)

Module Bridge.

Import Text Json.
Local Open Scope Z_scope.
Local Open Scope string_scope.

(** *** Exceptions and results *)

(** The exceptions the code can meet, all subclasses of [Exception].
    [Exception msg] is the one the source raises itself. *)
Inductive exn : Type :=
| Exception (msg : string)
| AttributeError
| TypeError
| KeyError
| IndexError
| OSError
| ProcessLookupError
| ValueError
| UnicodeEncodeError
| UnicodeDecodeError
| JSONDecodeError
| HTTPException (status_code : Z) (detail : json).

Inductive result (A : Type) : Type :=
| Ok (a : A)
| Raise (e : exn).

Arguments Ok {A} a.
Arguments Raise {A} e.

(** *** The child process

    [asyncio.subprocess.Process] with its [stdin] writer and [stdout]
    reader.  The child is a script: [drains] is what the next calls of
    [stdin.drain()] do, [reads] what the next calls of [stdout.readline()]
    return.  A script that has run out means: [drain()] returns, and
    [readline()] returns [b''] (end of stream).  [stdin_data] records the
    chunks given to [stdin.write], oldest first. *)

(** What the subprocess transport knows of the child when [terminate()]
    is called: the child runs ([Running]); it has exited but a pipe of it
    is still open ([Exited]: the return code is set); or it has exited
    and all its pipes are closed ([Finished]: the transport has dropped
    its [_proc]).  A child may exit on its own at any time: when it does
    is part of its script, as [drains] and [reads] are. *)
Inductive child_status : Type :=
| Running
| Exited
| Finished.

Record Process : Type := mkProcess {
  stdin_data : list bytes;
  drains : list (result unit);
  reads : list (result bytes);
  terminated : bool;
  status : child_status
}.

Definition stdin_write (data : bytes) (p : Process) : result unit * Process :=
  (Ok tt,
   mkProcess (stdin_data p ++ [data])%list (drains p) (reads p) (terminated p)
             (status p)).

Definition stdin_drain (p : Process) : result unit * Process :=
  match drains p with
  | [] => (Ok tt, p)
  | r :: rest =>
      (r, mkProcess (stdin_data p) rest (reads p) (terminated p) (status p))
  end.

Definition stdout_readline (p : Process) : result bytes * Process :=
  match reads p with
  | [] => (Ok [], p)
  | r :: rest =>
      (r, mkProcess (stdin_data p) (drains p) rest (terminated p) (status p))
  end.

(** [Process.terminate()]: the transport checks that it still has its
    [_proc] and raises [ProcessLookupError] otherwise; a child that has
    exited but is not yet dropped is sent nothing, one that runs is sent
    SIGTERM.  [terminated] records that the call returned. *)
Definition terminate (p : Process) : result unit * Process :=
  match status p with
  | Finished => (Raise ProcessLookupError, p)
  | Running | Exited =>
      (Ok tt,
       mkProcess (stdin_data p) (drains p) (reads p) true (status p))
  end.

(** [await Process.wait()]: with the return code set it returns at once;
    for a running child it returns when the child has exited and its
    pipes are closed, and the transport has then dropped its [_proc].
    The child is taken to exit once it has been sent SIGTERM: a child
    that never exits, for which [wait()] does not return, is not
    modelled. *)
Definition wait (p : Process) : result unit * Process :=
  match status p with
  | Running =>
      (Ok tt,
       mkProcess (stdin_data p) (drains p) (reads p) (terminated p) Finished)
  | Exited | Finished => (Ok tt, p)
  end.

(** *** MCPClient *)

Record MCPClient : Type := mkClient {
  process : option Process;
  connected : bool
}.

(** [MCPClient.__init__] *)
Definition new_client : MCPClient := mkClient None false.

(** A method of the client: it may raise, and it may change the client. *)
Definition M (A : Type) : Type := MCPClient -> result A * MCPClient.

Definition ret {A} (a : A) : M A := fun c => (Ok a, c).

Definition raise {A} (e : exn) : M A := fun c => (Raise e, c).

Definition bind {A B} (m : M A) (k : A -> M B) : M B :=
  fun c => match m c with
           | (Ok a, c') => k a c'
           | (Raise e, c') => (Raise e, c')
           end.

Notation "x <- m ;; k" := (bind m (fun x => k))
  (at level 61, m at next level, right associativity).
Notation "m ;;; k" := (bind m (fun _ => k))
  (at level 61, right associativity).

(** [try: body except Exception as e: handler(e)] *)
Definition try_except {A} (body : M A) (handler : exn -> M A) : M A :=
  fun c => match body c with
           | (Ok a, c') => (Ok a, c')
           | (Raise e, c') => handler e c'
           end.

(** A value or an exception that does not touch the client. *)
Definition lift {A} (r : result A) : M A := fun c => (r, c).

Definition or_raise {A} (o : option A) (e : exn) : result A :=
  match o with Some a => Ok a | None => Raise e end.

(** An operation on [self.process]; on [None] the attribute access fails. *)
Definition on_process {A} (f : Process -> result A * Process) : M A :=
  fun c => match process c with
           | Some p => let (r, p') := f p in (r, mkClient (Some p') (connected c))
           | None => (Raise AttributeError, c)
           end.

Definition set_process (p : Process) : M unit :=
  fun c => (Ok tt, mkClient (Some p) (connected c)).

Definition set_connected (b : bool) : M unit :=
  fun c => (Ok tt, mkClient (process c) b).

(** *** Dynamic operations on JSON values *)

(** [d.get(key, default)] *)
Definition py_get (d : json) (key : string) (default : json) : result json :=
  match d with
  | JDict kvs => Ok (match dict_get kvs (lit key) with
                     | Some v => v
                     | None => default
                     end)
  | _ => Raise AttributeError
  end.

(** [key in x], for a string [key] *)
Definition py_in (key : string) (x : json) : result bool :=
  match x with
  | JDict kvs => Ok (dict_has kvs (lit key))
  | JList xs =>
      Ok (existsb (fun v => match v with
                            | JStr s => str_eqb s (lit key)
                            | _ => false
                            end) xs)
  | JStr s => Ok (str_contains (lit key) s)
  | _ => Raise TypeError
  end.

(** [x[key]], for a string [key] *)
Definition py_getitem (x : json) (key : string) : result json :=
  match x with
  | JDict kvs => or_raise (dict_get kvs (lit key)) KeyError
  | _ => Raise TypeError
  end.

(** *** The wire format: lines 120-121 and 126 of the source *)

(** [(json.dumps(request) + '\n').encode()] *)
Definition encode_message (request : json) : result bytes :=
  or_raise (Text.encode (dumps request ++ [10%N])%list) UnicodeEncodeError.

(** [json.loads(response_line.decode().strip())] *)
Definition decode_message (response_line : bytes) : result json :=
  match Text.decode response_line with
  | None => Raise UnicodeDecodeError
  | Some text => or_raise (loads (strip text)) JSONDecodeError
  end.

(** *** MCPClient.send_request *)

Definition send_request (request : json) : M json :=
  fun c =>
    match process c with
    | None => (Raise (Exception "MCP server not connected"), c)
    | Some _ =>
        try_except
          (data <- lift (encode_message request) ;;
           on_process (stdin_write data) ;;;
           on_process stdin_drain ;;;
           response_line <- on_process stdout_readline ;;
           response <- lift (decode_message response_line) ;;
           ret response)
          (fun e => raise e) c
    end.

(** *** Configuration and MCPClient.connect *)

(** The environment of the module: the loaded configuration
    ([mcp_config.config]) and what [asyncio.create_subprocess_exec] does
    with a command line. *)
Record Env : Type := mkEnv {
  config : json;
  spawn : list json -> result Process
}.

(** [MCPConfig.load_config]: the parsed file, or [{}] when it cannot be
    read or parsed. *)
Definition load_config (file : option str) : json :=
  match file with
  | Some text => match loads text with Some v => v | None => JDict [] end
  | None => JDict []
  end.

(** Lines 64-79: the command line of the first configured server. *)
Definition resolve_command (cfg : json) : result (list json) :=
  match py_get cfg "mcpServers" (JDict []) with
  | Raise e => Raise e
  | Ok server_config =>
      if negb (truthy server_config)
      then Raise (Exception "No MCP server configuration found")
      else
        match server_config with
        | JDict kvs =>
            match kvs with
            | [] => Raise IndexError
            | (server_name, _) :: _ =>
                match dict_get kvs server_name with
                | None => Raise KeyError
                | Some server_info =>
                    match py_get server_info "command" JNull with
                    | Raise e => Raise e
                    | Ok command =>
                        match py_get server_info "args" (JList []) with
                        | Raise e => Raise e
                        | Ok args =>
                            if negb (truthy command)
                            then Raise (Exception
                                          "No command specified in MCP config")
                            else
                              match args with
                              | JList xs => Ok (command :: xs)
                              | _ => Raise TypeError
                              end
                        end
                    end
                end
            end
        | _ => Raise AttributeError
        end
  end.

Definition init_request : json :=
  JDict [
    (lit "jsonrpc", JStr (lit "2.0"));
    (lit "id", JInt 1);
    (lit "method", JStr (lit "initialize"));
    (lit "params", JDict [
       (lit "protocolVersion", JStr (lit "2024-11-05"));
       (lit "capabilities", JDict [
          (lit "roots", JDict [(lit "listChanged", JBool true)]);
          (lit "sampling", JDict [])]);
       (lit "clientInfo", JDict [
          (lit "name", JStr (lit "fastapi-mcp-bridge"));
          (lit "version", JStr (lit "1.0.0"))])])].

Definition connect (env : Env) : M unit :=
  try_except
    (full_command <- lift (resolve_command (config env)) ;;
     p <- lift (spawn env full_command) ;;
     set_process p ;;;
     send_request init_request ;;;
     set_connected true)
    (fun e => raise e).

(** *** MCPClient.disconnect *)

Definition disconnect : M unit :=
  fun c =>
    match process c with
    | Some _ =>
        (on_process terminate ;;;
         on_process wait ;;;
         set_connected false) c
    | None => (Ok tt, c)
    end.

(** [startup_event]: a failed [connect] is logged and dropped. *)
Definition startup_event (env : Env) : M unit :=
  try_except (connect env) (fun _ => ret tt).

(** *** The handlers *)

Record MCPResponse : Type := mkResponse {
  success : bool;
  result_ : option json;
  error : option exn   (* [str(e)] of this exception *)
}.

Record ToolCall : Type := mkToolCall {
  tool_name : str;
  parameters : dict
}.

Record MCPRequest : Type := mkRequest {
  method : str;
  params : option dict
}.

(** The body the three handlers share after they have built [request]:
    send it, turn an [error] member into [HTTPException(500)], and wrap
    whatever was raised into a response with [success=False]. *)
Definition forward (request : json) : M MCPResponse :=
  try_except
    (response <- send_request request ;;
     has_error <- lift (py_in "error" response) ;;
     if (has_error : bool)
     then detail <- lift (py_getitem response "error") ;;
          raise (HTTPException 500 detail)
     else result <- lift (py_get response "result" (JDict [])) ;;
          ret (mkResponse true (Some result) None))
    (fun e => ret (mkResponse false None (Some e))).

Definition list_tools_request : json :=
  JDict [(lit "jsonrpc", JStr (lit "2.0"));
         (lit "id", JInt 2);
         (lit "method", JStr (lit "tools/list"))].

Definition call_tool_request (tool_call : ToolCall) : json :=
  JDict [(lit "jsonrpc", JStr (lit "2.0"));
         (lit "id", JInt 3);
         (lit "method", JStr (lit "tools/call"));
         (lit "params", JDict [
            (lit "name", JStr (tool_name tool_call));
            (lit "arguments", JDict (parameters tool_call))])].

Definition send_mcp_request_request (mcp_request : MCPRequest) : json :=
  JDict [(lit "jsonrpc", JStr (lit "2.0"));
         (lit "id", JInt 4);
         (lit "method", JStr (method mcp_request));
         (lit "params",
          match params mcp_request with
          | Some (kv :: kvs) => JDict (kv :: kvs)
          | _ => JDict []
          end)].

(** [GET /tools] *)
Definition list_tools : M MCPResponse := forward list_tools_request.

(** [POST /tools/call] *)
Definition call_tool (tool_call : ToolCall) : M MCPResponse :=
  forward (call_tool_request tool_call).

(** [POST /mcp/request] *)
Definition send_mcp_request (mcp_request : MCPRequest) : M MCPResponse :=
  forward (send_mcp_request_request mcp_request).

(** [GET /health] *)
Definition health_check (env : Env) (c : MCPClient) : dict :=
  [(lit "status", JStr (lit "healthy"));
   (lit "mcp_connected", JBool (connected c));
   (lit "config_loaded", JBool (truthy (config env)))].

(** [GET /] *)
Definition root (c : MCPClient) : dict :=
  [(lit "message", JStr (lit "MCP Bridge API is running"));
   (lit "connected", JBool (connected c))].

(** The status FastAPI answers with: 200 for a returned value, the
    status of a raised [HTTPException], 500 for any other exception. *)
Definition http_status {A} (r : result A) : Z :=
  match r with
  | Ok _ => 200
  | Raise (HTTPException code _) => code
  | Raise _ => 500
  end.

(** *** Sessions: a sequence of handler calls on one client *)

Inductive endpoint : Type :=
| ListTools
| CallTool (tool_call : ToolCall)
| SendMcpRequest (mcp_request : MCPRequest).

Definition endpoint_request (ep : endpoint) : json :=
  match ep with
  | ListTools => list_tools_request
  | CallTool tc => call_tool_request tc
  | SendMcpRequest r => send_mcp_request_request r
  end.

Definition run_endpoint (ep : endpoint) : M MCPResponse :=
  match ep with
  | ListTools => list_tools
  | CallTool tc => call_tool tc
  | SendMcpRequest r => send_mcp_request r
  end.

Fixpoint run_session (eps : list endpoint) (c : MCPClient) : MCPClient :=
  match eps with
  | [] => c
  | ep :: rest => run_session rest (snd (run_endpoint ep c))
  end.

(** The [id] member of each message the child has been sent, read back
    from the bytes on its stdin. *)
Definition sent_ids (c : MCPClient) : list (option json) :=
  match process c with
  | None => []
  | Some p =>
      List.map (fun data => match decode_message data with
                            | Ok (JDict kvs) => dict_get kvs (lit "id")
                            | _ => None
                            end) (stdin_data p)
  end.

(** *** Vocabulary of the specification *)

(** The [id] member of a message. *)
Definition message_id (m : json) : option json :=
  match m with
  | JDict kvs => dict_get kvs (lit "id")
  | _ => None
  end.

(** [m[k]] of a message that is an object. *)
Definition member (m : json) (k : string) : option json :=
  match m with
  | JDict kvs => dict_get kvs (lit k)
  | _ => None
  end.

(** The id each handler writes into its request. *)
Definition endpoint_id (ep : endpoint) : Z :=
  match ep with
  | ListTools => 2
  | CallTool _ => 3
  | SendMcpRequest _ => 4
  end.

(** A response that is an object with an [error] member. *)
Definition carries_error (response : json) : bool :=
  match response with
  | JDict kvs => dict_has kvs (lit "error")
  | _ => false
  end.

(** The next [drain()] of the child returns. *)
Definition drain_ok (p : Process) : Prop :=
  match drains p with
  | [] | Ok _ :: _ => True
  | Raise _ :: _ => False
  end.

(** The transport-level failures of one call on child [p], each with the
    exception it shows up as: the write fails, the read fails, the stream
    has ended ([readline()] gives [b''], which is no JSON text), or the
    line read is not the UTF-8 text of a JSON value. *)
Inductive transport_failure (p : Process) : exn -> Prop :=
| WriteFailed (e : exn) (rest : list (result unit)) :
    drains p = Raise e :: rest -> transport_failure p e
| ReadFailed (e : exn) (rest : list (result bytes)) :
    drain_ok p -> reads p = Raise e :: rest -> transport_failure p e
| EndOfStream :
    drain_ok p -> reads p = [] -> transport_failure p JSONDecodeError
| MalformedMessage (line : bytes) (rest : list (result bytes)) (e : exn) :
    drain_ok p -> reads p = Ok line :: rest ->
    decode_message line = Raise e -> transport_failure p e.

End Bridge.

(* ================================================================== *)
(** ** Scenarios: concrete configurations, children and requests *)
(* ================================================================== *)

Module Scenario.

Import Text Json Bridge.
Local Open Scope string_scope.

(** The bytes of a line of JSON text written with apostrophes in place of
    double quotes, with its newline. *)
Definition line (s : string) : bytes :=
  (List.map (fun b => if Byte.eqb b x27 then x22 else b)
            (list_byte_of_string s) ++ [x0a])%list.

(** A configuration with one server, [echo-server], without arguments. *)
Definition echo_config : json :=
  JDict [(lit "mcpServers",
          JDict [(lit "echo",
                  JDict [(lit "command", JStr (lit "echo-server"));
                         (lit "args", JList [])])])].

(** A running child that will print [lines], one per [readline()]. *)
Definition child (lines : list bytes) : Process :=
  mkProcess [] [] (List.map Ok lines) false Running.

Definition echo_env (lines : list bytes) : Env :=
  mkEnv echo_config (fun _ => Ok (child lines)).

(** A client in the connected state on such a child. *)
Definition ready (lines : list bytes) : MCPClient :=
  mkClient (Some (child lines)) true.

Definition ok_1 : bytes := line "{'jsonrpc':'2.0','id':1,'result':{}}".
Definition tools_2 : bytes :=
  line "{'jsonrpc':'2.0','id':2,'result':{'tools':[]}}".
Definition ok_3 : bytes := line "{'jsonrpc':'2.0','id':3,'result':{}}".
Definition ok_99 : bytes := line "{'jsonrpc':'2.0','id':99,'result':{}}".

(** A request with id 5. *)
Definition request_5 : json :=
  JDict [(lit "jsonrpc", JStr (lit "2.0"));
         (lit "id", JInt 5);
         (lit "method", JStr (lit "tools/list"))].

(** The response [ok_99] carries. *)
Definition response_99 : json :=
  JDict [(lit "jsonrpc", JStr (lit "2.0"));
         (lit "id", JInt 99);
         (lit "result", JDict [])].

(** The bytes [connect] writes. *)
Definition handshake_line : bytes :=
  line ("{'jsonrpc': '2.0', 'id': 1, 'method': 'initialize', 'params': "
        ++ "{'protocolVersion': '2024-11-05', 'capabilities': "
        ++ "{'roots': {'listChanged': true}, 'sampling': {}}, 'clientInfo': "
        ++ "{'name': 'fastapi-mcp-bridge', 'version': '1.0.0'}}}").

(** An error response to the handshake. *)
Definition error_1 : bytes :=
  line ("{'jsonrpc':'2.0','id':1,"
        ++ "'error':{'code':-32601,'message':'Method not found'}}").

(** A request with a string id and nested parameters: text with an
    accent, a newline and a character outside the BMP, a list, an inner
    object and the float [0.5]. *)
Definition sample_message : json :=
  JDict [
    (lit "jsonrpc", JStr (lit "2.0"));
    (lit "id", JStr (lit "req-7"));
    (lit "method", JStr (lit "tools/call"));
    (lit "params", JDict [
       (lit "name", JStr (lit "echo"));
       (lit "arguments", JDict [
          (lit "text", JStr [104; 233; 10; 128512]%N);
          (lit "depth", JList [JInt 1; JInt (-20); JDict [(lit "k", JNull)]]);
          (lit "flag", JBool true);
          (lit "temperature",
           JFloat (FFinite false 4503599627370496 (-53)))])])].

Definition echo_tool_call : ToolCall :=
  mkToolCall (lit "echo") [(lit "text", JStr (lit "hi"))].

End Scenario.

(* ================================================================== *)
(** ** The application: startup, the handlers in turn, shutdown *)
(* ================================================================== *)

Module App.

Import Text Json Bridge.

(** The globals of the module: [mcp_config = MCPConfig()] holds what
    [load_config] made of the file ([file] is its text, [None] when it
    cannot be opened or read), and [spawn] is what
    [asyncio.create_subprocess_exec] does. *)
Definition module_env (file : option str)
           (spawn : list json -> result Process) : Env :=
  mkEnv (load_config file) spawn.

(** [shutdown_event] *)
Definition shutdown_event : M unit := disconnect.

(** What a handler makes of the outcome of its [send_request]: lines
    173-179 of [list_tools], and the same lines of [call_tool] and
    [send_mcp_request]. *)
Definition answer (outcome : result json) : MCPResponse :=
  match outcome with
  | Raise e => mkResponse false None (Some e)
  | Ok response =>
      match py_in "error" response with
      | Raise e => mkResponse false None (Some e)
      | Ok true =>
          match py_getitem response "error" with
          | Raise e => mkResponse false None (Some e)
          | Ok detail =>
              mkResponse false None (Some (HTTPException 500 detail))
          end
      | Ok false =>
          match py_get response "result" (JDict []) with
          | Raise e => mkResponse false None (Some e)
          | Ok result => mkResponse true (Some result) None
          end
      end
  end.

(** The handlers called one after another on the global client, each
    running to its end before the next starts; what each call gave, in
    the order of the calls. *)
Fixpoint serve (eps : list endpoint) (c : MCPClient)
  : list (result MCPResponse) * MCPClient :=
  match eps with
  | [] => ([], c)
  | ep :: rest =>
      let (r, c1) := run_endpoint ep c in
      let (rs, c2) := serve rest c1 in
      (r :: rs, c2)
  end.

(** One run of the application: [startup_event] on the fresh global
    client, the calls of the handlers, [shutdown_event]. *)
Definition lifetime (env : Env) (eps : list endpoint)
  : list (result MCPResponse) * MCPClient :=
  let c0 := snd (startup_event env new_client) in
  let (responses, c1) := serve eps c0 in
  (responses, snd (shutdown_event c1)).

(** The chunks the child of the client has been sent so far. *)
Definition written (c : MCPClient) : list bytes :=
  match process c with
  | Some p => stdin_data p
  | None => []
  end.

(** The chunks the handlers give to [stdin.write] for these calls on a
    client with a child: the line of each request that can be encoded. *)
Definition chunks (eps : list endpoint) : list bytes :=
  flat_map (fun ep => match encode_message (endpoint_request ep) with
                      | Ok data => [data]
                      | Raise _ => []
                      end) eps.

(** The request can be written: [dumps] and [encode] return. *)
Definition encodes (request : json) : bool :=
  match encode_message request with
  | Ok _ => true
  | Raise _ => false
  end.

(** The parameters of a call are well-formed: finite floats, text of
    Unicode scalar values only, and no key twice. *)
Definition endpoint_well_formed (ep : endpoint) : bool :=
  match ep with
  | ListTools => true
  | CallTool tc =>
      forallb scalar (tool_name tc) && well_formed (JDict (parameters tc))
  | SendMcpRequest r =>
      forallb scalar (method r)
      && match params r with
         | Some d => well_formed (JDict d)
         | None => true
         end
  end.

(** No float anywhere in a value. *)
Fixpoint float_free (v : json) : bool :=
  match v with
  | JFloat _ => false
  | JList xs => forallb float_free xs
  | JDict kvs => forallb (fun kv => float_free (snd kv)) kvs
  | _ => true
  end.

End App.

(* ================================================================== *)
(** ** Properties *)
(* ================================================================== *)

Import Text Json Bridge Scenario.

Unset Implicit Arguments.

(** *** Strings and dicts *)

Lemma str_eqb_refl (a : str) : str_eqb a a = true.
Proof.
  induction a as [|x a IH]; simpl; [reflexivity|].
  now rewrite N.eqb_refl, IH.
Qed.

Lemma str_eqb_eq (a b : str) : str_eqb a b = true <-> a = b.
Proof.
  revert b; induction a as [|x a IH]; intros [|y b]; simpl;
    try (split; congruence).
  rewrite andb_true_iff, N.eqb_eq, IH. split.
  - intros [-> ->]; reflexivity.
  - intros E; injection E; auto.
Qed.

Lemma str_eqb_neq (a b : str) : str_eqb a b = false <-> a <> b.
Proof.
  rewrite <- str_eqb_eq. destruct (str_eqb a b); split; congruence.
Qed.

(** *** What one call of [send_request] does *)

Section SendRequest.

Variable request : json.
Variable c : MCPClient.

(** The outcome of [send_request] on a client that has a process, step by
    step: encode, write, drain, read a line, decode it. *)
Lemma send_request_steps (p : Process) :
  process c = Some p ->
  send_request request c =
    match encode_message request with
    | Raise e => (Raise e, c)
    | Ok data =>
        let p1 := mkProcess (stdin_data p ++ [data]) (drains p) (reads p)
                            (terminated p) (status p) in
        match stdin_drain p1 with
        | (Raise e, p2) => (Raise e, mkClient (Some p2) (connected c))
        | (Ok _, p2) =>
            match stdout_readline p2 with
            | (Raise e, p3) => (Raise e, mkClient (Some p3) (connected c))
            | (Ok line, p3) =>
                (decode_message line, mkClient (Some p3) (connected c))
            end
        end
    end.
Proof.
  intros Hp. unfold send_request. rewrite Hp.
  unfold try_except, bind, lift, on_process, ret, raise.
  destruct (encode_message request) as [data|e]; [|reflexivity].
  rewrite Hp. cbn [stdin_write process connected].
  destruct (stdin_drain _) as [[[]|e] p2]; [|reflexivity].
  cbn [process connected].
  destruct (stdout_readline p2) as [[line|e] p3]; [|reflexivity].
  cbn [process connected].
  destruct (decode_message line); reflexivity.
Qed.

(** [send_request] never assigns [self.connected]. *)
Lemma send_request_connected :
  connected (snd (send_request request c)) = connected c.
Proof.
  destruct (process c) as [p|] eqn:Hp.
  - rewrite (send_request_steps p Hp).
    destruct (encode_message request); [|reflexivity].
    cbv zeta. destruct (stdin_drain _) as [[[]|e] p2]; [|reflexivity].
    destruct (stdout_readline p2) as [[line|e] p3]; reflexivity.
  - unfold send_request. rewrite Hp. reflexivity.
Qed.

(** Whatever [send_request] raises, the handler body turns it into a
    returned response with [success=False]. *)
Lemma forward_of_raise (e : exn) (c' : MCPClient) :
  send_request request c = (Raise e, c') ->
  forward request c = (Ok (mkResponse false None (Some e)), c').
Proof.
  intros H. unfold forward, try_except, bind. rewrite H. reflexivity.
Qed.

(** The handler body never raises and never assigns [self.connected]. *)
Lemma forward_returns :
  exists r, fst (forward request c) = Ok r
            /\ connected (snd (forward request c)) = connected c.
Proof.
  pose proof send_request_connected as Hc.
  unfold forward, try_except, bind, lift, ret, raise.
  destruct (send_request request c) as [[response|e] c1]; cbn [snd] in Hc;
    [|eexists; split; [reflexivity|exact Hc]].
  destruct (py_in "error" response) as [[|]|e];
    try (eexists; split; [reflexivity|exact Hc]).
  - destruct (py_getitem response "error");
      eexists; split; try reflexivity; exact Hc.
  - destruct (py_get response "result" (JDict []));
      eexists; split; try reflexivity; exact Hc.
Qed.

End SendRequest.

Lemma run_endpoint_forward (ep : endpoint) :
  run_endpoint ep = forward (endpoint_request ep).
Proof. destruct ep; reflexivity. Qed.

(** The handler body leaves the client as [send_request] left it. *)
Lemma forward_client (request : json) (c : MCPClient) :
  snd (forward request c) = snd (send_request request c).
Proof.
  unfold forward, try_except, bind, lift, ret, raise.
  destruct (send_request request c) as [[response|e] c1]; [|reflexivity].
  destruct (py_in "error" response) as [[|]|e]; try reflexivity.
  - destruct (py_getitem response "error"); reflexivity.
  - destruct (py_get response "result" (JDict [])); reflexivity.
Qed.

Lemma stdin_drain_data (p : Process) :
  stdin_data (snd (stdin_drain p)) = stdin_data p.
Proof. unfold stdin_drain. destruct (drains p); reflexivity. Qed.

Lemma stdout_readline_data (p : Process) :
  stdin_data (snd (stdout_readline p)) = stdin_data p.
Proof. unfold stdout_readline. destruct (reads p); reflexivity. Qed.

(** When the next [drain()] returns, only the script moves on. *)
Lemma stdin_drain_ok (p : Process) :
  drain_ok p ->
  exists p', stdin_drain p = (Ok tt, p')
             /\ reads p' = reads p /\ stdin_data p' = stdin_data p.
Proof.
  unfold drain_ok, stdin_drain.
  destruct (drains p) as [|[[]|e] rest]; intros H; try contradiction;
    eexists; repeat split.
Qed.

(** *** Not connected: no process *)

(** C9.  On a client without a child process ([self.process] is [None]),
    [send_request] raises [Exception("MCP server not connected")] and leaves
    the client as it was (there is no stream to write to or read from), and
    each handler returns a response with [success=False] that carries this
    exception. *)
Theorem send_request_without_process :
  forall (c : MCPClient) (request : json)
         (tool_call : ToolCall) (mcp_request : MCPRequest),
    process c = None ->
    let not_connected := Exception "MCP server not connected" in
    let failure := mkResponse false None (Some not_connected) in
    send_request request c = (Raise not_connected, c)
    /\ list_tools c = (Ok failure, c)
    /\ call_tool tool_call c = (Ok failure, c)
    /\ send_mcp_request mcp_request c = (Ok failure, c).
Proof.
  intros c request tool_call mcp_request Hp not_connected failure.
  assert (H : forall r, send_request r c = (Raise not_connected, c)).
  { intros r. unfold send_request. rewrite Hp. reflexivity. }
  split; [apply H|].
  repeat split; apply forward_of_raise, H.
Qed.

Lemma send_request_without_process_witness :
  process new_client = None
  /\ send_request request_5 new_client
     = (Raise (Exception "MCP server not connected"), new_client)
  /\ list_tools new_client
     = (Ok (mkResponse false None
              (Some (Exception "MCP server not connected"))), new_client).
Proof.
  split; [reflexivity|].
  pose proof (send_request_without_process new_client request_5
                echo_tool_call (mkRequest (lit "ping") None) eq_refl) as H.
  exact (conj (proj1 H) (proj1 (proj2 H))).
Defined.

(** *** Health *)

(** C10.  In every state of the client and for every configuration, the
    [status] member of the [/health] answer is the constant ["healthy"];
    the connected flag shows only in [mcp_connected]. *)
Theorem health_check_status :
  forall (env : Env) (c : MCPClient),
    dict_get (health_check env c) (lit "status") = Some (JStr (lit "healthy"))
    /\ dict_get (health_check env c) (lit "mcp_connected")
       = Some (JBool (connected c)).
Proof. intros env c. split; reflexivity. Qed.

(** *** Errors and the HTTP status *)

(** C5, as the code has it.  Whatever [send_request] raises (not connected,
    a failed write or read, an undecodable line), each handler catches it
    and returns a response with [success=False] that carries the exception:
    the HTTP status is 200.  What happens to a response with an [error]
    member is not part of this statement. *)
Theorem handler_returns_failure_response :
  forall (ep : endpoint) (c c' : MCPClient) (e : exn),
    send_request (endpoint_request ep) c = (Raise e, c') ->
    run_endpoint ep c = (Ok (mkResponse false None (Some e)), c')
    /\ http_status (fst (run_endpoint ep c)) = 200%Z.
Proof.
  intros ep c c' e H. rewrite run_endpoint_forward.
  rewrite (forward_of_raise _ _ _ _ H). split; reflexivity.
Qed.

Lemma handler_returns_failure_response_witness :
  send_request (endpoint_request ListTools) new_client
  = (Raise (Exception "MCP server not connected"), new_client)
  /\ http_status (fst (run_endpoint ListTools new_client)) = 200%Z.
Proof.
  split; [reflexivity|].
  exact (proj2 (handler_returns_failure_response ListTools new_client
                  new_client (Exception "MCP server not connected") eq_refl)).
Defined.

(** C5 as stated fails: with no process, [GET /tools] answers 200 with the
    error inside the body. *)
Lemma not_connected_is_http_200 :
  fst (list_tools new_client)
  = Ok (mkResponse false None (Some (Exception "MCP server not connected")))
  /\ http_status (fst (list_tools new_client)) = 200%Z.
Proof. split; reflexivity. Qed.

(** *** The id of a response is not looked at *)

(** A call whose request is written and whose answer decodes: the decoded
    value goes to the caller as it is. *)
Lemma exchange_returns (request : json) (c : MCPClient) (p : Process)
      (data line : bytes) (rest : list (result bytes)) (response : json) :
  process c = Some p ->
  encode_message request = Ok data ->
  drain_ok p ->
  reads p = Ok line :: rest ->
  decode_message line = Ok response ->
  exists c',
    send_request request c = (Ok response, c')
    /\ connected c' = connected c.
Proof.
  intros Hp Henc Hdr Hrd Hdec.
  rewrite (send_request_steps request c p Hp), Henc. cbv zeta.
  destruct (stdin_drain_ok (mkProcess (stdin_data p ++ [data]) (drains p)
                                      (reads p) (terminated p) (status p)) Hdr)
    as (p2 & -> & Hr2 & _).
  cbn [reads] in Hr2. unfold stdout_readline. rewrite Hr2, Hrd, Hdec.
  eexists; split; reflexivity.
Qed.

(** C2, as the code has it.  When the request is written and the child
    answers with a line that decodes to [response], [send_request] returns
    [response] to the caller, whatever [id] it carries, and the connected
    flag stays as it was. *)
Theorem response_id_not_checked :
  forall (request : json) (c : MCPClient) (p : Process) (data line : bytes)
         (rest : list (result bytes)) (response : json),
    process c = Some p ->
    encode_message request = Ok data ->
    drain_ok p ->
    reads p = Ok line :: rest ->
    decode_message line = Ok response ->
    exists c',
      send_request request c = (Ok response, c')
      /\ connected c' = connected c.
Proof. exact exchange_returns. Qed.

Lemma response_id_not_checked_witness :
  message_id request_5 = Some (JInt 5)
  /\ message_id response_99 = Some (JInt 99)
  /\ exists c',
       send_request request_5 (ready [ok_99]) = (Ok response_99, c')
       /\ connected c' = connected (ready [ok_99]).
Proof.
  split; [reflexivity|]. split; [reflexivity|].
  refine (response_id_not_checked request_5 (ready [ok_99])
            (child [ok_99]) _ ok_99 [] response_99 eq_refl _ I eq_refl _).
  - vm_compute. reflexivity.
  - vm_compute. reflexivity.
Defined.

(** C2 as stated fails: the request has id 5, the child answers with id 99,
    and the caller gets that response while the client stays connected. *)
Lemma mismatched_id_is_accepted :
  message_id request_5 = Some (JInt 5)
  /\ fst (send_request request_5 (ready [ok_99])) = Ok response_99
  /\ message_id response_99 = Some (JInt 99)
  /\ connected (snd (send_request request_5 (ready [ok_99]))) = true.
Proof. repeat split; vm_compute; reflexivity. Qed.

(** *** Transport failures *)

(** A call that meets a transport failure: the exception reaches the
    caller, and the handler body wraps it. *)
Lemma exchange_raises (request : json) (c : MCPClient) (p : Process)
      (data : bytes) (e : exn) :
  process c = Some p ->
  encode_message request = Ok data ->
  transport_failure p e ->
  exists c',
    send_request request c = (Raise e, c')
    /\ forward request c = (Ok (mkResponse false None (Some e)), c')
    /\ connected c' = connected c.
Proof.
  intros Hp Henc Hfail.
  assert (H : exists c', send_request request c = (Raise e, c')
                         /\ connected c' = connected c).
  { rewrite (send_request_steps request c p Hp), Henc. cbv zeta.
    set (p1 := mkProcess _ _ _ _ _).
    destruct Hfail as [e rest Hd | e rest Hok Hr | Hok Hr | line rest e Hok Hr Hdec].
    - unfold stdin_drain. cbn [drains p1]. rewrite Hd.
      eexists; split; reflexivity.
    - destruct (stdin_drain_ok p1 Hok) as (p2 & -> & Hr2 & _).
      unfold stdout_readline. rewrite Hr2. cbn [reads p1]. rewrite Hr.
      eexists; split; reflexivity.
    - destruct (stdin_drain_ok p1 Hok) as (p2 & -> & Hr2 & _).
      unfold stdout_readline. rewrite Hr2. cbn [reads p1]. rewrite Hr.
      eexists; split; reflexivity.
    - destruct (stdin_drain_ok p1 Hok) as (p2 & -> & Hr2 & _).
      unfold stdout_readline. rewrite Hr2. cbn [reads p1]. rewrite Hr, Hdec.
      eexists; split; reflexivity. }
  destruct H as (c' & Hs & Hc). exists c'.
  split; [exact Hs|]. split; [|exact Hc].
  apply forward_of_raise, Hs.
Qed.

(** C4, as the code has it.  A transport-level failure during a call (a
    failed write, a failed read, the end of the stream, a line that is not
    the text of a JSON value) is raised to the caller of [send_request] and
    reported by the handler body as a response with [success=False]; the
    connected flag stays as it was. *)
Theorem transport_failure_is_raised :
  forall (request : json) (c : MCPClient) (p : Process) (data : bytes)
         (e : exn),
    process c = Some p ->
    encode_message request = Ok data ->
    transport_failure p e ->
    exists c',
      send_request request c = (Raise e, c')
      /\ forward request c = (Ok (mkResponse false None (Some e)), c')
      /\ connected c' = connected c.
Proof. exact exchange_raises. Qed.

Lemma transport_failure_is_raised_witness :
  transport_failure (child []) JSONDecodeError
  /\ exists c',
       send_request request_5 (ready []) = (Raise JSONDecodeError, c')
       /\ forward request_5 (ready [])
          = (Ok (mkResponse false None (Some JSONDecodeError)), c')
       /\ connected c' = connected (ready []).
Proof.
  assert (F : transport_failure (child []) JSONDecodeError).
  { apply EndOfStream; [exact I | reflexivity]. }
  split; [exact F|].
  refine (transport_failure_is_raised request_5 (ready [])
            (child []) _ JSONDecodeError eq_refl _ F).
  vm_compute. reflexivity.
Defined.

(** C4 as stated fails: the stream of a connected client has ended,
    [GET /tools] reports the failure, and [/health] still says connected. *)
Lemma still_connected_after_end_of_stream :
  connected (ready []) = true
  /\ fst (list_tools (ready []))
     = Ok (mkResponse false None (Some JSONDecodeError))
  /\ connected (snd (list_tools (ready []))) = true
  /\ dict_get (health_check (echo_env []) (snd (list_tools (ready []))))
              (lit "mcp_connected") = Some (JBool true).
Proof. repeat split; vm_compute; reflexivity. Qed.

(** *** connect *)

(** [connect] once the child is spawned: the handshake goes through
    [send_request], and only its raising keeps [connected] from being set. *)
Lemma connect_steps (env : Env) (c : MCPClient)
      (full_command : list json) (p : Process) :
  resolve_command (config env) = Ok full_command ->
  spawn env full_command = Ok p ->
  connect env c =
    match send_request init_request (mkClient (Some p) (connected c)) with
    | (Ok _, c') => (Ok tt, mkClient (process c') true)
    | (Raise e, c') => (Raise e, c')
    end.
Proof.
  intros Hres Hsp.
  unfold connect, try_except, bind, lift, set_process, set_connected, raise.
  rewrite Hres, Hsp.
  destruct (send_request init_request _) as [[r|e] c']; reflexivity.
Qed.

(** Without a command line or without a child, [connect] raises and the
    client is as before. *)
Lemma connect_without_child (env : Env) (c : MCPClient) (e : exn) :
  resolve_command (config env) = Raise e
  \/ (exists full_command,
         resolve_command (config env) = Ok full_command
         /\ spawn env full_command = Raise e) ->
  connect env c = (Raise e, c).
Proof.
  unfold connect, try_except, bind, lift, raise.
  intros [H | (cmd & H & Hsp)]; rewrite H; [reflexivity|].
  rewrite Hsp. reflexivity.
Qed.

Lemma encode_init_request : encode_message init_request = Ok handshake_line.
Proof. vm_compute. reflexivity. Qed.

(** C3, as the code has it.  With the child spawned: if the handshake
    exchange fails at the transport (write, read, end of stream, a line that
    is not JSON text), [connect] raises that exception and the connected
    flag stays as it was; if the child answers with any JSON value that is
    not an object with an [error] member, whatever its [id], [connect]
    returns and the client is connected. *)
Theorem connect_outcome :
  forall (env : Env) (c : MCPClient) (full_command : list json) (p : Process),
    resolve_command (config env) = Ok full_command ->
    spawn env full_command = Ok p ->
    (forall e : exn,
        transport_failure p e ->
        exists c', connect env c = (Raise e, c')
                   /\ connected c' = connected c)
    /\ (forall (line : bytes) (rest : list (result bytes)) (response : json),
           drain_ok p ->
           reads p = Ok line :: rest ->
           decode_message line = Ok response ->
           carries_error response = false ->
           exists c', connect env c = (Ok tt, c') /\ connected c' = true).
Proof.
  intros env c cmd p Hres Hsp. rewrite (connect_steps env c cmd p Hres Hsp).
  split.
  - intros e Hfail.
    destruct (exchange_raises init_request
                (mkClient (Some p) (connected c)) p handshake_line e eq_refl
                encode_init_request Hfail) as (c' & -> & _ & Hc).
    exists c'. split; [reflexivity|exact Hc].
  - intros line rest response Hok Hr Hdec _.
    destruct (exchange_returns init_request
                (mkClient (Some p) (connected c)) p handshake_line line rest
                response eq_refl encode_init_request Hok Hr Hdec)
      as (c' & -> & _).
    eexists; split; reflexivity.
Qed.

Lemma connect_outcome_witness :
  (exists c', connect (echo_env []) new_client = (Raise JSONDecodeError, c')
              /\ connected c' = connected new_client)
  /\ (exists c', connect (echo_env [ok_1]) new_client = (Ok tt, c')
                 /\ connected c' = true).
Proof.
  split.
  - refine (proj1 (connect_outcome (echo_env []) new_client
                     [JStr (lit "echo-server")] (child []) eq_refl eq_refl)
              JSONDecodeError _).
    apply EndOfStream; [exact I | reflexivity].
  - refine (proj2 (connect_outcome (echo_env [ok_1]) new_client
                     [JStr (lit "echo-server")] (child [ok_1])
                     eq_refl eq_refl)
              ok_1 [] (JDict [(lit "jsonrpc", JStr (lit "2.0"));
                              (lit "id", JInt 1);
                              (lit "result", JDict [])]) I eq_refl _ eq_refl).
    vm_compute. reflexivity.
Defined.

(** C3 as stated fails: the handshake has id 1; a child that answers with
    id 99, and one that answers with an error response, both leave the
    client connected. *)
Lemma connect_accepts_any_response :
  message_id init_request = Some (JInt 1)
  /\ fst (connect (echo_env [ok_99]) new_client) = Ok tt
  /\ connected (snd (connect (echo_env [ok_99]) new_client)) = true
  /\ option_map carries_error
       (match decode_message error_1 with Ok r => Some r | Raise _ => None end)
     = Some true
  /\ fst (connect (echo_env [error_1]) new_client) = Ok tt
  /\ connected (snd (connect (echo_env [error_1]) new_client)) = true.
Proof. repeat split; vm_compute; reflexivity. Qed.

(** *** What is written to the child *)

(** One call of [send_request] appends the encoded request to the child's
    stdin, whether or not the exchange then succeeds. *)
Lemma send_request_writes (request : json) (c : MCPClient) (p : Process)
      (data : bytes) :
  process c = Some p ->
  encode_message request = Ok data ->
  exists p', process (snd (send_request request c)) = Some p'
             /\ stdin_data p' = stdin_data p ++ [data].
Proof.
  intros Hp Henc. rewrite (send_request_steps request c p Hp), Henc. cbv zeta.
  set (p1 := mkProcess _ _ _ _ _).
  pose proof (stdin_drain_data p1) as Hd.
  destruct (stdin_drain p1) as [[[]|e] p2]; cbn [snd] in Hd.
  - pose proof (stdout_readline_data p2) as Hr.
    destruct (stdout_readline p2) as [[l|e] p3]; cbn [snd] in Hr;
      exists p3; (split; [reflexivity|]); rewrite Hr, Hd; reflexivity.
  - exists p2. split; [reflexivity|]. rewrite Hd. reflexivity.
Qed.

(** C1, as the code has it.  The request of a handler carries the fixed id
    of that handler: 2 for [/tools], 3 for [/tools/call], 4 for
    [/mcp/request]; each is greater than the id 1 of the handshake, and the
    ids of different handlers differ.  A handler call on a client with a
    child writes at most that one request. *)
Theorem request_id_of_endpoint :
  forall (ep : endpoint) (c : MCPClient) (p : Process),
    process c = Some p ->
    message_id (endpoint_request ep) = Some (JInt (endpoint_id ep))
    /\ message_id init_request = Some (JInt 1)
    /\ (1 < endpoint_id ep)%Z
    /\ exists p',
         process (snd (run_endpoint ep c)) = Some p'
         /\ (stdin_data p' = stdin_data p
             \/ exists data,
                  encode_message (endpoint_request ep) = Ok data
                  /\ stdin_data p' = stdin_data p ++ [data]).
Proof.
  intros ep c p Hp.
  split; [destruct ep; reflexivity|].
  split; [reflexivity|].
  split; [destruct ep; reflexivity|].
  rewrite run_endpoint_forward, forward_client.
  destruct (encode_message (endpoint_request ep)) as [data|e] eqn:Henc.
  - destruct (send_request_writes _ c p data Hp Henc) as (p' & H1 & H2).
    exists p'. split; [exact H1|]. right. exists data. split; [reflexivity|exact H2].
  - rewrite (send_request_steps _ c p Hp), Henc. exists p.
    split; [exact Hp|]. left; reflexivity.
Qed.

Lemma request_id_of_endpoint_witness :
  process (ready [tools_2]) = Some (child [tools_2])
  /\ message_id (endpoint_request ListTools) = Some (JInt 2)
  /\ (1 < endpoint_id ListTools)%Z.
Proof.
  split; [reflexivity|].
  pose proof (request_id_of_endpoint ListTools (ready [tools_2])
                (child [tools_2]) eq_refl) as H.
  exact (conj (proj1 H) (proj1 (proj2 (proj2 H)))).
Defined.

(** C1 as stated fails: after the handshake, two calls of [/tools] both send
    id 2, and [/tools/call] followed by [/tools] sends 3 and then 2. *)
Lemma request_ids_repeat_and_decrease :
  sent_ids (run_session [ListTools; ListTools]
              (snd (connect (echo_env [ok_1; tools_2; tools_2]) new_client)))
  = [Some (JInt 1); Some (JInt 2); Some (JInt 2)]
  /\ sent_ids (run_session [CallTool echo_tool_call; ListTools]
                 (snd (connect (echo_env [ok_1; ok_3; tools_2]) new_client)))
     = [Some (JInt 1); Some (JInt 3); Some (JInt 2)].
Proof. split; vm_compute; reflexivity. Qed.

(** C8.  Once the child is spawned, [connect] writes one chunk to its stdin:
    the handshake.  It is a JSON object on one line, ended by the only
    newline in it; its [method] is ["initialize"], its
    [params.protocolVersion] is the fixed string ["2024-11-05"], its
    [params.capabilities] is [{roots: {listChanged: true}, sampling: {}}],
    and [params.clientInfo] has a [name] and a [version]. *)
Theorem handshake_written :
  forall (env : Env) (c : MCPClient) (full_command : list json) (p : Process),
    resolve_command (config env) = Ok full_command ->
    spawn env full_command = Ok p ->
    exists (p' : Process) (params info : json),
      process (snd (connect env c)) = Some p'
      /\ stdin_data p' = stdin_data p ++ [handshake_line]
      /\ encode_message init_request = Ok handshake_line
      /\ decode_message handshake_line = Ok init_request
      /\ last handshake_line x00 = x0a
      /\ existsb (Byte.eqb x0a) (removelast handshake_line) = false
      /\ member init_request "method" = Some (JStr (lit "initialize"))
      /\ member init_request "params" = Some params
      /\ member params "protocolVersion" = Some (JStr (lit "2024-11-05"))
      /\ member params "capabilities"
         = Some (JDict [(lit "roots", JDict [(lit "listChanged", JBool true)]);
                        (lit "sampling", JDict [])])
      /\ member params "clientInfo" = Some info
      /\ member info "name" <> None
      /\ member info "version" <> None.
Proof.
  intros env c cmd p Hres Hsp.
  destruct (send_request_writes init_request
              (mkClient (Some p) (connected c)) p handshake_line
              eq_refl encode_init_request) as (p' & H1 & H2).
  exists p'.
  exists (JDict [(lit "protocolVersion", JStr (lit "2024-11-05"));
                 (lit "capabilities",
                  JDict [(lit "roots", JDict [(lit "listChanged", JBool true)]);
                         (lit "sampling", JDict [])]);
                 (lit "clientInfo",
                  JDict [(lit "name", JStr (lit "fastapi-mcp-bridge"));
                         (lit "version", JStr (lit "1.0.0"))])]).
  exists (JDict [(lit "name", JStr (lit "fastapi-mcp-bridge"));
                 (lit "version", JStr (lit "1.0.0"))]).
  split.
  { rewrite (connect_steps env c cmd p Hres Hsp).
    destruct (send_request init_request _) as [[r|e] c']; exact H1. }
  split; [exact H2|].
  split; [exact encode_init_request|].
  split; [vm_compute; reflexivity|].
  repeat split; try (vm_compute; reflexivity); vm_compute; discriminate.
Qed.

Lemma handshake_written_witness :
  exists (p' : Process),
    process (snd (connect (echo_env [ok_1]) new_client)) = Some p'
    /\ stdin_data p' = stdin_data (child [ok_1]) ++ [handshake_line].
Proof.
  destruct (handshake_written (echo_env [ok_1]) new_client
              [JStr (lit "echo-server")] (child [ok_1]) eq_refl eq_refl)
    as (p' & _ & _ & H1 & H2 & _).
  exists p'. exact (conj H1 H2).
Defined.

(** *** Further properties of the session *)

(** A handshake that fails leaves the spawned child assigned to the client:
    [self.process] is set before the handshake and never reset, so later
    calls no longer stop at the not-connected check. *)
Theorem failed_handshake_keeps_child :
  forall (env : Env) (c : MCPClient) (full_command : list json) (p : Process)
         (e : exn),
    resolve_command (config env) = Ok full_command ->
    spawn env full_command = Ok p ->
    transport_failure p e ->
    exists (c' : MCPClient) (p' : Process),
      connect env c = (Raise e, c')
      /\ process c' = Some p'
      /\ connected c' = connected c.
Proof.
  intros env c cmd p e Hres Hsp Hfail.
  rewrite (connect_steps env c cmd p Hres Hsp).
  destruct (send_request_writes init_request
              (mkClient (Some p) (connected c)) p handshake_line
              eq_refl encode_init_request) as (p' & Hp' & _).
  destruct (exchange_raises init_request (mkClient (Some p) (connected c))
              p handshake_line e eq_refl encode_init_request Hfail)
    as (c' & Hs & _ & Hc).
  rewrite Hs in *. exists c', p'. cbn [snd] in Hp'. auto.
Qed.

Lemma failed_handshake_keeps_child_witness :
  exists (c' : MCPClient) (p' : Process),
    connect (echo_env []) new_client = (Raise JSONDecodeError, c')
    /\ process c' = Some p'
    /\ connected c' = connected new_client.
Proof.
  refine (failed_handshake_keeps_child (echo_env []) new_client
            [JStr (lit "echo-server")] (child []) JSONDecodeError
            eq_refl eq_refl _).
  apply EndOfStream; [exact I | reflexivity].
Defined.

(** A response object with an [error] member: the handler raises
    [HTTPException(500)] inside its own [try], catches it, and answers 200
    with [success=False]. *)
Theorem remote_error_is_caught :
  forall (request : json) (c c' : MCPClient) (kvs : dict) (detail : json),
    send_request request c = (Ok (JDict kvs), c') ->
    dict_get kvs (lit "error") = Some detail ->
    forward request c
    = (Ok (mkResponse false None (Some (HTTPException 500 detail))), c')
    /\ http_status (fst (forward request c)) = 200%Z.
Proof.
  intros request c c' kvs detail Hs Hd.
  assert (H : forward request c
              = (Ok (mkResponse false None (Some (HTTPException 500 detail))),
                 c')).
  { unfold forward, try_except, bind, lift, raise, ret. rewrite Hs.
    unfold py_in, py_getitem, dict_has. rewrite Hd. reflexivity. }
  rewrite H. split; reflexivity.
Qed.

Lemma remote_error_is_caught_witness :
  forward request_5 (ready [error_1])
  = (Ok (mkResponse false None
           (Some (HTTPException 500
                    (JDict [(lit "code", JInt (-32601));
                            (lit "message",
                             JStr (lit "Method not found"))])))),
     snd (send_request request_5 (ready [error_1])))
  /\ http_status (fst (forward request_5 (ready [error_1]))) = 200%Z.
Proof.
  refine (remote_error_is_caught request_5 (ready [error_1]) _ _ _ _ _);
    vm_compute; reflexivity.
Defined.

(** The handlers never raise: each call returns a response (HTTP 200) and
    leaves the connected flag as it was. *)
Theorem handlers_never_raise :
  forall (ep : endpoint) (c : MCPClient),
    exists r : MCPResponse,
      fst (run_endpoint ep c) = Ok r
      /\ http_status (fst (run_endpoint ep c)) = 200%Z
      /\ connected (snd (run_endpoint ep c)) = connected c.
Proof.
  intros ep c. rewrite run_endpoint_forward.
  destruct (forward_returns (endpoint_request ep) c) as (r & Hr & Hc).
  exists r. rewrite Hr. auto.
Qed.


(* ------------------------------------------------------------------ *)
(** *** The codec: [loads] reads back what [dumps] wrote *)
(* ------------------------------------------------------------------ *)

Section Codec.

Local Open Scope N_scope.

Lemma hex_value_digit (d : N) : d < 16 -> hex_value (hex_digit d) = Some d.
Proof.
  intros H. unfold hex_value, hex_digit, is_digit.
  destruct (d <? 10) eqn:E.
  - apply N.ltb_lt in E.
    replace ((48 <=? 48 + d) && (48 + d <=? 57)) with true
      by (symmetry; apply andb_true_iff; split; apply N.leb_le; lia).
    f_equal; lia.
  - apply N.ltb_ge in E.
    replace ((48 <=? 87 + d) && (87 + d <=? 57)) with false
      by (symmetry; apply andb_false_iff; right; apply N.leb_gt; lia).
    replace ((97 <=? 87 + d) && (87 + d <=? 102)) with true
      by (symmetry; apply andb_true_iff; split; apply N.leb_le; lia).
    f_equal; lia.
Qed.

Lemma decode_hex4 (n : N) :
  n < 65536 ->
  decode_uXXXX (hex_digit (n / 4096 mod 16)) (hex_digit (n / 256 mod 16))
               (hex_digit (n / 16 mod 16)) (hex_digit (n mod 16)) = Some n.
Proof.
  intros H. unfold decode_uXXXX.
  rewrite !hex_value_digit by (apply N.mod_lt; discriminate).
  f_equal. zify. Z.to_euclidean_division_equations. lia.
Qed.

Lemma lor_add_disjoint (a b k : N) :
  b < 2 ^ k -> N.lor (a * 2 ^ k) b = a * 2 ^ k + b.
Proof.
  intros Hb.
  assert (H0 : N.land (a * 2 ^ k) b = 0).
  { apply N.bits_inj. intros i. rewrite N.land_spec, N.bits_0.
    destruct (N.lt_ge_cases i k) as [Hi|Hi].
    - rewrite N.mul_pow2_bits_low by assumption. reflexivity.
    - rewrite <- (N.mod_small b (2 ^ k)) by assumption.
      rewrite N.mod_pow2_bits_high by assumption. apply andb_false_r. }
  rewrite <- N.lxor_lor by assumption.
  symmetry. apply N.add_nocarry_lxor. assumption.
Qed.

Lemma land_low10 (x : N) : N.land x 0x3FF = x mod 1024.
Proof. change 0x3FF with (N.ones 10). rewrite N.land_ones. reflexivity. Qed.

Lemma surrogate_pair (c : N) :
  0x10000 <= c -> c < 0x110000 ->
  let n := c - 0x10000 in
  let s1 := N.lor 0xD800 (N.land (N.shiftr n 10) 0x3FF) in
  let s2 := N.lor 0xDC00 (N.land n 0x3FF) in
  s1 = 0xD800 + n / 1024 /\ s2 = 0xDC00 + n mod 1024
  /\ n / 1024 < 1024
  /\ join_surrogates s1 s2 = c.
Proof.
  intros Hlo Hhi n s1 s2.
  assert (Hn : n < 1048576) by (unfold n; lia).
  assert (Hq : n / 1024 < 1024).
  { apply N.Div0.div_lt_upper_bound. lia. }
  assert (Hr : n mod 1024 < 1024) by (apply N.mod_lt; discriminate).
  assert (E1 : s1 = 0xD800 + n / 1024).
  { unfold s1. rewrite land_low10, N.shiftr_div_pow2.
    change (2 ^ 10) with 1024. rewrite (N.mod_small _ _ Hq).
    change 0xD800 with (54 * 2 ^ 10). apply lor_add_disjoint. exact Hq. }
  assert (E2 : s2 = 0xDC00 + n mod 1024).
  { unfold s2. rewrite land_low10.
    change 0xDC00 with (55 * 2 ^ 10). apply lor_add_disjoint. exact Hr. }
  repeat split; try assumption.
  unfold join_surrogates. rewrite E1, E2.
  rewrite (N.add_comm 0xD800), (N.add_comm 0xDC00), !N.add_sub.
  rewrite N.shiftl_mul_pow2, lor_add_disjoint by exact Hr.
  change (2 ^ 10) with 1024.
  pose proof (N.div_mod n 1024 ltac:(discriminate)) as D.
  assert (Hc : c = n + 0x10000) by (unfold n; lia).
  clearbody n. lia.
Qed.

Lemma scanstring_cons (c : N) (r : str) :
  scanstring (c :: r) =
    if c =? 34 then Some ([], r)
    else if c =? 92 then
      match r with
      | [] => None
      | e :: r1 =>
          if e =? 117 then
            match r1 with
            | h1 :: h2 :: h3 :: h4 :: r2 =>
                match decode_uXXXX h1 h2 h3 h4 with
                | None => None
                | Some uni =>
                    match r2 with
                    | b :: u :: g1 :: g2 :: g3 :: g4 :: r3 =>
                        if is_high_surrogate uni && (b =? 92) && (u =? 117)
                        then
                          match decode_uXXXX g1 g2 g3 g4 with
                          | None => None
                          | Some uni2 =>
                              if is_low_surrogate uni2
                              then push (join_surrogates uni uni2)
                                        (scanstring r3)
                              else push uni (scanstring r2)
                          end
                        else push uni (scanstring r2)
                    | _ => push uni (scanstring r2)
                    end
                end
            | _ => None
            end
          else
            match backslash e with
            | Some ch => push ch (scanstring r1)
            | None => None
            end
      end
    else if c <? 32 then None
    else push c (scanstring r).
Proof. reflexivity. Qed.

(** A [\uXXXX] escape of a number that is no high surrogate is read back
    as that number. *)
Lemma scanstring_u_escape (n : N) (tail : str) :
  n < 65536 -> is_high_surrogate n = false ->
  scanstring (u_escape n ++ tail) = push n (scanstring tail).
Proof.
  intros Hn Hhi. unfold u_escape, hex4. cbn [app].
  rewrite scanstring_cons. change (92 =? 34) with false.
  change (92 =? 92) with true. change (117 =? 117) with true. cbv iota.
  rewrite (decode_hex4 n Hn), Hhi.
  destruct tail as [|b [|u [|g1 [|g2 [|g3 [|g4 r3]]]]]]; reflexivity.
Qed.

(** The escape of a code point above the BMP, a surrogate pair, is read
    back as that code point. *)
Lemma scanstring_pair (c : N) (tail : str) :
  0x10000 <= c -> c < 0x110000 ->
  scanstring (escape_char c ++ tail) = push c (scanstring tail).
Proof.
  intros Hlo Hhi.
  unfold escape_char.
  replace (c =? 34) with false by (symmetry; apply N.eqb_neq; lia).
  replace (c =? 92) with false by (symmetry; apply N.eqb_neq; lia).
  replace ((32 <=? c) && (c <=? 126)) with false
    by (symmetry; apply andb_false_iff; right; apply N.leb_gt; lia).
  replace (c =? 8) with false by (symmetry; apply N.eqb_neq; lia).
  replace (c =? 12) with false by (symmetry; apply N.eqb_neq; lia).
  replace (c =? 10) with false by (symmetry; apply N.eqb_neq; lia).
  replace (c =? 13) with false by (symmetry; apply N.eqb_neq; lia).
  replace (c =? 9) with false by (symmetry; apply N.eqb_neq; lia).
  replace (c <? 65536) with false by (symmetry; apply N.ltb_ge; lia).
  cbv zeta.
  destruct (surrogate_pair c Hlo Hhi) as (E1 & E2 & Hq & Hj).
  cbv zeta in E1, E2, Hj.
  set (s1 := N.lor 55296 _) in *. set (s2 := N.lor 56320 _) in *.
  clearbody s1 s2.
  assert (Hr : (c - 65536) mod 1024 < 1024) by (apply N.mod_lt; discriminate).
  set (q := (c - 65536) / 1024) in *. set (r := (c - 65536) mod 1024) in *.
  clearbody q r.
  unfold u_escape, hex4. cbn [app].
  rewrite scanstring_cons. change (92 =? 34) with false.
  change (92 =? 92) with true. change (117 =? 117) with true. cbv iota.
  rewrite (decode_hex4 s1) by lia.
  replace (is_high_surrogate s1) with true
    by (symmetry; unfold is_high_surrogate; apply andb_true_iff;
        split; apply N.leb_le; lia).
  change (92 =? 92) with true. change (117 =? 117) with true. cbn [andb].
  rewrite (decode_hex4 s2) by lia.
  replace (is_low_surrogate s2) with true
    by (symmetry; unfold is_low_surrogate; apply andb_true_iff;
        split; apply N.leb_le; lia).
  rewrite Hj. reflexivity.
Qed.

Lemma scalar_not_high (c : N) : scalar c = true -> is_high_surrogate c = false.
Proof.
  unfold scalar, is_high_surrogate. intros H.
  apply orb_true_iff in H. apply andb_false_iff.
  destruct H as [H|H].
  - apply N.ltb_lt in H. left. apply N.leb_gt. exact H.
  - apply andb_true_iff in H. destruct H as [H _]. apply N.leb_le in H.
    right. apply N.leb_gt. lia.
Qed.

Lemma scalar_bound (c : N) : scalar c = true -> c < 0x110000.
Proof.
  unfold scalar. intros H. apply orb_true_iff in H. destruct H as [H|H].
  - apply N.ltb_lt in H. lia.
  - apply andb_true_iff in H. destruct H as [_ H]. apply N.ltb_lt in H. exact H.
Qed.

(** Every escape [json.dumps] writes for a scalar value is read back by
    [scanstring] as that value. *)
Lemma scanstring_escape_char (c : N) (tail : str) :
  scalar c = true ->
  scanstring (escape_char c ++ tail) = push c (scanstring tail).
Proof.
  intros Hs.
  destruct (N.lt_ge_cases c 0x10000) as [Hlt|Hge];
    [|apply scanstring_pair; [exact Hge|apply scalar_bound, Hs]].
  unfold escape_char.
  destruct (c =? 34) eqn:E34; [apply N.eqb_eq in E34; subst; reflexivity|].
  destruct (c =? 92) eqn:E92; [apply N.eqb_eq in E92; subst; reflexivity|].
  destruct ((32 <=? c) && (c <=? 126)) eqn:Eprint.
  { apply andb_true_iff in Eprint. destruct Eprint as [H32 _].
    apply N.leb_le in H32. cbn [app]. rewrite scanstring_cons, E34, E92.
    replace (c <? 32) with false by (symmetry; apply N.ltb_ge; exact H32).
    reflexivity. }
  destruct (c =? 8) eqn:E8; [apply N.eqb_eq in E8; subst; reflexivity|].
  destruct (c =? 12) eqn:E12; [apply N.eqb_eq in E12; subst; reflexivity|].
  destruct (c =? 10) eqn:E10; [apply N.eqb_eq in E10; subst; reflexivity|].
  destruct (c =? 13) eqn:E13; [apply N.eqb_eq in E13; subst; reflexivity|].
  destruct (c =? 9) eqn:E9; [apply N.eqb_eq in E9; subst; reflexivity|].
  replace (c <? 65536) with true by (symmetry; apply N.ltb_lt; exact Hlt).
  apply scanstring_u_escape; [exact Hlt|apply scalar_not_high, Hs].
Qed.

(** [scanstring] reads back what [encode_basestring_ascii] wrote. *)
Lemma scanstring_encoded (s rest : str) :
  forallb scalar s = true ->
  scanstring (flat_map escape_char s ++ 34 :: rest) = Some (s, rest).
Proof.
  induction s as [|c s IH]; intros H.
  - reflexivity.
  - cbn [forallb] in H. apply andb_true_iff in H. destruct H as [Hc Hs].
    cbn [flat_map]. rewrite <- app_assoc, scanstring_escape_char by exact Hc.
    rewrite (IH Hs). reflexivity.
Qed.

(** *** Integers *)

Lemma nat_value_acc (d : Decimal.uint) (acc : positive) :
  fold_left (fun a c => 10 * a + (c - 48)) (uint_chars d) (Npos acc)
  = Npos (Pos.of_uint_acc d acc).
Proof.
  revert acc. induction d; intros acc; cbn [uint_chars fold_left Pos.of_uint_acc];
    try reflexivity;
    match goal with
    | |- fold_left _ _ ?x = _ =>
        match type of IHd with
        | forall a, _ = N.pos (Pos.of_uint_acc d a) =>
            match goal with
            | |- _ = N.pos (Pos.of_uint_acc d ?a) =>
                replace x with (N.pos a) by lia; apply IHd
            end
        end
    end.
Qed.

Lemma nat_value_uint (d : Decimal.uint) :
  nat_value (uint_chars d) = Pos.of_uint d.
Proof.
  unfold nat_value. induction d; cbn [uint_chars fold_left Pos.of_uint];
    try reflexivity; try exact IHd;
    match goal with
    | |- fold_left _ _ ?x = N.pos (Pos.of_uint_acc d ?a) =>
        replace x with (N.pos a) by lia; apply nat_value_acc
    end.
Qed.

Lemma nat_value_pos (p : positive) :
  nat_value (uint_chars (Pos.to_uint p)) = Npos p.
Proof. rewrite nat_value_uint. apply DecimalPos.Unsigned.of_to. Qed.

Lemma uint_chars_digits (d : Decimal.uint) :
  forallb is_digit (uint_chars d) = true.
Proof. induction d; cbn; auto. Qed.

(** The numeral of a positive number does not start with a zero. *)
Lemma to_uint_head (p : positive) :
  exists c ds, uint_chars (Pos.to_uint p) = c :: ds
               /\ is_digit c = true /\ c <> 48.
Proof.
  assert (Hn : Decimal.unorm (Pos.to_uint p) = Pos.to_uint p).
  { rewrite <- (DecimalPos.Unsigned.to_of (Pos.to_uint p)).
    rewrite DecimalPos.Unsigned.of_to. reflexivity. }
  assert (Hz : Decimal.nzhead (Pos.to_uint p) <> Decimal.Nil).
  { intros E. apply DecimalFacts.unorm_0 in E. rewrite Hn in E.
    exact (DecimalPos.Unsigned.to_uint_nonzero p E). }
  rewrite (DecimalFacts.unorm_nzhead _ Hz) in Hn.
  pose proof (DecimalFacts.nzhead_nonzero (Pos.to_uint p)) as H0.
  rewrite Hn in H0.
  pose proof (DecimalPos.Unsigned.to_uint_nonnil p) as Hnil.
  destruct (Pos.to_uint p) as [|d|d|d|d|d|d|d|d|d|d];
    [congruence | exfalso; exact (H0 d eq_refl) | ..];
    cbn [uint_chars]; eexists; eexists; (split; [reflexivity|]);
    (split; [reflexivity|discriminate]).
Qed.

Lemma span_digits_app (ds rest : str) :
  forallb is_digit ds = true ->
  match rest with c :: _ => is_digit c = false | [] => True end ->
  span_digits (ds ++ rest) = (ds, rest).
Proof.
  intros Hd Hr. induction ds as [|c ds IH]; cbn [app].
  - destruct rest as [|c r]; [reflexivity|]. cbn [span_digits]. rewrite Hr.
    reflexivity.
  - cbn [forallb] in Hd. apply andb_true_iff in Hd. destruct Hd as [Hc Hd].
    cbn [span_digits]. rewrite Hc, (IH Hd). reflexivity.
Qed.

Lemma delimited_not_digit (rest : str) :
  delimited rest ->
  match rest with c :: _ => is_digit c = false | [] => True end.
Proof.
  destruct rest as [|c r]; [trivial|].
  intros [->|[->| ->]]; reflexivity.
Qed.

Lemma delimited_no_frac_exp (rest : str) :
  delimited rest ->
  match_frac rest = ([], rest) /\ match_exp rest = ([], rest).
Proof.
  destruct rest as [|c r]; [split; reflexivity|].
  intros [->|[->| ->]]; split; reflexivity.
Qed.

Lemma delimited_skip_ws (rest : str) : delimited rest -> skip_ws rest = rest.
Proof.
  destruct rest as [|c r]; [reflexivity|].
  intros [->|[->| ->]]; reflexivity.
Qed.

Lemma match_number_intstr (z : Z) (rest : str) :
  delimited rest ->
  match_number (intstr z ++ rest) = Some (intstr z, [], [], rest).
Proof.
  intros Hd.
  destruct (delimited_no_frac_exp rest Hd) as [Hf He].
  pose proof (delimited_not_digit rest Hd) as Hn.
  assert (Hpos : forall p,
             match_integer (uint_chars (Pos.to_uint p) ++ rest)
             = Some (uint_chars (Pos.to_uint p), rest)
             /\ exists c ds, uint_chars (Pos.to_uint p) = c :: ds
                             /\ is_digit c = true /\ c <> 48).
  { intros p. pose proof (uint_chars_digits (Pos.to_uint p)) as Hall.
    destruct (to_uint_head p) as (c & ds & E & Hc & H0).
    split; [|exists c, ds; auto].
    rewrite E in *. cbn [forallb] in Hall.
    apply andb_true_iff in Hall. destruct Hall as [_ Hall].
    unfold match_integer. cbn [app].
    assert (c <> 45).
    { intros ->. discriminate Hc. }
    replace (c =? 45) with false by (symmetry; apply N.eqb_neq; assumption).
    replace (c =? 48) with false by (symmetry; apply N.eqb_neq; assumption).
    rewrite Hc, (span_digits_app ds rest Hall Hn). reflexivity. }
  unfold match_number.
  destruct z as [|p|p]; cbn [intstr].
  - replace (match_integer ([48] ++ rest)) with (Some ([48], rest))
      by reflexivity.
    rewrite Hf, He. reflexivity.
  - destruct (Hpos p) as [-> _]. rewrite Hf, He. reflexivity.
  - destruct (Hpos p) as [Hm (c & ds & E & Hc & H0)].
    assert (Hneg : match_integer ((45 :: uint_chars (Pos.to_uint p)) ++ rest)
                   = Some (45 :: uint_chars (Pos.to_uint p), rest)).
    { unfold match_integer in *. cbn [app]. change (45 =? 45) with true.
      cbv iota. rewrite E in *. cbn [app] in *.
      assert (c <> 45) by (intros ->; discriminate Hc).
      replace (c =? 45) with false in Hm
        by (symmetry; apply N.eqb_neq; assumption).
      replace (c =? 48) with false in *
        by (symmetry; apply N.eqb_neq; assumption).
      rewrite Hc in *. destruct (span_digits (ds ++ rest)) as [ds' r'].
      injection Hm as <- <-. reflexivity. }
    rewrite Hneg, Hf, He. reflexivity.
Qed.

Lemma int_of_text_intstr (z : Z) : int_of_text (intstr z) = z.
Proof.
  destruct z as [|p|p]; cbn [intstr].
  - reflexivity.
  - destruct (to_uint_head p) as (c & ds & E & Hc & H0).
    unfold int_of_text. pose proof (nat_value_pos p) as Hv. rewrite E in *.
    assert (c <> 45) by (intros ->; discriminate Hc).
    replace (c =? 45) with false by (symmetry; apply N.eqb_neq; assumption).
    rewrite Hv. reflexivity.
  - unfold int_of_text. change (45 =? 45) with true. cbv iota.
    rewrite nat_value_pos. reflexivity.
Qed.

Lemma intstr_head (z : Z) :
  exists c t, intstr z = c :: t /\ (c = 45 \/ is_digit c = true).
Proof.
  destruct z as [|p|p]; cbn [intstr].
  - exists 48, []. split; [reflexivity|right; reflexivity].
  - destruct (to_uint_head p) as (c & ds & E & Hc & _).
    exists c, ds. split; [exact E|right; exact Hc].
  - eexists; eexists. split; [reflexivity|left; reflexivity].
Qed.

Lemma scan_atom_int (z : Z) (rest : str) :
  delimited rest ->
  scan_atom (intstr z ++ rest) = Some (JInt z, rest).
Proof.
  intros Hd. pose proof (match_number_intstr z rest Hd) as Hm.
  destruct (intstr_head z) as (c & t & E & Hc).
  unfold scan_atom, scan_number. rewrite Hm, int_of_text_intstr.
  rewrite E. cbn [app].
  assert (H : (110 =? c) = false /\ (116 =? c) = false /\ (102 =? c) = false).
  { destruct Hc as [->|Hc]; [repeat split; reflexivity|].
    repeat split; apply N.eqb_neq; intros <-; discriminate Hc. }
  destruct H as (Hn & Ht & Hf).
  change (lit "null") with [110; 117; 108; 108].
  change (lit "true") with [116; 114; 117; 101].
  change (lit "false") with [102; 97; 108; 115; 101].
  cbn [strip_prefix]. rewrite Hn, Ht, Hf. reflexivity.
Qed.

(** *** Objects and arrays *)

Lemma unique_keys_NoDup (ks : list str) :
  unique_keys ks = true -> NoDup ks.
Proof.
  induction ks as [|k ks IH]; intros H; [constructor|].
  cbn [unique_keys] in H. apply andb_true_iff in H. destruct H as [Hk Hks].
  constructor; [|exact (IH Hks)].
  intros Hin. apply negb_true_iff in Hk.
  assert (existsb (str_eqb k) ks = true).
  { apply existsb_exists. exists k. split; [exact Hin|apply str_eqb_refl]. }
  congruence.
Qed.

Lemma dict_set_fresh (d : dict) (k : str) (v : json) :
  ~ In k (List.map fst d) -> dict_set d k v = d ++ [(k, v)].
Proof.
  induction d as [|[k' v'] d IH]; intros Hk; [reflexivity|].
  cbn [dict_set app]. cbn [List.map fst In] in Hk.
  replace (str_eqb k k') with false
    by (symmetry; apply str_eqb_neq; intros ->; apply Hk; left; reflexivity).
  rewrite IH; [reflexivity|]. intros Hin. apply Hk. right. exact Hin.
Qed.

Lemma dict_of_pairs_acc (pairs acc : list (str * json)) :
  NoDup (List.map fst (acc ++ pairs)) ->
  fold_left (fun d kv => dict_set d (fst kv) (snd kv)) pairs acc
  = acc ++ pairs.
Proof.
  revert acc. induction pairs as [|[k v] pairs IH]; intros acc H.
  - cbn [fold_left]. rewrite List.app_nil_r. reflexivity.
  - cbn [fold_left fst snd].
    rewrite map_app in H. cbn [List.map fst] in H.
    rewrite dict_set_fresh
      by (intros Hin; apply (NoDup_remove_2 _ _ _ H), in_or_app; left;
          exact Hin).
    rewrite IH; rewrite <- app_assoc; [reflexivity|].
    cbn [app]. rewrite map_app. exact H.
Qed.

(** [dict(pairs)] of pairs with distinct keys is the pairs, in order. *)
Lemma dict_of_pairs_unique (kvs : list (str * json)) :
  unique_keys (List.map fst kvs) = true -> dict_of_pairs kvs = kvs.
Proof.
  intros H. unfold dict_of_pairs.
  apply (dict_of_pairs_acc kvs []). apply unique_keys_NoDup, H.
Qed.

Lemma join_map_cons2 {A : Type} (f : A -> str) (sep : str) (x y : A)
      (r : list A) :
  join_map f sep (x :: y :: r) = f x ++ sep ++ join_map f sep (y :: r).
Proof. reflexivity. Qed.

(** What a well-formed value is written as starts with a character that
    is not white space, not a closing bracket and not a byte order mark. *)
(* ------------------------------------------------------------------ *)
(** *** Floats: [float] reads back what [repr] wrote *)
(* ------------------------------------------------------------------ *)

Section Floats.

Local Open Scope Z_scope.

Lemma float_eqb_eq (x y : float) : float_eqb x y = true <-> x = y.
Proof.
  destruct x as [|s|s|s m e], y as [|t|t|t m' e']; cbn [float_eqb];
    try (split; [discriminate|discriminate]); try (split; reflexivity).
  - rewrite Bool.eqb_true_iff. split; [intros ->; reflexivity|congruence].
  - rewrite Bool.eqb_true_iff. split; [intros ->; reflexivity|congruence].
  - rewrite !andb_true_iff, Bool.eqb_true_iff, Pos.eqb_eq, Z.eqb_eq.
    split; [intros [[-> ->] ->]; reflexivity|].
    intros E; injection E; auto.
Qed.

(** What [binary64] says of a finite number. *)
Lemma binary64_bounds (s : bool) (m : positive) (e : Z) :
  binary64 (FFinite s m e) = true ->
  -1074 <= e <= 971 /\ Zpos m < 2 ^ 53
  /\ (e = -1074 \/ 2 ^ 52 <= Zpos m).
Proof.
  cbn [binary64]. rewrite orb_true_iff, !andb_true_iff.
  rewrite !Z.eqb_eq, !Z.ltb_lt, !Z.leb_le. lia.
Qed.

(** A number of binary64 is its own nearest. *)
Lemma round_binary64_exact (s : bool) (p q : Z) (m : positive) (e : Z) :
  0 < q ->
  binary64 (FFinite s m e) = true ->
  p * 2 ^ 1074 = Zpos m * 2 ^ (e + 1074) * q ->
  round_binary64 s p q = FFinite s m e.
Proof.
  intros Hq Hb Hp. apply binary64_bounds in Hb.
  destruct Hb as (He & Hm & Hn).
  set (t := e + 1074) in *. assert (Ht : 0 <= t) by lia.
  assert (H2t : 0 < 2 ^ t) by (apply Z.pow_pos_nonneg; lia).
  unfold round_binary64. rewrite Hp.
  rewrite Z.div_mul by lia. rewrite Z.mod_mul by lia.
  assert (Hlog : Z.max 0 (Z.log2 (Z.pos m * 2 ^ t) - 52) = t).
  { rewrite Z.log2_mul_pow2 by lia.
    destruct Hn as [Hn|Hn].
    - assert (t = 0) by lia.
      assert (Z.log2 (Z.pos m) < 53) by (apply Z.log2_lt_pow2; lia). lia.
    - assert (Z.log2 (Z.pos m) = 52).
      { apply Z.log2_unique; [lia|]. split; [exact Hn|].
        change (52 + 1) with 53. exact Hm. }
      lia. }
  rewrite Hlog. rewrite Z.div_mul by lia. rewrite Z.mod_mul by lia.
  replace (2 * (0 * q + 0)) with 0 by lia.
  assert (Hlt : (0 ?= 2 ^ t * q) = Lt) by (apply Z.compare_lt_iff; nia).
  rewrite Hlt.
  replace (Z.pos m =? 2 ^ 53) with false by (symmetry; apply Z.eqb_neq; lia).
  replace (971 <? t - 1074) with false by (symmetry; apply Z.ltb_ge; lia).
  f_equal. lia.
Qed.


(** *** Runs of digits *)

Lemma nat_value_from (b : str) (acc : N) :
  fold_left (fun a c => 10 * a + (c - 48))%N b acc
  = (acc * 10 ^ N.of_nat (List.length b) + nat_value b)%N.
Proof.
  unfold nat_value. revert acc.
  induction b as [|c b IH]; intros acc; cbn [fold_left List.length].
  - cbn. lia.
  - rewrite IH, (IH (10 * 0 + (c - 48))%N), Nat2N.inj_succ, N.pow_succ_r'.
    ring.
Qed.

Lemma nat_value_app (a b : str) :
  nat_value (a ++ b)
  = (nat_value a * 10 ^ N.of_nat (List.length b) + nat_value b)%N.
Proof. unfold nat_value at 1. rewrite fold_left_app. apply nat_value_from. Qed.

Lemma nat_value_zeros (n : nat) : nat_value (zeros n) = 0%N.
Proof.
  induction n as [|n IH]; [reflexivity|].
  change (zeros (S n)) with ([48%N] ++ zeros n).
  rewrite nat_value_app, IH. reflexivity.
Qed.

Lemma length_zeros (n : nat) : List.length (zeros n) = n.
Proof. apply repeat_length. Qed.

Lemma zeros_digits (n : nat) : forallb is_digit (zeros n) = true.
Proof. induction n as [|n IH]; [reflexivity|exact IH]. Qed.

Lemma rev_zeros (n : nat) : rev (zeros n) = zeros n.
Proof.
  induction n as [|n IH]; [reflexivity|].
  unfold zeros in *. cbn [repeat rev]. rewrite IH.
  symmetry. apply repeat_cons.
Qed.

Lemma lstrip_zeros_split (l : str) :
  exists t, l = zeros t ++ lstrip_zeros l
            /\ match lstrip_zeros l with c :: _ => c <> 48%N | [] => True end.
Proof.
  induction l as [|c l (t & E & H)]; [exists 0%nat; split; [reflexivity|exact I]|].
  cbn [lstrip_zeros]. destruct (N.eqb_spec c 48) as [->|Hc].
  - exists (S t). split; [|exact H]. cbn [zeros repeat app].
    fold (zeros t). rewrite <- E. reflexivity.
  - exists 0%nat. split; [reflexivity|exact Hc].
Qed.

Lemma numeral_digits (ds : str) : numeral ds -> forallb is_digit ds = true.
Proof.
  intros (c & r & -> & Hc & _ & Hr). cbn [forallb]. rewrite Hc, Hr. reflexivity.
Qed.

Lemma numeral_pos (p : positive) : numeral (uint_chars (Pos.to_uint p)).
Proof.
  destruct (to_uint_head p) as (c & r & E & Hc & H0).
  pose proof (uint_chars_digits (Pos.to_uint p)) as Hall. rewrite E in Hall.
  cbn [forallb] in Hall. apply andb_true_iff in Hall.
  exists c, r. tauto.
Qed.

(** Taking the zeros off the end of a numeral leaves a numeral. *)
Lemma rstrip_zeros_numeral (ds : str) :
  numeral ds ->
  exists t, ds = rstrip_zeros ds ++ zeros t /\ numeral (rstrip_zeros ds).
Proof.
  intros (c & r & E & Hc & H0 & Hr).
  destruct (lstrip_zeros_split (rev ds)) as (t & Et & _).
  assert (Es : ds = rstrip_zeros ds ++ zeros t).
  { unfold rstrip_zeros. rewrite <- (rev_zeros t), <- rev_app_distr, <- Et.
    symmetry. apply rev_involutive. }
  exists t. split; [exact Es|].
  assert (Hall : forallb is_digit (rstrip_zeros ds) = true).
  { assert (Hd : forallb is_digit ds = true)
      by (rewrite E; cbn [forallb]; rewrite Hc, Hr; reflexivity).
    rewrite Es, forallb_app in Hd. apply andb_true_iff in Hd. tauto. }
  destruct (rstrip_zeros ds) as [|c' r'] eqn:Er.
  - exfalso. cbn [app] in Es. rewrite E in Es.
    destruct t as [|t]; [discriminate Es|].
    cbn [zeros repeat] in Es. injection Es as Ec _. congruence.
  - rewrite E in Es. cbn [app] in Es. injection Es as Ec _. subst c'.
    cbn [forallb] in Hall. apply andb_true_iff in Hall.
    exists c, r'. tauto.
Qed.


(** *** The scanner on what [repr] lays out *)

Lemma match_integer_numeral (s : bool) (ds rest : str) :
  numeral ds ->
  match rest with c :: _ => is_digit c = false | [] => True end ->
  match_integer (sign_text s ++ ds ++ rest) = Some (sign_text s ++ ds, rest).
Proof.
  intros (c & r & -> & Hc & H0 & Hr) Hn.
  assert (H45 : c <> 45%N) by (intros ->; discriminate Hc).
  unfold match_integer, sign_text. destruct s; cbn [app].
  - change (45 =? 45)%N with true. cbv iota.
    replace (c =? 48)%N with false by (symmetry; apply N.eqb_neq; exact H0).
    rewrite Hc, (span_digits_app r rest Hr Hn). reflexivity.
  - replace (c =? 45)%N with false by (symmetry; apply N.eqb_neq; exact H45).
    replace (c =? 48)%N with false by (symmetry; apply N.eqb_neq; exact H0).
    rewrite Hc, (span_digits_app r rest Hr Hn). reflexivity.
Qed.

Lemma match_integer_zero (s : bool) (rest : str) :
  match_integer (sign_text s ++ 48%N :: rest) = Some (sign_text s ++ [48%N], rest).
Proof. destruct s; reflexivity. Qed.

Lemma match_frac_digits (ds rest : str) :
  ds <> [] ->
  forallb is_digit ds = true ->
  match rest with c :: _ => is_digit c = false | [] => True end ->
  match_frac (46%N :: ds ++ rest) = (46%N :: ds, rest).
Proof.
  intros Hne Hd Hn. unfold match_frac. change (46 =? 46)%N with true.
  cbv iota. rewrite (span_digits_app ds rest Hd Hn).
  destruct ds; [congruence|reflexivity].
Qed.

Lemma match_exp_digits (sg : N) (ds rest : str) :
  sg = 45%N \/ sg = 43%N ->
  ds <> [] ->
  forallb is_digit ds = true ->
  match rest with c :: _ => is_digit c = false | [] => True end ->
  match_exp (101%N :: sg :: ds ++ rest) = (101%N :: sg :: ds, rest).
Proof.
  intros Hsg Hne Hd Hn. unfold match_exp.
  change ((101 =? 101) || (101 =? 69))%N with true. cbv iota.
  replace ((sg =? 45) || (sg =? 43))%N with true
    by (destruct Hsg as [->| ->]; reflexivity).
  rewrite (span_digits_app ds rest Hd Hn).
  destruct ds; [congruence|reflexivity].
Qed.

Lemma intstr_nonneg_digits (z : Z) :
  0 <= z -> forallb is_digit (intstr z) = true /\ intstr z <> [].
Proof.
  intros Hz. destruct z as [|p|p]; [split; [reflexivity|discriminate]| |lia].
  cbn [intstr]. destruct (numeral_pos p) as (c & r & E & Hc & _ & Hr).
  rewrite E. cbn [forallb]. rewrite Hc, Hr. split; [reflexivity|discriminate].
Qed.

Lemma nat_value_intstr (z : Z) : 0 <= z -> Z.of_N (nat_value (intstr z)) = z.
Proof.
  intros Hz. destruct z as [|p|p]; [reflexivity| |lia].
  cbn [intstr]. rewrite nat_value_pos. reflexivity.
Qed.

Lemma exponent_digits_spec (x : Z) :
  forallb is_digit (exponent_digits x) = true
  /\ exponent_digits x <> []
  /\ Z.of_N (nat_value (exponent_digits x)) = Z.abs x.
Proof.
  unfold exponent_digits.
  destruct (intstr_nonneg_digits (Z.abs x) (Z.abs_nonneg x)) as [Hd Hne].
  pose proof (nat_value_intstr (Z.abs x) (Z.abs_nonneg x)) as Hv.
  destruct (intstr (Z.abs x)) as [|c [|c' r]]; [congruence| |].
  - split; [exact Hd|]. split; [discriminate|].
    change [48%N; c] with ([48%N] ++ [c]). rewrite nat_value_app.
    change (nat_value [48%N]) with 0%N. rewrite N.mul_0_l, N.add_0_l. exact Hv.
  - split; [exact Hd|]. split; [discriminate|exact Hv].
Qed.

Lemma format_float_short_exp (s : bool) (c : N) (r : str) (decpt : Z) :
  (decpt <=? -4) || (16 <? decpt) = true ->
  format_float_short s (c :: r) decpt
  = (sign_text s ++ [c],
     match r with [] => [] | more => 46%N :: more end,
     101%N :: (if decpt - 1 <? 0 then 45%N else 43%N)
           :: exponent_digits (decpt - 1)).
Proof.
  intros H. unfold format_float_short, exponent_digits, sign_text.
  rewrite H. destruct r; destruct (intstr (Z.abs (decpt - 1))) as [|a [|b l]];
    reflexivity.
Qed.

Lemma match_number_parts (i f ex rest : str) :
  match_integer (i ++ f ++ ex ++ rest) = Some (i, f ++ ex ++ rest) ->
  match_frac (f ++ ex ++ rest) = (f, ex ++ rest) ->
  match_exp (ex ++ rest) = (ex, rest) ->
  match_number (i ++ f ++ ex ++ rest) = Some (i, f, ex, rest).
Proof.
  intros H1 H2 H3. unfold match_number. rewrite H1, H2, H3. reflexivity.
Qed.

(** The scanner's pattern takes what [repr] lays out apart again, and
    sees a float in it: there is a fraction or an exponent. *)
Lemma match_number_format (s : bool) (ds : str) (decpt : Z) (rest : str) :
  numeral ds ->
  delimited rest ->
  forall i f ex,
    format_float_short s ds decpt = (i, f, ex) ->
    match_number (i ++ f ++ ex ++ rest) = Some (i, f, ex, rest)
    /\ (f <> [] \/ ex <> []).
Proof.
  intros Hnum Hdel i f ex Hfmt.
  pose proof (delimited_not_digit rest Hdel) as Hnd.
  destruct (delimited_no_frac_exp rest Hdel) as [Hnf Hne].
  pose proof (numeral_digits ds Hnum) as Hall.
  destruct ((decpt <=? -4) || (16 <? decpt)) eqn:Hexp.
  - destruct Hnum as (c & r & -> & Hc & H0 & Hr).
    rewrite (format_float_short_exp s c r decpt Hexp) in Hfmt.
    injection Hfmt as <- <- <-.
    destruct (exponent_digits_spec (decpt - 1)) as (Hxd & Hxne & _).
    set (sg := if decpt - 1 <? 0 then 45%N else 43%N).
    assert (Hsg : sg = 45%N \/ sg = 43%N)
      by (unfold sg; destruct (decpt - 1 <? 0); auto).
    split; [|right; discriminate].
    assert (Hi : numeral [c]) by (exists c, []; auto).
    apply match_number_parts.
    + rewrite <- List.app_assoc.
      apply (match_integer_numeral s [c] _ Hi). destruct r; reflexivity.
    + destruct r as [|c2 r2]; [reflexivity|].
      apply (match_frac_digits (c2 :: r2)
               ((101%N :: sg :: exponent_digits (decpt - 1)) ++ rest));
        [discriminate|exact Hr|reflexivity].
    + apply (match_exp_digits sg (exponent_digits (decpt - 1)) rest);
        assumption.
  - unfold format_float_short in Hfmt. rewrite Hexp in Hfmt.
    fold (sign_text s) in Hfmt.
    destruct (decpt <=? 0) eqn:H0.
    + injection Hfmt as <- <- <-. split; [|left; discriminate].
      apply match_number_parts.
      * rewrite <- List.app_assoc. apply match_integer_zero.
      * apply (match_frac_digits (zeros (Z.to_nat (- decpt)) ++ ds) rest).
        -- destruct Hnum as (c & r & -> & _). destruct (zeros _); discriminate.
        -- rewrite forallb_app, zeros_digits, Hall. reflexivity.
        -- exact Hnd.
      * exact Hne.
    + destruct (decpt <? Z.of_nat (List.length ds)) eqn:H1.
      * injection Hfmt as <- <- <-. split; [|left; discriminate].
        apply Z.leb_gt in H0. apply Z.ltb_lt in H1.
        set (n := Z.to_nat decpt) in *.
        assert (Hn : (0 < n < List.length ds)%nat) by lia.
        assert (Hsplit : ds = firstn n ds ++ skipn n ds)
          by (symmetry; apply firstn_skipn).
        assert (Hd1 : forallb is_digit (firstn n ds) = true
                      /\ forallb is_digit (skipn n ds) = true).
        { rewrite Hsplit, forallb_app in Hall.
          apply andb_true_iff in Hall. exact Hall. }
        assert (Hnum1 : numeral (firstn n ds)).
        { destruct Hnum as (c & r & E & Hc & Hz & Hr).
          destruct n as [|n']; [lia|]. rewrite E. cbn [firstn].
          exists c, (firstn n' r). repeat split; auto.
          rewrite E in Hd1. cbn [firstn forallb] in Hd1.
          destruct Hd1 as [Hd1 _]. apply andb_true_iff in Hd1. tauto. }
        assert (Hne2 : skipn n ds <> []).
        { intros E. apply (f_equal (@List.length N)) in E.
          rewrite length_skipn in E. cbn in E. lia. }
        apply match_number_parts.
        -- rewrite <- List.app_assoc.
           apply (match_integer_numeral s _ _ Hnum1). reflexivity.
        -- apply (match_frac_digits (skipn n ds) rest); tauto.
        -- exact Hne.
      * injection Hfmt as <- <- <-. split; [|left; discriminate].
        set (z := zeros _).
        assert (Hnum1 : numeral (ds ++ z)).
        { destruct Hnum as (c & r & -> & Hc & Hz & Hr).
          exists c, (r ++ z).
          repeat split; auto. unfold z.
          rewrite forallb_app, Hr, zeros_digits. reflexivity. }
        apply match_number_parts.
        -- rewrite <- List.app_assoc.
           apply (match_integer_numeral s _ _ Hnum1). reflexivity.
        -- apply (match_frac_digits [48%N] rest);
             [discriminate|reflexivity|exact Hnd].
        -- exact Hne.
Qed.


(** *** The number a laid-out numeral denotes *)

Lemma float_of_literal_unfold (s : bool) (c : N) (r f ex : str) :
  is_digit c = true ->
  float_of_literal (sign_text s ++ c :: r) f ex
  = round_binary64 s
      (Z.of_N (nat_value ((c :: r) ++ tl f))
       * 10 ^ Z.max 0 (exponent_value ex - Z.of_nat (List.length (tl f))))
      (10 ^ Z.max 0 (- (exponent_value ex - Z.of_nat (List.length (tl f))))).
Proof.
  intros Hc. assert (H45 : (c =? 45)%N = false).
  { apply N.eqb_neq. intros ->. discriminate Hc. }
  unfold float_of_literal, exponent_value, sign_text.
  destruct s; cbn [app]; [reflexivity|]. rewrite H45. reflexivity.
Qed.

Lemma exponent_value_repr (x : Z) :
  exponent_value (101%N :: (if x <? 0 then 45%N else 43%N)
                        :: exponent_digits x) = x.
Proof.
  destruct (exponent_digits_spec x) as (_ & _ & Hv).
  unfold exponent_value. destruct (Z.ltb_spec x 0) as [H|H].
  - change (45 =? 45)%N with true. cbv iota. rewrite Hv. lia.
  - change (43 =? 45)%N with false. change (43 =? 43)%N with true. cbv iota.
    rewrite Hv. lia.
Qed.

(** What is laid out denotes [digits * 10^(decpt - length digits)]. *)
Lemma format_value (s : bool) (ds : str) (decpt : Z) :
  numeral ds ->
  forall i f ex,
    format_float_short s ds decpt = (i, f, ex) ->
    exists d' x',
      float_of_literal i f ex
      = round_binary64 s (d' * 10 ^ Z.max 0 x') (10 ^ Z.max 0 (- x'))
      /\ d' * 10 ^ Z.max 0 x'
            * 10 ^ Z.max 0 (- (decpt - Z.of_nat (List.length ds)))
         = Z.of_N (nat_value ds)
           * 10 ^ Z.max 0 (decpt - Z.of_nat (List.length ds))
           * 10 ^ Z.max 0 (- x').
Proof.
  intros Hnum i f ex Hfmt.
  destruct ((decpt <=? -4) || (16 <? decpt)) eqn:Hexp.
  - destruct Hnum as (c & r & -> & Hc & H0 & Hr).
    rewrite (format_float_short_exp s c r decpt Hexp) in Hfmt.
    injection Hfmt as <- <- <-.
    exists (Z.of_N (nat_value (c :: r))), (decpt - Z.of_nat (List.length (c :: r))).
    split; [|reflexivity].
    change (sign_text s ++ [c]) with (sign_text s ++ c :: []).
    rewrite (float_of_literal_unfold s c [] _ _ Hc), exponent_value_repr.
    assert (Et : tl (match r with [] => [] | _ :: _ => 46%N :: r end) = r)
      by (destruct r; reflexivity).
    rewrite Et. cbn [app List.length].
    replace (decpt - 1 - Z.of_nat (List.length r))
      with (decpt - Z.of_nat (S (List.length r))) by lia.
    reflexivity.
  - unfold format_float_short in Hfmt. rewrite Hexp in Hfmt.
    fold (sign_text s) in Hfmt.
    destruct (decpt <=? 0) eqn:H0.
    + injection Hfmt as <- <- <-. apply Z.leb_le in H0.
      exists (Z.of_N (nat_value ds)), (decpt - Z.of_nat (List.length ds)).
      split; [|reflexivity].
      rewrite (float_of_literal_unfold s 48%N [] _ _ eq_refl).
      cbn [tl exponent_value].
      change ([48%N] ++ ?l) with (zeros 1 ++ l).
      rewrite nat_value_app, nat_value_zeros, N.mul_0_l, N.add_0_l.
      rewrite nat_value_app, nat_value_zeros, N.mul_0_l, N.add_0_l.
      rewrite length_app, length_zeros.
      replace (0 - Z.of_nat (Z.to_nat (- decpt) + List.length ds)%nat)
        with (decpt - Z.of_nat (List.length ds)) by lia.
      reflexivity.
    + apply Z.leb_gt in H0.
      destruct (decpt <? Z.of_nat (List.length ds)) eqn:H1.
      * injection Hfmt as <- <- <-. apply Z.ltb_lt in H1.
        exists (Z.of_N (nat_value ds)), (decpt - Z.of_nat (List.length ds)).
        split; [|reflexivity].
        set (n := Z.to_nat decpt) in *.
        destruct Hnum as (c & r & E & Hc & Hz & Hr).
        assert (Hn : (0 < n < List.length ds)%nat) by lia.
        assert (Ef : firstn n ds = c :: firstn (pred n) r).
        { rewrite E. destruct n as [|n']; [lia|]. reflexivity. }
        rewrite Ef, (float_of_literal_unfold s c _ _ _ Hc), <- Ef.
        cbn [tl exponent_value]. rewrite firstn_skipn, length_skipn.
        replace (0 - Z.of_nat (List.length ds - n))
          with (decpt - Z.of_nat (List.length ds)) by lia.
        reflexivity.
      * injection Hfmt as <- <- <-. apply Z.ltb_ge in H1.
        set (z := Z.to_nat (decpt - Z.of_nat (List.length ds))).
        exists (Z.of_N (nat_value ds) * 10 ^ (Z.of_nat z + 1)), (-1).
        destruct Hnum as (c & r & E & Hc & Hz & Hr).
        split.
        -- rewrite E. cbn [app].
           rewrite (float_of_literal_unfold s c _ _ _ Hc).
           cbn [tl exponent_value List.length].
           change (c :: r ++ zeros z) with ((c :: r) ++ zeros z).
           rewrite <- E, <- List.app_assoc.
           change (zeros z ++ [48%N]) with (zeros z ++ zeros 1).
           rewrite nat_value_app, (nat_value_app (zeros z)), !nat_value_zeros.
           rewrite length_app, !length_zeros, N.mul_0_l, !N.add_0_r.
           rewrite N2Z.inj_mul, N2Z.inj_pow, nat_N_Z.
           replace (Z.of_nat (z + 1)) with (Z.of_nat z + 1) by lia.
           reflexivity.
        -- replace (Z.max 0 (-1)) with 0 by reflexivity.
           replace (Z.max 0 (- -1)) with 1 by reflexivity.
           replace (Z.max 0 (- (decpt - Z.of_nat (List.length ds)))) with 0
             by lia.
           replace (Z.max 0 (decpt - Z.of_nat (List.length ds)))
             with (Z.of_nat z) by lia.
           rewrite Z.pow_add_r by lia. ring.
Qed.

(** Two ways to write one number: when [c = k + t], the numerals for
    [n * 10^c] are those for [n * 10^t * 10^k]. *)
Lemma same_decimal (a b n c k t : Z) :
  0 <= t -> c = k + t -> 0 < b ->
  a * 10 ^ Z.max 0 (- c) = n * 10 ^ Z.max 0 c * b ->
  a * 10 ^ Z.max 0 (- k) = n * 10 ^ t * 10 ^ Z.max 0 k * b.
Proof.
  intros Ht -> Hb H.
  assert (Hu : 0 < 10 ^ Z.max 0 (- (k + t))) by (apply Z.pow_pos_nonneg; lia).
  apply (Z.mul_reg_r _ _ (10 ^ Z.max 0 (- (k + t)))); [lia|].
  transitivity (n * 10 ^ Z.max 0 (k + t) * b * 10 ^ Z.max 0 (- k));
    [rewrite <- H; ring|].
  transitivity (n * b * (10 ^ Z.max 0 (k + t) * 10 ^ Z.max 0 (- k))); [ring|].
  transitivity (n * b * (10 ^ t * 10 ^ Z.max 0 k * 10 ^ Z.max 0 (- (k + t))));
    [|ring].
  f_equal. rewrite <- !Z.pow_add_r by lia. f_equal. lia.
Qed.


(** *** [repr] reads back *)

Lemma pow_pos_10 (n : Z) : 0 <= n -> 0 < 10 ^ n.
Proof. intros H. apply Z.pow_pos_nonneg; lia. Qed.

(** The numeral of a positive number, its zeros at the end taken off. *)
Lemma digits_of_pos (dp : positive) :
  exists t : nat,
    numeral (rstrip_zeros (intstr (Zpos dp)))
    /\ Zpos dp
       = Z.of_N (nat_value (rstrip_zeros (intstr (Zpos dp)))) * 10 ^ Z.of_nat t
    /\ List.length (intstr (Zpos dp))
       = (List.length (rstrip_zeros (intstr (Zpos dp))) + t)%nat.
Proof.
  cbn [intstr].
  destruct (rstrip_zeros_numeral _ (numeral_pos dp)) as (t & Es & Hnum).
  exists t. split; [exact Hnum|]. split.
  - pose proof (nat_value_pos dp) as Hv. rewrite Es in Hv at 1.
    rewrite nat_value_app, nat_value_zeros, N.add_0_r, length_zeros in Hv.
    apply (f_equal Z.of_N) in Hv.
    rewrite N2Z.inj_mul, N2Z.inj_pow, nat_N_Z in Hv. symmetry. exact Hv.
  - rewrite Es at 1. rewrite length_app, length_zeros. reflexivity.
Qed.

(** A binary64 number written out in full reads back as itself. *)
Lemma exact_decimal_round_trips (s : bool) (m : positive) (e : Z) :
  binary64 (FFinite s m e) = true ->
  forall d k,
    exact_decimal m e = (d, k) ->
    0 < d /\ round_trips s m e d k = true.
Proof.
  intros Hb d k Hex.
  destruct (binary64_bounds s m e Hb) as (He & _ & _).
  assert (Hcase : (0 <= e /\ d = Z.pos m * 2 ^ e /\ k = 0)
                  \/ (e < 0 /\ d = Z.pos m * 5 ^ (- e) /\ k = e)).
  { unfold exact_decimal in Hex.
    destruct (Z.leb_spec 0 e) as [H0|H0]; [left|right];
      (split; [exact H0|]); split; congruence. }
  clear Hex.
  assert (Hd : 0 < d).
  { destruct Hcase as [(H0 & -> & _)|(H0 & -> & _)].
    - exact (Z.mul_pos_pos (Z.pos m) _ eq_refl
               (Z.pow_pos_nonneg 2 e ltac:(lia) H0)).
    - exact (Z.mul_pos_pos (Z.pos m) _ eq_refl
               (Z.pow_pos_nonneg 5 (- e) ltac:(lia) ltac:(lia))). }
  split; [exact Hd|].
  destruct d as [|dp|dp]; try lia.
  destruct (digits_of_pos dp) as (t & Hnum & Hv & Hlen).
  unfold round_trips, decimal_parts.
  set (ds := rstrip_zeros (intstr (Zpos dp))) in *.
  set (decpt := Z.of_nat (List.length (intstr (Zpos dp))) + k).
  destruct (format_float_short s ds decpt) as [[i f] ex] eqn:Hfmt.
  destruct (format_value s ds decpt Hnum i f ex Hfmt) as (d' & x' & Hlit & Hval).
  apply float_eqb_eq. rewrite Hlit.
  assert (Hq : 0 < 10 ^ Z.max 0 (- x')) by (apply pow_pos_10; lia).
  apply round_binary64_exact; [exact Hq|exact Hb|].
  set (A := d' * 10 ^ Z.max 0 x') in *.
  set (B := 10 ^ Z.max 0 (- x')) in *.
  set (D0 := Z.of_N (nat_value ds)) in *.
  assert (Hk : A * 10 ^ Z.max 0 (- k)
               = D0 * 10 ^ Z.of_nat t * 10 ^ Z.max 0 k * B).
  { apply (same_decimal A B D0 (decpt - Z.of_nat (List.length ds)) k
             (Z.of_nat t)); [lia|unfold decpt; lia|exact Hq|exact Hval]. }
  rewrite <- Hv in Hk. clearbody A B D0. clear Hval Hlit Hfmt Hv.
  destruct Hcase as [(H0 & Ed & ->)|(H0 & Ed & ->)]; rewrite Ed in Hk.
  - change (Z.max 0 (- 0)) with 0 in Hk.
    change (Z.max 0 0) with 0 in Hk. rewrite !Z.pow_0_r, !Z.mul_1_r in Hk.
    rewrite Hk, Z.pow_add_r by lia. ring.
  - replace (Z.max 0 (- e)) with (- e) in Hk by lia.
    replace (Z.max 0 e) with 0 in Hk by lia.
    rewrite Z.pow_0_r, Z.mul_1_r in Hk.
    change 10 with (2 * 5) in Hk. rewrite Z.pow_mul_l in Hk.
    assert (H5 : 0 < 5 ^ (- e)) by (apply Z.pow_pos_nonneg; lia).
    assert (Hc : A * 2 ^ (- e) = Z.pos m * B).
    { apply (Z.mul_reg_r _ _ (5 ^ (- e))); [lia|]. rewrite <- Z.mul_assoc, Hk.
      ring. }
    replace 1074 with (- e + (e + 1074)) at 1 by lia.
    rewrite Z.pow_add_r by lia. rewrite Z.mul_assoc, Hc. ring.
Qed.

Lemma candidate_round_trips (s : bool) (m : positive) (e : Z) (n : nat)
      (d k : Z) :
  candidate s m e n = Some (d, k) ->
  0 < d /\ round_trips s m e d k = true.
Proof.
  unfold candidate.
  set (p := Z.pos m * 2 ^ Z.max 0 e).
  set (q := 2 ^ Z.max 0 (- e)).
  set (k0 := decimal_point p q - Z.of_nat n).
  set (num := p * 10 ^ Z.max 0 (- k0)).
  set (den := q * 10 ^ Z.max 0 k0).
  assert (Hlo : 0 <= num / den).
  { apply Z.div_pos.
    - unfold num, p. apply Z.mul_nonneg_nonneg; [|apply Z.pow_nonneg; lia].
      apply Z.mul_nonneg_nonneg; [lia|apply Z.pow_nonneg; lia].
    - unfold den, q. apply Z.mul_pos_pos; apply Z.pow_pos_nonneg; lia. }
  destruct ((0 <? num / den) && round_trips s m e (num / den) k0) eqn:Elo.
  - destruct (negb (round_trips s m e (num / den + 1) k0) || _) eqn:Epick;
      cbn [andb].
    + intros H. injection H as <- <-.
      apply andb_true_iff in Elo. rewrite Z.ltb_lt in Elo. exact Elo.
    + destruct (round_trips s m e (num / den + 1) k0) eqn:Ehi;
        [|discriminate].
      intros H. injection H as <- <-. split; [lia|exact Ehi].
  - cbn [andb].
    destruct (round_trips s m e (num / den + 1) k0) eqn:Ehi; [|discriminate].
    intros H. injection H as <- <-. split; [lia|exact Ehi].
Qed.

Lemma shortest_decimal_round_trips (s : bool) (m : positive) (e : Z) :
  binary64 (FFinite s m e) = true ->
  forall d k,
    shortest_decimal s m e = (d, k) ->
    0 < d /\ round_trips s m e d k = true.
Proof.
  intros Hb d k. unfold shortest_decimal.
  assert (H : forall ns dk, first_candidate s m e ns = Some dk ->
                            0 < fst dk /\ round_trips s m e (fst dk) (snd dk) = true).
  { induction ns as [|n ns IH]; intros dk; cbn [first_candidate];
      [discriminate|].
    destruct (candidate s m e n) as [[d1 k1]|] eqn:Ec; [|apply IH].
    intros E. injection E as <-. exact (candidate_round_trips s m e n d1 k1 Ec). }
  destruct (first_candidate s m e (seq 1 17)) as [dk|] eqn:Ef.
  - intros ->. exact (H _ _ Ef).
  - apply exact_decimal_round_trips, Hb.
Qed.


(** *** The shape of what [repr] writes *)

Lemma digits_float_chars (l : str) :
  forallb is_digit l = true -> forallb float_char l = true.
Proof.
  induction l as [|c l IH]; [reflexivity|]. cbn [forallb].
  intros H. apply andb_true_iff in H. destruct H as [Hc Hl].
  unfold float_char at 1. rewrite Hc, (IH Hl). reflexivity.
Qed.

Lemma sign_float_chars (s : bool) : forallb float_char (sign_text s) = true.
Proof. destruct s; reflexivity. Qed.

Lemma digits_last (l : str) :
  l <> [] -> forallb is_digit l = true ->
  exists t c, l = t ++ [c] /\ is_digit c = true.
Proof.
  intros Hne Hd. destruct (exists_last Hne) as (t & c & E). exists t, c.
  split; [exact E|]. rewrite E, forallb_app in Hd.
  apply andb_true_iff in Hd. destruct Hd as [_ Hd]. cbn [forallb] in Hd.
  apply andb_true_iff in Hd. tauto.
Qed.

Lemma float_text_shape (s : bool) (c0 : N) (body pre l : str) :
  is_digit c0 = true ->
  forallb float_char body = true ->
  body = pre ++ l -> l <> [] -> forallb is_digit l = true ->
  let text := sign_text s ++ c0 :: body in
  (exists c t, text = c :: t /\ (c = 45%N \/ is_digit c = true))
  /\ (exists t c, text = t ++ [c] /\ is_digit c = true)
  /\ forallb float_char text = true.
Proof.
  intros Hc Hb Eb Hne Hl text. split; [|split].
  - unfold text. destruct s; cbn [sign_text app]; eexists; eexists;
      (split; [reflexivity|]); auto.
  - destruct (digits_last l Hne Hl) as (t & c & -> & Hd).
    exists (sign_text s ++ c0 :: pre ++ t), c. split; [|exact Hd].
    unfold text. rewrite Eb, <- !List.app_assoc. cbn [app].
    rewrite <- !List.app_assoc. reflexivity.
  - unfold text. rewrite forallb_app, sign_float_chars. cbn [forallb].
    rewrite Hb. unfold float_char. rewrite Hc. reflexivity.
Qed.

Lemma format_shape (s : bool) (ds : str) (decpt : Z) :
  numeral ds ->
  forall i f ex,
    format_float_short s ds decpt = (i, f, ex) ->
    (exists c t, i ++ f ++ ex = c :: t /\ (c = 45%N \/ is_digit c = true))
    /\ (exists t c, i ++ f ++ ex = t ++ [c] /\ is_digit c = true)
    /\ forallb float_char (i ++ f ++ ex) = true.
Proof.
  intros Hnum i f ex Hfmt.
  pose proof (numeral_digits ds Hnum) as Hall.
  destruct ((decpt <=? -4) || (16 <? decpt)) eqn:Hexp.
  - destruct Hnum as (c & r & -> & Hc & H0 & Hr).
    rewrite (format_float_short_exp s c r decpt Hexp) in Hfmt.
    injection Hfmt as <- <- <-.
    destruct (exponent_digits_spec (decpt - 1)) as (Hxd & Hxne & _).
    set (sg := if decpt - 1 <? 0 then 45%N else 43%N).
    assert (Hsg : float_char sg = true)
      by (unfold sg; destruct (decpt - 1 <? 0); reflexivity).
    set (fr := match r with [] => [] | _ :: _ => 46%N :: r end).
    assert (Hfr : forallb float_char fr = true).
    { unfold fr. destruct r as [|c2 r2]; [reflexivity|].
      change (float_char 46 && forallb float_char (c2 :: r2) = true).
      rewrite (digits_float_chars _ Hr). reflexivity. }
    rewrite <- List.app_assoc. cbn [app].
    apply (float_text_shape s c (fr ++ 101%N :: sg :: exponent_digits (decpt - 1))
             (fr ++ [101%N; sg]) (exponent_digits (decpt - 1)));
      auto.
    + rewrite forallb_app, Hfr. cbn [forallb].
      rewrite Hsg, (digits_float_chars _ Hxd). reflexivity.
    + rewrite <- List.app_assoc. reflexivity.
  - unfold format_float_short in Hfmt. rewrite Hexp in Hfmt.
    fold (sign_text s) in Hfmt.
    destruct (decpt <=? 0) eqn:H0.
    + injection Hfmt as <- <- <-.
      rewrite <- List.app_assoc. cbn [app]. rewrite List.app_nil_r.
      apply (float_text_shape s 48%N _
               (46%N :: zeros (Z.to_nat (- decpt))) ds); auto.
      * cbn [forallb]. rewrite forallb_app, (digits_float_chars _ Hall).
        rewrite (digits_float_chars _ (zeros_digits _)). reflexivity.
      * destruct Hnum as (c & r & -> & _). discriminate.
    + destruct (decpt <? Z.of_nat (List.length ds)) eqn:H1.
      * injection Hfmt as <- <- <-.
        apply Z.leb_gt in H0. apply Z.ltb_lt in H1.
        set (n := Z.to_nat decpt) in *.
        assert (Hn : (0 < n < List.length ds)%nat) by lia.
        assert (Hd1 : forallb is_digit (firstn n ds) = true
                      /\ forallb is_digit (skipn n ds) = true).
        { rewrite <- (firstn_skipn n ds), forallb_app in Hall.
          apply andb_true_iff in Hall. exact Hall. }
        assert (Hne2 : skipn n ds <> []).
        { intros E. apply (f_equal (@List.length N)) in E.
          rewrite length_skipn in E. cbn in E. lia. }
        destruct Hnum as (c & r & E & Hc & Hz & Hr).
        assert (Ef : firstn n ds = c :: firstn (pred n) r).
        { rewrite E. destruct n as [|n']; [lia|]. reflexivity. }
        rewrite Ef in *. rewrite <- List.app_assoc. cbn [app].
        rewrite List.app_nil_r.
        apply (float_text_shape s c _ (firstn (pred n) r ++ [46%N])
                 (skipn n ds)); auto; [|rewrite <- List.app_assoc; reflexivity|tauto].
        destruct Hd1 as [Hd1 Hd2]. cbn [forallb] in Hd1.
        apply andb_true_iff in Hd1.
        rewrite forallb_app, (digits_float_chars _ (proj2 Hd1)).
        cbn [forallb]. rewrite (digits_float_chars _ Hd2). reflexivity.
      * injection Hfmt as <- <- <-.
        set (z := zeros _).
        destruct Hnum as (c & r & -> & Hc & Hz & Hr).
        rewrite <- !List.app_assoc. cbn [app].
        apply (float_text_shape s c _ (r ++ z ++ [46%N]) [48%N]); auto;
          [|rewrite <- !List.app_assoc; reflexivity|discriminate].
        rewrite !forallb_app, (digits_float_chars _ Hr).
        unfold z. rewrite (digits_float_chars _ (zeros_digits _)). reflexivity.
Qed.

(** The text of a finite float: [scan_number] reads the float back from
    it, whatever delimited input follows; it starts with a minus sign or a
    digit, ends with a digit, and has digits, signs, a point and an [e]
    only. *)
Lemma floatstr_spec (x : float) :
  finite x = true ->
  binary64 x = true ->
  (forall rest, delimited rest ->
                scan_number (floatstr x ++ rest) = Some (JFloat x, rest))
  /\ (exists c t, floatstr x = c :: t /\ (c = 45%N \/ is_digit c = true))
  /\ (exists t c, floatstr x = t ++ [c] /\ is_digit c = true)
  /\ forallb float_char (floatstr x) = true.
Proof.
  intros Hfin Hb. destruct x as [| |s|s m e]; try discriminate Hfin.
  - assert (E : floatstr (FZero s) = sign_text s ++ [48%N] ++ [46%N; 48%N] ++ [])
      by (destruct s; reflexivity).
    split;
      [|split;
        [destruct s; eexists; eexists;
         (split; [reflexivity|first [left; reflexivity|right; reflexivity]])
        |split;
         [destruct s;
          [exists [45%N; 48%N; 46%N], 48%N|exists [48%N; 46%N], 48%N];
          split; reflexivity
         |destruct s; reflexivity]]].
    intros rest Hdel. rewrite E.
    pose proof (delimited_not_digit rest Hdel) as Hnd.
    destruct (delimited_no_frac_exp rest Hdel) as [_ Hne].
    unfold scan_number.
    replace ((sign_text s ++ [48%N] ++ [46%N; 48%N] ++ []) ++ rest)
      with ((sign_text s ++ [48%N]) ++ [46%N; 48%N] ++ [] ++ rest)
      by (rewrite <- !List.app_assoc; reflexivity).
    rewrite (match_number_parts (sign_text s ++ [48%N]) [46%N; 48%N] [] rest).
    + destruct s; reflexivity.
    + rewrite <- List.app_assoc. apply match_integer_zero.
    + apply (match_frac_digits [48%N] rest); [discriminate|reflexivity|exact Hnd].
    + exact Hne.
  - cbn [floatstr float_repr].
    destruct (shortest_decimal s m e) as [d k] eqn:Esd.
    destruct (shortest_decimal_round_trips s m e Hb d k Esd) as [Hd Hrt].
    destruct d as [|dp|dp]; try lia.
    destruct (digits_of_pos dp) as (t & Hnum & _ & _).
    unfold round_trips in Hrt. unfold decimal_parts in *.
    destruct (format_float_short s _ _) as [[i f] ex] eqn:Hfmt.
    apply float_eqb_eq in Hrt.
    split; [|exact (format_shape s _ _ Hnum i f ex Hfmt)].
    intros rest Hdel.
    destruct (match_number_format s _ _ rest Hnum Hdel i f ex Hfmt)
      as [Hm Hfl].
    unfold scan_number. rewrite <- !List.app_assoc, Hm, Hrt.
    destruct f; [destruct ex; [destruct Hfl; congruence|]|]; reflexivity.
Qed.

End Floats.

Lemma scan_atom_float (x : float) (rest : str) :
  finite x = true ->
  binary64 x = true ->
  delimited rest ->
  scan_atom (floatstr x ++ rest) = Some (JFloat x, rest).
Proof.
  intros Hfin Hb Hd.
  destruct (floatstr_spec x Hfin Hb) as (Hscan & (c & t & E & Hc) & _).
  unfold scan_atom. rewrite <- (Hscan rest Hd), E. cbn [app].
  assert (H : (110 =? c) = false /\ (116 =? c) = false /\ (102 =? c) = false).
  { destruct Hc as [->|Hc]; [repeat split; reflexivity|].
    repeat split; apply N.eqb_neq; intros <-; discriminate Hc. }
  destruct H as (Hn & Ht & Hf).
  change (lit "null") with [110; 117; 108; 108].
  change (lit "true") with [116; 114; 117; 101].
  change (lit "false") with [102; 97; 108; 115; 101].
  cbn [strip_prefix]. rewrite Hn, Ht, Hf. reflexivity.
Qed.

Lemma float_chars_printable (l : str) :
  forallb float_char l = true -> forallb printable l = true.
Proof.
  induction l as [|c l IH]; [reflexivity|]. cbn [forallb].
  intros H. apply andb_true_iff in H. destruct H as [Hc Hl].
  rewrite (IH Hl), andb_true_r. unfold float_char, is_digit in Hc.
  unfold printable. rewrite !orb_true_iff, andb_true_iff in Hc.
  rewrite !N.eqb_eq, !N.leb_le in Hc. apply andb_true_iff.
  rewrite !N.leb_le. lia.
Qed.

(** A value written by [dumps] that starts with a minus sign or a digit. *)
Lemma sign_or_digit (c : N) :
  c = 45 \/ is_digit c = true ->
  is_ws c = false /\ isspace c = false /\ c <> 93 /\ c <> 0xFEFF.
Proof.
  intros [->|Hc]; [repeat split; discriminate|].
  unfold is_digit in Hc. apply andb_true_iff in Hc. destruct Hc as [H1 H2].
  apply N.leb_le in H1, H2.
  assert (Hcases : c = 48 \/ c = 49 \/ c = 50 \/ c = 51 \/ c = 52
                   \/ c = 53 \/ c = 54 \/ c = 55 \/ c = 56 \/ c = 57) by lia.
  repeat (destruct Hcases as [->|Hcases]); try subst c;
    repeat split; discriminate.
Qed.

Lemma dumps_head (v : json) :
  well_formed v = true ->
  exists c t, dumps v = c :: t
              /\ is_ws c = false /\ isspace c = false
              /\ c <> 93 /\ c <> 0xFEFF.
Proof.
  destruct v as [|[|]|z|x|s|xs|kvs]; cbn [well_formed dumps]; intros H;
    try (eexists; eexists; split; [reflexivity|];
         repeat split; discriminate).
  - destruct (intstr_head z) as (c & t & E & Hc). exists c, t.
    split; [exact E|apply sign_or_digit, Hc].
  - apply andb_true_iff in H. destruct H as [Hfin Hb].
    destruct (floatstr_spec x Hfin Hb) as (_ & (c & t & E & Hc) & _).
    exists c, t. split; [exact E|apply sign_or_digit, Hc].
Qed.

Lemma skip_ws_dumps (v : json) (t : str) :
  well_formed v = true -> skip_ws (dumps v ++ t) = dumps v ++ t.
Proof.
  intros H. destruct (dumps_head v H) as (c & r & -> & Hws & _).
  cbn [app skip_ws]. rewrite Hws. reflexivity.
Qed.

Lemma scan_once_S (f : nat) (s : str) :
  scan_once (S f) s =
    match s with
    | [] => None
    | c :: r =>
        if c =? 34 then
          match scanstring r with
          | Some (t, r') => Some (JStr t, r')
          | None => None
          end
        else if c =? 123 then
          match skip_ws r with
          | c1 :: r1 =>
              if c1 =? 125 then Some (JDict [], r1)
              else
                match object_items f (c1 :: r1) with
                | Some (pairs, r') => Some (JDict (dict_of_pairs pairs), r')
                | None => None
                end
          | [] => None
          end
        else if c =? 91 then
          match skip_ws r with
          | c1 :: r1 =>
              if c1 =? 93 then Some (JList [], r1)
              else
                match array_items f (c1 :: r1) with
                | Some (vs, r') => Some (JList vs, r')
                | None => None
                end
          | [] => None
          end
        else scan_atom s
    end.
Proof. reflexivity. Qed.

Lemma array_items_S (f : nat) (s : str) :
  array_items (S f) s =
    match scan_once f s with
    | None => None
    | Some (v, r) =>
        match skip_ws r with
        | c :: r1 =>
            if c =? 93 then Some ([v], r1)
            else if c =? 44 then
              match array_items f (skip_ws r1) with
              | Some (vs, r') => Some (v :: vs, r')
              | None => None
              end
            else None
        | [] => None
        end
    end.
Proof. reflexivity. Qed.

Lemma object_items_S (f : nat) (s : str) :
  object_items (S f) s =
    match s with
    | q :: r =>
        if q =? 34 then
          match scanstring r with
          | None => None
          | Some (k, r0) =>
              match skip_ws r0 with
              | c :: r1 =>
                  if c =? 58 then
                    match scan_once f (skip_ws r1) with
                    | None => None
                    | Some (v, r2) =>
                        match skip_ws r2 with
                        | c2 :: r3 =>
                            if c2 =? 125 then Some ([(k, v)], r3)
                            else if c2 =? 44 then
                              match object_items f (skip_ws r3) with
                              | Some (kvs, r') => Some ((k, v) :: kvs, r')
                              | None => None
                              end
                            else None
                        | [] => None
                        end
                    end
                  else None
              | [] => None
              end
          end
        else None
    | [] => None
    end.
Proof. reflexivity. Qed.

Lemma array_items_join (xs : list json) :
  Forall reads_back xs ->
  forallb well_formed xs = true ->
  xs <> [] ->
  forall (fuel : nat) (rest : str),
    (S (List.length (join_map dumps item_separator xs)) <= fuel)%nat ->
    array_items fuel (join_map dumps item_separator xs ++ 93 :: rest)
    = Some (xs, rest).
Proof.
  unfold item_separator.
  induction 1 as [|x xs Hx Hxs IH]; intros Hwf Hne fuel rest Hfuel;
    [congruence|].
  cbn [forallb] in Hwf. apply andb_true_iff in Hwf. destruct Hwf as [Hwx Hwxs].
  destruct fuel as [|f]; [lia|]. rewrite array_items_S.
  destruct xs as [|y r].
  - cbn [join_map] in *.
    rewrite (Hx Hwx f (93 :: rest)); [|lia|right; left; reflexivity].
    reflexivity.
  - rewrite join_map_cons2 in *. rewrite !length_app in Hfuel.
    rewrite <- !app_assoc.
    rewrite (Hx Hwx f); [|lia|left; reflexivity].
    cbn [app]. change (skip_ws (44 :: ?t)) with (44 :: t).
    change (44 =? 93) with false. change (44 =? 44) with true. cbv iota.
    change (skip_ws (32 :: ?t)) with (skip_ws t).
    assert (Hy : well_formed y = true).
    { cbn [forallb] in Hwxs. apply andb_true_iff in Hwxs. tauto. }
    destruct (dumps_head y Hy) as (c & t & E & Hws & _).
    assert (Hskip : forall tail,
               skip_ws (join_map dumps [44; 32] (y :: r) ++ tail)
               = join_map dumps [44; 32] (y :: r) ++ tail).
    { intros tail. destruct r; [cbn [join_map]|rewrite join_map_cons2];
        rewrite E; cbn [app skip_ws]; rewrite Hws; reflexivity. }
    rewrite Hskip.
    rewrite (IH Hwxs ltac:(discriminate) f rest);
      [reflexivity|cbn [List.length] in *; lia].
Qed.

Lemma entry_text (k : str) (v : json) (tail : str) :
  entry (k, v) ++ tail
  = 34 :: flat_map escape_char k ++ 34 :: 58 :: 32 :: dumps v ++ tail.
Proof.
  unfold entry, encode_basestring_ascii, key_separator. cbn [fst snd app].
  rewrite <- !app_assoc. reflexivity.
Qed.

Lemma entries_head (kvs : list (str * json)) (tail : str) :
  kvs <> [] ->
  exists t, join_map entry [44; 32] kvs ++ tail = 34 :: t.
Proof.
  destruct kvs as [|[k v] [|kv r]]; intros H; [congruence| |].
  - cbn [join_map]. rewrite entry_text. eexists; reflexivity.
  - rewrite join_map_cons2, <- app_assoc, entry_text. eexists; reflexivity.
Qed.

Lemma object_items_join (kvs : list (str * json)) :
  Forall (fun kv => reads_back (snd kv)) kvs ->
  forallb (fun kv => forallb scalar (fst kv) && well_formed (snd kv)) kvs
  = true ->
  kvs <> [] ->
  forall (fuel : nat) (rest : str),
    (S (List.length (join_map entry item_separator kvs)) <= fuel)%nat ->
    object_items fuel (join_map entry item_separator kvs ++ 125 :: rest)
    = Some (kvs, rest).
Proof.
  unfold item_separator.
  induction 1 as [|[k v] kvs Hx Hxs IH]; intros Hwf Hne fuel rest Hfuel;
    [congruence|].
  cbn [forallb fst snd] in Hwf, Hx.
  apply andb_true_iff in Hwf. destruct Hwf as [Hkv Hwxs].
  apply andb_true_iff in Hkv. destruct Hkv as [Hk Hv].
  destruct fuel as [|f]; [lia|]. rewrite object_items_S.
  assert (Hlen : forall t, (List.length (dumps v) <= List.length (entry (k, v) ++ t))%nat).
  { intros t. unfold entry. cbn [fst snd]. rewrite !length_app. lia. }
  destruct kvs as [|kv r].
  - cbn [join_map] in *. rewrite entry_text.
    change (34 =? 34) with true. cbv iota.
    rewrite (scanstring_encoded k _ Hk).
    change (skip_ws (58 :: ?t)) with (58 :: t).
    change (58 =? 58) with true. cbv iota.
    change (skip_ws (32 :: ?t)) with (skip_ws t).
    rewrite (skip_ws_dumps v _ Hv).
    rewrite (Hx Hv f (125 :: rest)); [reflexivity| |right; right; reflexivity].
    specialize (Hlen []). rewrite List.app_nil_r in Hlen. lia.
  - rewrite join_map_cons2 in *. rewrite <- app_assoc, entry_text.
    change (34 =? 34) with true. cbv iota.
    rewrite (scanstring_encoded k _ Hk).
    change (skip_ws (58 :: ?t)) with (58 :: t).
    change (58 =? 58) with true. cbv iota.
    change (skip_ws (32 :: ?t)) with (skip_ws t).
    rewrite (skip_ws_dumps v _ Hv).
    rewrite (Hx Hv f); [| |left; reflexivity].
    + cbn [app]. change (skip_ws (44 :: ?t)) with (44 :: t).
      change (44 =? 125) with false. change (44 =? 44) with true. cbv iota.
      change (skip_ws (32 :: ?t)) with (skip_ws t).
      destruct (entries_head (kv :: r) (125 :: rest) ltac:(discriminate))
        as (t & Et).
      rewrite Et.
      change (skip_ws (34 :: t)) with (34 :: t). rewrite <- Et.
      rewrite (IH Hwxs ltac:(discriminate) f rest); [reflexivity|].
      rewrite !length_app in Hfuel. cbn [List.length] in Hfuel. lia.
    + specialize (Hlen []). rewrite List.app_nil_r in Hlen.
      rewrite !length_app in Hfuel. lia.
Qed.

(** [scan_once] reads back every well-formed value [dumps] wrote. *)
Lemma scan_once_dumps (v : json) : reads_back v.
Proof.
  induction v using json_induction; unfold reads_back;
    intros Hwf fuel rest Hfuel Hd.
  - destruct fuel as [|f]; [cbn in Hfuel; lia|]. reflexivity.
  - destruct fuel as [|f]; [destruct b; cbn in Hfuel; lia|].
    destruct b; reflexivity.
  - destruct (intstr_head z) as (c & t & E & Hc).
    cbn [dumps] in *. destruct fuel as [|f]; [rewrite E in Hfuel; cbn in Hfuel; lia|].
    rewrite scan_once_S. rewrite <- (scan_atom_int z rest Hd).
    rewrite E. cbn [app].
    assert (H : (c =? 34) = false /\ (c =? 123) = false /\ (c =? 91) = false).
    { destruct Hc as [->|Hc]; [repeat split; reflexivity|].
      repeat split; apply N.eqb_neq; intros ->; discriminate Hc. }
    destruct H as (-> & -> & ->). reflexivity.
  - cbn [dumps well_formed] in *. apply andb_true_iff in Hwf.
    destruct Hwf as [Hfin Hb].
    destruct (floatstr_spec x Hfin Hb) as (_ & (c & t & E & Hc) & _).
    destruct fuel as [|f]; [rewrite E in Hfuel; cbn in Hfuel; lia|].
    rewrite scan_once_S. rewrite <- (scan_atom_float x rest Hfin Hb Hd).
    rewrite E. cbn [app].
    assert (H : (c =? 34) = false /\ (c =? 123) = false /\ (c =? 91) = false).
    { destruct Hc as [->|Hc]; [repeat split; reflexivity|].
      repeat split; apply N.eqb_neq; intros ->; discriminate Hc. }
    destruct H as (-> & -> & ->). reflexivity.
  - cbn [dumps well_formed] in *. destruct fuel as [|f]; [cbn in Hfuel; lia|].
    unfold encode_basestring_ascii. cbn [app]. rewrite <- app_assoc.
    rewrite scan_once_S. change (34 =? 34) with true. cbv iota.
    cbn [app]. rewrite (scanstring_encoded s rest Hwf). reflexivity.
  - cbn [dumps well_formed] in *. destruct fuel as [|f]; [cbn in Hfuel; lia|].
    cbn [app]. rewrite <- app_assoc. cbn [app].
    rewrite scan_once_S. change (91 =? 34) with false.
    change (91 =? 123) with false. change (91 =? 91) with true. cbv iota.
    destruct xs as [|x r]; [reflexivity|].
    assert (Hx : well_formed x = true).
    { cbn [forallb] in Hwf. apply andb_true_iff in Hwf. tauto. }
    destruct (dumps_head x Hx) as (c & t & E & Hws & _ & H93 & _).
    assert (Eh : exists t', join_map dumps item_separator (x :: r) ++ 93 :: rest
                            = c :: t').
    { destruct r; [cbn [join_map]|rewrite join_map_cons2];
        rewrite E; eexists; reflexivity. }
    destruct Eh as (t' & Et). rewrite Et. cbn [skip_ws]. rewrite Hws.
    replace (c =? 93) with false by (symmetry; apply N.eqb_neq; exact H93).
    rewrite <- Et.
    rewrite (array_items_join (x :: r) H Hwf ltac:(discriminate) f rest);
      [reflexivity|].
    cbn [List.length] in Hfuel. rewrite length_app in Hfuel.
    cbn [List.length] in Hfuel. lia.
  - cbn [dumps well_formed] in *. destruct fuel as [|f]; [cbn in Hfuel; lia|].
    apply andb_true_iff in Hwf. destruct Hwf as [Hwf Hu].
    cbn [app]. rewrite <- app_assoc. cbn [app].
    rewrite scan_once_S. change (123 =? 34) with false.
    change (123 =? 123) with true. cbv iota.
    destruct kvs as [|kv r]; [reflexivity|].
    fold entry. change item_separator with [44; 32] in *.
    destruct (entries_head (kv :: r) (125 :: rest) ltac:(discriminate))
      as (t & Et).
    rewrite Et. change (skip_ws (34 :: t)) with (34 :: t).
    change (34 =? 125) with false. cbv iota. rewrite <- Et.
    pose proof (object_items_join (kv :: r) H Hwf ltac:(discriminate) f rest)
      as Ho.
    unfold item_separator in Ho. rewrite Ho.
    + rewrite (dict_of_pairs_unique _ Hu). reflexivity.
    + cbn [List.length] in Hfuel. rewrite length_app in Hfuel.
      cbn [List.length] in Hfuel. fold entry in Hfuel. lia.
Qed.

(** [json.loads(json.dumps(v)) == v] for every well-formed value. *)
Lemma loads_dumps (v : json) :
  well_formed v = true -> loads (dumps v) = Some v.
Proof.
  intros Hwf.
  destruct (dumps_head v Hwf) as (c & t & E & _ & _ & _ & Hbom).
  assert (Hd : decode_document (dumps v) = Some v).
  { unfold decode_document.
    pose proof (skip_ws_dumps v [] Hwf) as Hs.
    rewrite List.app_nil_r in Hs. rewrite Hs.
    pose proof (scan_once_dumps v Hwf (List.length (dumps v)) []
                  (le_n _) I) as H.
    rewrite List.app_nil_r in H. rewrite H. reflexivity. }
  unfold loads. rewrite E in *.
  replace (c =? 0xFEFF) with false by (symmetry; apply N.eqb_neq; exact Hbom).
  exact Hd.
Qed.

(** *** The text is printable ASCII *)

Lemma printable_range (c : N) : printable c = true <-> 32 <= c <= 126.
Proof.
  unfold printable. rewrite andb_true_iff, !N.leb_le. reflexivity.
Qed.

Lemma hex_digit_printable (d : N) : d < 16 -> printable (hex_digit d) = true.
Proof.
  intros H. apply printable_range. unfold hex_digit.
  destruct (d <? 10); lia.
Qed.

Lemma u_escape_printable (n : N) : forallb printable (u_escape n) = true.
Proof.
  unfold u_escape, hex4. cbn [forallb].
  rewrite !hex_digit_printable by (apply N.mod_lt; discriminate).
  reflexivity.
Qed.

Lemma escape_char_printable (c : N) : forallb printable (escape_char c) = true.
Proof.
  unfold escape_char.
  repeat match goal with
         | |- context [if ?b then _ else _] => destruct b eqn:?
         end;
    try reflexivity;
    try (cbn [forallb]; rewrite andb_true_r; assumption);
    try apply u_escape_printable.
  cbv zeta. rewrite forallb_app, !u_escape_printable. reflexivity.
Qed.

Lemma encode_basestring_printable (s : str) :
  forallb printable (encode_basestring_ascii s) = true.
Proof.
  assert (H : forallb printable (flat_map escape_char s) = true).
  { induction s as [|c s IH]; [reflexivity|].
    cbn [flat_map]. rewrite forallb_app, escape_char_printable, IH.
    reflexivity. }
  unfold encode_basestring_ascii.
  change (34 :: ?l) with ([34] ++ l).
  rewrite !forallb_app, H. reflexivity.
Qed.

Lemma digit_printable (c : N) : is_digit c = true -> printable c = true.
Proof.
  unfold is_digit. rewrite andb_true_iff, !N.leb_le, printable_range. lia.
Qed.

Lemma intstr_printable (z : Z) : forallb printable (intstr z) = true.
Proof.
  assert (H : forall d, forallb printable (uint_chars d) = true).
  { intros d. pose proof (uint_chars_digits d) as Hd.
    induction (uint_chars d) as [|c l IH]; [reflexivity|].
    cbn [forallb] in *. apply andb_true_iff in Hd. destruct Hd as [Hc Hl].
    rewrite (digit_printable c Hc), (IH Hl). reflexivity. }
  destruct z; cbn [intstr forallb]; [reflexivity|apply H|rewrite H; reflexivity].
Qed.

Lemma join_map_printable {A : Type} (f : A -> str) (xs : list A) :
  Forall (fun x => forallb printable (f x) = true) xs ->
  forallb printable (join_map f item_separator xs) = true.
Proof.
  induction 1 as [|x xs Hx Hxs IH]; [reflexivity|].
  destruct xs as [|y r]; [exact Hx|].
  rewrite join_map_cons2, !forallb_app, Hx, IH. reflexivity.
Qed.

(** For a well-formed value [dumps] writes printable ASCII only: no
    newline, and nothing [encode()] has to turn into several bytes. *)
Lemma dumps_printable (v : json) :
  well_formed v = true -> forallb printable (dumps v) = true.
Proof.
  induction v using json_induction; intros Hwf; cbn [dumps well_formed] in *.
  - reflexivity.
  - destruct b; reflexivity.
  - apply intstr_printable.
  - apply andb_true_iff in Hwf. destruct Hwf as [Hfin Hb].
    destruct (floatstr_spec x Hfin Hb) as (_ & _ & _ & Hch).
    apply float_chars_printable, Hch.
  - apply encode_basestring_printable.
  - change (91 :: ?l) with ([91] ++ l). rewrite !forallb_app.
    rewrite join_map_printable; [reflexivity|].
    rewrite forallb_forall in Hwf. rewrite Forall_forall in *.
    intros x Hx. exact (H x Hx (Hwf x Hx)).
  - apply andb_true_iff in Hwf. destruct Hwf as [Hwf _].
    change (123 :: ?l) with ([123] ++ l). rewrite !forallb_app.
    rewrite join_map_printable; [reflexivity|].
    rewrite forallb_forall in Hwf. rewrite Forall_forall in *.
    intros kv Hkv. specialize (Hwf kv Hkv). apply andb_true_iff in Hwf.
    rewrite !forallb_app, encode_basestring_printable, (H kv Hkv (proj2 Hwf)).
    reflexivity.
Qed.

(** *** UTF-8 on ASCII text, and strip *)

Lemma printable_ascii (s : str) :
  forallb printable s = true -> Forall (fun c => c < 128) s.
Proof.
  rewrite forallb_forall, Forall_forall. intros H c Hc.
  specialize (H c Hc). apply printable_range in H. lia.
Qed.

Lemma utf8_units_ascii (s : str) :
  Forall (fun c => c < 128) s -> utf8_units s = Some s.
Proof.
  induction 1 as [|c s Hc Hs IH]; [reflexivity|].
  cbn [utf8_units]. unfold utf8_char.
  replace (c <? 128) with true by (symmetry; apply N.ltb_lt; exact Hc).
  rewrite IH. reflexivity.
Qed.

Lemma utf8_decode_ascii (s : str) :
  Forall (fun c => c < 128) s -> utf8_decode s = Some s.
Proof.
  induction 1 as [|c s Hc Hs IH]; [reflexivity|].
  cbn [utf8_decode].
  replace (c <? 128) with true by (symmetry; apply N.ltb_lt; exact Hc).
  rewrite IH. reflexivity.
Qed.

Lemma to_N_byte_of (n : N) : n < 256 -> Byte.to_N (byte_of n) = n.
Proof.
  intros H. unfold byte_of. destruct (Byte.of_N n) as [b|] eqn:E.
  - apply Byte.to_of_N, E.
  - apply Byte.of_N_None_iff in E. lia.
Qed.

(** ASCII text survives [encode()] and [decode()]. *)
Lemma decode_encode_ascii (s : str) :
  Forall (fun c => c < 128) s ->
  Text.encode s = Some (List.map byte_of s)
  /\ Text.decode (List.map byte_of s) = Some s.
Proof.
  intros H. unfold Text.encode, Text.decode.
  rewrite (utf8_units_ascii s H). split; [reflexivity|].
  rewrite map_map.
  replace (List.map (fun x => Byte.to_N (byte_of x)) s) with s.
  - apply utf8_decode_ascii, H.
  - induction H as [|c s Hc Hs IH]; [reflexivity|].
    cbn [List.map]. rewrite <- IH, to_N_byte_of by lia. reflexivity.
Qed.

Lemma digit_not_space (c : N) : is_digit c = true -> isspace c = false.
Proof.
  unfold is_digit. rewrite andb_true_iff, !N.leb_le. intros [H1 H2].
  assert (Hcases : c = 48 \/ c = 49 \/ c = 50 \/ c = 51 \/ c = 52
                   \/ c = 53 \/ c = 54 \/ c = 55 \/ c = 56 \/ c = 57) by lia.
  repeat (destruct Hcases as [->|Hcases]); try subst c; reflexivity.
Qed.

Lemma uint_chars_last (d : Decimal.uint) :
  uint_chars d <> [] ->
  exists t c, uint_chars d = t ++ [c] /\ is_digit c = true.
Proof.
  intros Hne. pose proof (uint_chars_digits d) as Hd.
  destruct (exists_last Hne) as (t & c & E). exists t, c.
  split; [exact E|]. rewrite E, forallb_app in Hd.
  apply andb_true_iff in Hd. destruct Hd as [_ Hd]. cbn [forallb] in Hd.
  apply andb_true_iff in Hd. tauto.
Qed.

(** What a well-formed value is written as ends with a character that is
    not white space. *)
Lemma dumps_last (v : json) :
  well_formed v = true ->
  exists t c, dumps v = t ++ [c] /\ isspace c = false.
Proof.
  destruct v as [|[|]|z|x|s|xs|kvs]; cbn [well_formed dumps]; intros H.
  - exists [110; 117; 108], 108. split; reflexivity.
  - exists [116; 114; 117], 101. split; reflexivity.
  - exists [102; 97; 108; 115], 101. split; reflexivity.
  - destruct z as [|p|p]; cbn [intstr].
    + exists [], 48. split; reflexivity.
    + destruct (to_uint_head p) as (c0 & ds & E & _).
      destruct (uint_chars_last (Pos.to_uint p)) as (t & c & Et & Hc);
        [rewrite E; discriminate|].
      exists t, c. split; [exact Et|apply digit_not_space, Hc].
    + destruct (to_uint_head p) as (c0 & ds & E & _).
      destruct (uint_chars_last (Pos.to_uint p)) as (t & c & Et & Hc);
        [rewrite E; discriminate|].
      exists (45 :: t), c. rewrite Et. split; [reflexivity|].
      apply digit_not_space, Hc.
  - apply andb_true_iff in H. destruct H as [Hfin Hb].
    destruct (floatstr_spec x Hfin Hb) as (_ & _ & (t & c & E & Hc) & _).
    exists t, c. split; [exact E|apply digit_not_space, Hc].
  - exists (34 :: flat_map escape_char s), 34. split; reflexivity.
  - eexists (91 :: _), 93. split; reflexivity.
  - eexists (123 :: _), 125. split; reflexivity.
Qed.

(** [strip()] of a line takes the newline off and nothing else. *)
Lemma strip_line (v : json) :
  well_formed v = true -> strip (dumps v ++ [10]) = dumps v.
Proof.
  intros Hwf.
  destruct (dumps_head v Hwf) as (c & t & E & _ & Hc & _).
  destruct (dumps_last v Hwf) as (t' & c' & E' & Hc').
  unfold strip, rstrip.
  assert (Hl : lstrip (dumps v ++ [10]) = dumps v ++ [10]).
  { rewrite E. cbn [app lstrip]. rewrite Hc. reflexivity. }
  rewrite Hl, rev_app_distr. cbn [rev app lstrip].
  change (isspace 10) with true. cbv iota.
  rewrite E', rev_app_distr. cbn [rev app lstrip]. rewrite Hc'.
  change (c' :: rev t') with (rev [c'] ++ rev t').
  rewrite <- rev_app_distr, rev_involutive. reflexivity.
Qed.

(** *** Fuel *)

Lemma skip_ws_length (s : str) :
  (List.length (skip_ws s) <= List.length s)%nat.
Proof.
  induction s as [|c s IH]; [reflexivity|].
  cbn [skip_ws]. destruct (is_ws c); cbn [List.length]; lia.
Qed.

Lemma strip_prefix_length (prefix s r : str) :
  strip_prefix prefix s = Some r ->
  (List.length r + List.length prefix = List.length s)%nat.
Proof.
  revert s. induction prefix as [|p ps IH]; intros s H.
  - cbn in H. injection H as <-. cbn [List.length]. lia.
  - destruct s as [|c cs]; [discriminate H|]. cbn [strip_prefix] in H.
    destruct (p =? c); [|discriminate H].
    specialize (IH cs H). cbn [List.length]. lia.
Qed.

Lemma span_digits_length (s ds r : str) :
  span_digits s = (ds, r) -> (List.length r <= List.length s)%nat.
Proof.
  revert ds r. induction s as [|c s IH]; intros ds r H.
  - injection H as <- <-. reflexivity.
  - cbn [span_digits] in H. destruct (is_digit c).
    + destruct (span_digits s) as [ds' r'] eqn:E. injection H as <- <-.
      specialize (IH ds' r' eq_refl). cbn [List.length]. lia.
    + injection H as <- <-. reflexivity.
Qed.

Lemma match_integer_length (s i r : str) :
  match_integer s = Some (i, r) -> (List.length r < List.length s)%nat.
Proof.
  unfold match_integer. intros H.
  assert (Hcore : forall s1 sign,
             match s1 with
             | c :: r0 =>
                 if c =? 48 then Some (sign ++ [48], r0)
                 else if is_digit c then
                   let (ds, r') := span_digits r0 in Some (sign ++ c :: ds, r')
                 else None
             | [] => None
             end = Some (i, r) -> (List.length r < List.length s1)%nat).
  { intros [|c r0] sign Hs; [discriminate Hs|].
    destruct (c =? 48).
    - injection Hs as <- <-. cbn [List.length]. lia.
    - destruct (is_digit c); [|discriminate Hs].
      destruct (span_digits r0) as [ds r'] eqn:E. injection Hs as <- <-.
      pose proof (span_digits_length _ _ _ E). cbn [List.length]. lia. }
  destruct s as [|c r0]; [discriminate H|].
  destruct (c =? 45).
  - apply (Hcore r0 [45]) in H. cbn [List.length]. lia.
  - exact (Hcore (c :: r0) [] H).
Qed.

Lemma match_frac_length (s f r : str) :
  match_frac s = (f, r) -> (List.length r <= List.length s)%nat.
Proof.
  unfold match_frac. destruct s as [|c r0]; intros H.
  - injection H as <- <-. reflexivity.
  - destruct (c =? 46).
    + destruct (span_digits r0) as [[|d ds] r'] eqn:E; injection H as <- <-;
        [reflexivity|].
      pose proof (span_digits_length _ _ _ E). cbn [List.length]. lia.
    + injection H as <- <-. reflexivity.
Qed.

Lemma match_exp_length (s e r : str) :
  match_exp s = (e, r) -> (List.length r <= List.length s)%nat.
Proof.
  unfold match_exp. destruct s as [|c r0]; intros H.
  - injection H as <- <-. reflexivity.
  - destruct ((c =? 101) || (c =? 69)); [|injection H as <- <-; reflexivity].
    assert (Hsign : forall sign r1,
               (List.length r1 <= List.length r0)%nat ->
               match span_digits r1 with
               | ([], _) => ([], c :: r0)
               | (ds, r') => (c :: sign ++ ds, r')
               end = (e, r) ->
               (List.length r <= List.length (c :: r0))%nat).
    { intros sign r1 Hr1 Hs.
      destruct (span_digits r1) as [[|d ds] r'] eqn:E; injection Hs as <- <-;
        [reflexivity|].
      pose proof (span_digits_length _ _ _ E). cbn [List.length]. lia. }
    destruct r0 as [|c1 r1].
    + apply (Hsign [] []); [reflexivity|exact H].
    + destruct ((c1 =? 45) || (c1 =? 43)).
      * apply (Hsign [c1] r1); [cbn [List.length]; lia|exact H].
      * apply (Hsign [] (c1 :: r1)); [reflexivity|exact H].
Qed.

Lemma scan_number_length (s : str) (v : json) (r : str) :
  scan_number s = Some (v, r) -> (List.length r < List.length s)%nat.
Proof.
  unfold scan_number, match_number. intros H.
  destruct (match_integer s) as [[i r0]|] eqn:Ei.
  - pose proof (match_integer_length _ _ _ Ei) as H0.
    destruct (match_frac r0) as [f r1] eqn:Ef.
    destruct (match_exp r1) as [e r2] eqn:Ee.
    pose proof (match_frac_length _ _ _ Ef). pose proof (match_exp_length _ _ _ Ee).
    destruct f, e; injection H as <- <-; lia.
  - repeat match type of H with
           | match strip_prefix ?p s with _ => _ end = _ =>
               let E := fresh "E" in
               destruct (strip_prefix p s) eqn:E;
               [injection H as <- <-; apply strip_prefix_length in E;
                cbn [List.length lit List.map list_ascii_of_string] in E; lia|]
           end.
    discriminate H.
Qed.

Lemma scan_atom_length (s : str) (v : json) (r : str) :
  scan_atom s = Some (v, r) -> (List.length r < List.length s)%nat.
Proof.
  unfold scan_atom. intros H.
  repeat match type of H with
         | match strip_prefix ?p s with _ => _ end = _ =>
             let E := fresh "E" in
             destruct (strip_prefix p s) eqn:E;
             [injection H as <- <-; apply strip_prefix_length in E;
              cbn [List.length lit List.map list_ascii_of_string] in E; lia|]
         end.
  exact (scan_number_length _ _ _ H).
Qed.

Lemma push_some (c : N) (x : option (str * str)) (t r : str) :
  push c x = Some (t, r) -> exists t', x = Some (t', r).
Proof.
  destruct x as [[t' r']|]; [|discriminate].
  cbn [push]. intros H. injection H as <- <-. exists t'. reflexivity.
Qed.

(** [scanstring] consumes at least the closing quote. *)
Lemma scanstring_length (s t r : str) :
  scanstring s = Some (t, r) -> (List.length r < List.length s)%nat.
Proof.
  enough (Hall : forall n s t r,
             (List.length s <= n)%nat ->
             scanstring s = Some (t, r) ->
             (List.length r < List.length s)%nat)
    by exact (Hall (List.length s) s t r (le_n _)).
  clear s t r.
  induction n as [|n IH]; intros s t r Hle H;
    (destruct s as [|c r0]; [discriminate H|]);
    [cbn [List.length] in Hle; lia|].
  cbn [List.length] in Hle.
  assert (Hrec : forall (x : N) (tail : str),
             (List.length tail <= n)%nat ->
             push x (scanstring tail) = Some (t, r) ->
             (List.length r < List.length tail)%nat).
  { intros x tail Htail Hp. apply push_some in Hp. destruct Hp as (t' & Hp).
    exact (IH tail t' r Htail Hp). }
  rewrite scanstring_cons in H.
  destruct (c =? 34); [injection H as <- <-; cbn [List.length]; lia|].
  destruct (c =? 92).
  - destruct r0 as [|e r1]; [discriminate H|].
    destruct (e =? 117).
    + destruct r1 as [|h1 [|h2 [|h3 [|h4 r2]]]]; try discriminate H.
      destruct (decode_uXXXX h1 h2 h3 h4) as [uni|]; [|discriminate H].
      cbn [List.length] in *.
      assert (H2 : forall x, push x (scanstring r2) = Some (t, r) ->
                             (List.length r < S (S (S (S (S (S (List.length r2)))))))%nat).
      { intros x Hp. apply Hrec in Hp; lia. }
      destruct r2 as [|b [|u [|g1 [|g2 [|g3 [|g4 r3]]]]]];
        try exact (H2 _ H).
      destruct (is_high_surrogate uni && (b =? 92) && (u =? 117));
        [|exact (H2 _ H)].
      destruct (decode_uXXXX g1 g2 g3 g4) as [uni2|]; [|discriminate H].
      destruct (is_low_surrogate uni2); [|exact (H2 _ H)].
      apply Hrec in H; cbn [List.length] in *; lia.
    + destruct (backslash e); [|discriminate H].
      apply Hrec in H; cbn [List.length] in *; lia.
  - destruct (c <? 32); [discriminate H|].
    apply Hrec in H; cbn [List.length] in *; lia.
Qed.

(** Fuel is never what makes [scan_once] fail: when some amount of fuel
    gives a result, so does every amount that is at least the number of
    characters the result consumed. *)
Lemma fuel_adequate (f : nat) :
  (forall s v r,
      scan_once f s = Some (v, r) ->
      (List.length r < List.length s)%nat
      /\ forall f', (List.length s - List.length r <= f')%nat ->
                    scan_once f' s = Some (v, r))
  /\ (forall s vs r,
         array_items f s = Some (vs, r) ->
         (List.length r < List.length s)%nat
         /\ forall f', (List.length s - List.length r <= f')%nat ->
                       array_items f' s = Some (vs, r))
  /\ (forall s kvs r,
         object_items f s = Some (kvs, r) ->
         (List.length r < List.length s)%nat
         /\ forall f', (List.length s - List.length r <= f')%nat ->
                       object_items f' s = Some (kvs, r)).
Proof.
  induction f as [|f (IHs & IHa & IHo)];
    [repeat split; intros; discriminate|].
  split; [|split].
  - intros s v r H. rewrite scan_once_S in H.
    destruct s as [|c r0]; [discriminate H|].
    destruct (c =? 34) eqn:E34.
    { destruct (scanstring r0) as [[t r']|] eqn:Es; [|discriminate H].
      injection H as <- <-. pose proof (scanstring_length _ _ _ Es).
      split; [cbn [List.length]; lia|].
      intros [|f'] Hf; [cbn [List.length] in Hf; lia|].
      rewrite scan_once_S, E34, Es. reflexivity. }
    destruct (c =? 123) eqn:E123.
    { pose proof (skip_ws_length r0) as Hw.
      destruct (skip_ws r0) as [|c1 r1] eqn:Ew; [discriminate H|].
      destruct (c1 =? 125) eqn:E125.
      - injection H as <- <-. cbn [List.length] in *. split; [lia|].
        intros [|f'] Hf; [lia|].
        rewrite scan_once_S, E34, E123, Ew, E125. reflexivity.
      - destruct (object_items f (c1 :: r1)) as [[pairs r']|] eqn:Eo;
          [|discriminate H].
        injection H as <- <-. destruct (IHo _ _ _ Eo) as [Hlt Hfu].
        cbn [List.length] in *. split; [lia|].
        intros [|f'] Hf; [lia|].
        rewrite scan_once_S, E34, E123, Ew, E125, Hfu by lia. reflexivity. }
    destruct (c =? 91) eqn:E91.
    { pose proof (skip_ws_length r0) as Hw.
      destruct (skip_ws r0) as [|c1 r1] eqn:Ew; [discriminate H|].
      destruct (c1 =? 93) eqn:E93.
      - injection H as <- <-. cbn [List.length] in *. split; [lia|].
        intros [|f'] Hf; [lia|].
        rewrite scan_once_S, E34, E123, E91, Ew, E93. reflexivity.
      - destruct (array_items f (c1 :: r1)) as [[vs r']|] eqn:Ea;
          [|discriminate H].
        injection H as <- <-. destruct (IHa _ _ _ Ea) as [Hlt Hfu].
        cbn [List.length] in *. split; [lia|].
        intros [|f'] Hf; [lia|].
        rewrite scan_once_S, E34, E123, E91, Ew, E93, Hfu by lia.
        reflexivity. }
    pose proof (scan_atom_length _ _ _ H) as Hlt. split; [exact Hlt|].
    intros [|f'] Hf; [lia|].
    rewrite scan_once_S, E34, E123, E91. exact H.
  - intros s vs r H. rewrite array_items_S in H.
    destruct (scan_once f s) as [[v r0]|] eqn:Es; [|discriminate H].
    destruct (IHs _ _ _ Es) as [Hlt Hfu].
    pose proof (skip_ws_length r0) as Hw.
    destruct (skip_ws r0) as [|c r1] eqn:Ew; [discriminate H|].
    cbn [List.length] in Hw.
    destruct (c =? 93) eqn:E93.
    + injection H as <- <-. split; [lia|].
      intros [|f'] Hf; [lia|].
      rewrite array_items_S, Hfu, Ew, E93 by lia. reflexivity.
    + destruct (c =? 44) eqn:E44; [|discriminate H].
      pose proof (skip_ws_length r1) as Hw1.
      destruct (array_items f (skip_ws r1)) as [[vs' r']|] eqn:Ea;
        [|discriminate H].
      injection H as <- <-. destruct (IHa _ _ _ Ea) as [Hlt' Hfu'].
      split; [lia|].
      intros [|f'] Hf; [lia|].
      rewrite array_items_S, Hfu, Ew, E93, E44, Hfu' by lia. reflexivity.
  - intros s kvs r H. rewrite object_items_S in H.
    destruct s as [|q r0]; [discriminate H|].
    destruct (q =? 34) eqn:E34; [|discriminate H].
    destruct (scanstring r0) as [[k r1]|] eqn:Ek; [|discriminate H].
    pose proof (scanstring_length _ _ _ Ek) as Hk.
    pose proof (skip_ws_length r1) as Hw1.
    destruct (skip_ws r1) as [|c r2] eqn:Ew1; [discriminate H|].
    destruct (c =? 58) eqn:E58; [|discriminate H].
    pose proof (skip_ws_length r2) as Hw2.
    destruct (scan_once f (skip_ws r2)) as [[v r3]|] eqn:Es; [|discriminate H].
    destruct (IHs _ _ _ Es) as [Hlt Hfu].
    pose proof (skip_ws_length r3) as Hw3.
    destruct (skip_ws r3) as [|c2 r4] eqn:Ew3; [discriminate H|].
    cbn [List.length] in *.
    destruct (c2 =? 125) eqn:E125.
    + injection H as <- <-. split; [lia|].
      intros [|f'] Hf; [lia|].
      rewrite object_items_S, E34, Ek, Ew1, E58, Hfu, Ew3, E125 by lia.
      reflexivity.
    + destruct (c2 =? 44) eqn:E44; [|discriminate H].
      pose proof (skip_ws_length r4) as Hw4.
      destruct (object_items f (skip_ws r4)) as [[kvs' r']|] eqn:Eo;
        [|discriminate H].
      injection H as <- <-. destruct (IHo _ _ _ Eo) as [Hlt' Hfu'].
      split; [lia|].
      intros [|f'] Hf; [lia|].
      rewrite object_items_S, E34, Ek, Ew1, E58, Hfu, Ew3, E125, E44, Hfu'
        by lia.
      reflexivity.
Qed.

(** [decode_document] gives each text one unit of fuel per character; that
    is as good as any amount. *)
Lemma decode_document_any_fuel (s : str) (v : json) :
  decode_document s = Some v
  <-> exists (fuel : nat) (r : str),
        scan_once fuel (skip_ws s) = Some (v, r) /\ skip_ws r = [].
Proof.
  unfold decode_document. split.
  - destruct (scan_once (List.length s) (skip_ws s)) as [[v' r]|] eqn:E;
      [|discriminate].
    destruct (skip_ws r) eqn:Er; [|discriminate].
    intros H. injection H as <-. exists (List.length s), r. split; assumption.
  - intros (fuel & r & H & Hr).
    destruct (proj1 (fuel_adequate fuel) _ _ _ H) as [Hlt Hfu].
    pose proof (skip_ws_length s) as Hw.
    rewrite (Hfu (List.length s)) by lia. rewrite Hr. reflexivity.
Qed.

(** *** The round trip *)

(** C7.  For every well-formed message [m] (integers and finite floats,
    text of Unicode scalar values, distinct keys; ids may be integers or
    strings and values may nest to any depth), the request path encodes
    [m] to bytes that hold one line, ended by the only newline in them,
    and the response path decodes these bytes to [m] again. *)
Theorem codec_round_trip :
  forall m : json,
    well_formed m = true ->
    exists data : bytes,
      encode_message m = Ok data
      /\ decode_message data = Ok m
      /\ last data x00 = x0a
      /\ ~ In x0a (removelast data).
Proof.
  intros m Hwf.
  pose proof (dumps_printable m Hwf) as Hp.
  assert (Hascii : Forall (fun c => c < 128) (dumps m ++ [10])).
  { apply Forall_app. split; [apply printable_ascii, Hp|].
    constructor; [reflexivity|constructor]. }
  destruct (decode_encode_ascii _ Hascii) as [Henc Hdec].
  exists (List.map byte_of (dumps m ++ [10])).
  split; [unfold encode_message; rewrite Henc; reflexivity|].
  split.
  { unfold decode_message. rewrite Hdec, (strip_line m Hwf).
    rewrite (loads_dumps m Hwf). reflexivity. }
  rewrite map_app. cbn [List.map].
  change (byte_of 10) with x0a.
  split; [apply last_last|].
  rewrite removelast_last. intros Hin.
  apply in_map_iff in Hin. destruct Hin as (c & Hc & Hin).
  rewrite forallb_forall in Hp. specialize (Hp c Hin).
  apply printable_range in Hp.
  assert (E : Byte.to_N (byte_of c) = c) by (apply to_N_byte_of; lia).
  rewrite Hc in E. cbn in E. lia.
Qed.

Lemma codec_round_trip_witness :
  well_formed sample_message = true
  /\ exists data : bytes,
       encode_message sample_message = Ok data
       /\ decode_message data = Ok sample_message
       /\ last data x00 = x0a
       /\ ~ In x0a (removelast data).
Proof.
  split; [reflexivity|].
  exact (codec_round_trip sample_message eq_refl).
Defined.

(** Outside the well-formed values the round trip can fail: two surrogate
    code points written next to each other come back as one character, and
    of two entries with the same key the last one is kept. *)
Lemma round_trip_needs_well_formed :
  loads (dumps (JStr [0xD83D; 0xDE00])) = Some (JStr [0x1F600])
  /\ loads (dumps (JDict [(lit "a", JInt 1); (lit "a", JInt 2)]))
     = Some (JDict [(lit "a", JInt 2)]).
Proof. split; vm_compute; reflexivity. Qed.

(** Floats on the wire.  The text [1e2] is read as the float one hundred,
    which is written [100.0]; a tenth is written [0.1], ten to the
    sixteenth [1e+16] and a hundred-thousandth [1e-05]; what is too small
    is read as zero and what is too large as infinity. *)
Lemma floats_on_the_wire :
  loads (lit "1e2") = Some (JFloat (FFinite false 7036874417766400 (-46)))
  /\ dumps (JFloat (FFinite false 7036874417766400 (-46))) = lit "100.0"
  /\ dumps (JFloat (FFinite false 7205759403792794 (-56))) = lit "0.1"
  /\ dumps (JFloat (FFinite false 5000000000000000 1)) = lit "1e+16"
  /\ dumps (JFloat (FFinite false 5902958103587057 (-69))) = lit "1e-05"
  /\ loads (lit "1e-400") = Some (JFloat (FZero false))
  /\ loads (lit "1e400") = Some (JFloat (FInf false)).
Proof. repeat split; vm_compute; reflexivity. Qed.

End Codec.

(* ================================================================== *)
(** ** The application as a whole *)
(* ================================================================== *)

Import App.

(* ------------------------------------------------------------------ *)
(** *** The configuration *)
(* ------------------------------------------------------------------ *)

Lemma dict_get_head (k : str) (v : json) (d : dict) :
  dict_get ((k, v) :: d) k = Some v.
Proof. cbn [dict_get]. rewrite str_eqb_refl. reflexivity. Qed.

(** A file that cannot be read, or whose text is not JSON, gives the empty
    configuration: [connect] then raises [Exception("No MCP server
    configuration found")] without spawning anything and leaves the client
    as it was, and [/health] reports [config_loaded] false. *)
Theorem unloadable_config :
  forall (file : option str) (spawn : list json -> result Process)
         (c : MCPClient),
    match file with Some text => loads text = None | None => True end ->
    config (module_env file spawn) = JDict []
    /\ connect (module_env file spawn) c
       = (Raise (Exception "No MCP server configuration found"), c)
    /\ dict_get (health_check (module_env file spawn) c) (lit "config_loaded")
       = Some (JBool false).
Proof.
  intros file spawn c H.
  assert (E : load_config file = JDict []).
  { destruct file as [text|]; [cbn [load_config]; rewrite H|]; reflexivity. }
  unfold module_env. cbn [config]. rewrite E.
  split; [reflexivity|]. split; [|reflexivity].
  apply connect_without_child. left. reflexivity.
Qed.

Lemma unloadable_config_witness :
  connect (module_env (Some (lit "{mcpServers: ")) (fun _ => Ok (child [])))
          new_client
  = (Raise (Exception "No MCP server configuration found"), new_client).
Proof.
  refine (proj1 (proj2 (unloadable_config (Some (lit "{mcpServers: "))
                          (fun _ => Ok (child [])) new_client _))).
  vm_compute. reflexivity.
Defined.

(** A configuration object without [mcpServers], or with one that is
    empty (or any other false value): [connect] raises [Exception("No MCP
    server configuration found")] and the client is as before. *)
Theorem connect_without_servers :
  forall (env : Env) (c : MCPClient) (kvs : dict),
    config env = JDict kvs ->
    match dict_get kvs (lit "mcpServers") with
    | Some servers => truthy servers = false
    | None => True
    end ->
    connect env c
    = (Raise (Exception "No MCP server configuration found"), c).
Proof.
  intros env c kvs Hcfg H. apply connect_without_child. left.
  rewrite Hcfg. unfold resolve_command, py_get.
  destruct (dict_get kvs (lit "mcpServers")) as [servers|];
    [rewrite H|]; reflexivity.
Qed.

Lemma connect_without_servers_witness :
  connect (mkEnv (JDict [(lit "mcpServers", JDict [])])
                 (fun _ => Ok (child []))) new_client
  = (Raise (Exception "No MCP server configuration found"), new_client).
Proof.
  refine (connect_without_servers
            (mkEnv (JDict [(lit "mcpServers", JDict [])])
                   (fun _ => Ok (child []))) new_client
            [(lit "mcpServers", JDict [])] eq_refl _).
  vm_compute. reflexivity.
Defined.

(** Of several configured servers only the first is used: its truthy
    [command] followed by its [args] is the command line.  A missing
    [args] counts as the empty list, and an [args] that is not a list is a
    [TypeError]. *)
Theorem first_server_command :
  forall (kvs : dict) (server_name : str) (info others : dict)
         (command : json),
    dict_get kvs (lit "mcpServers")
    = Some (JDict ((server_name, JDict info) :: others)) ->
    dict_get info (lit "command") = Some command ->
    truthy command = true ->
    resolve_command (JDict kvs)
    = match dict_get info (lit "args") with
      | None => Ok [command]
      | Some (JList args) => Ok (command :: args)
      | Some _ => Raise TypeError
      end.
Proof.
  intros kvs server_name info others command Hs Hc Ht.
  unfold resolve_command, py_get. rewrite Hs. cbn [truthy negb].
  rewrite dict_get_head, Hc, Ht. cbn [negb].
  destruct (dict_get info (lit "args")) as [[]|]; reflexivity.
Qed.

Lemma first_server_command_witness :
  resolve_command
    (JDict [(lit "mcpServers",
             JDict [(lit "a", JDict [(lit "command", JStr (lit "srv"));
                                     (lit "args", JList [JStr (lit "-v")])]);
                    (lit "b", JDict [(lit "command", JStr (lit "other"))])])])
  = Ok [JStr (lit "srv"); JStr (lit "-v")].
Proof.
  refine (first_server_command
            [(lit "mcpServers",
              JDict [(lit "a", JDict [(lit "command", JStr (lit "srv"));
                                      (lit "args", JList [JStr (lit "-v")])]);
                     (lit "b", JDict [(lit "command", JStr (lit "other"))])])]
            (lit "a")
            [(lit "command", JStr (lit "srv"));
             (lit "args", JList [JStr (lit "-v")])]
            [(lit "b", JDict [(lit "command", JStr (lit "other"))])]
            (JStr (lit "srv")) eq_refl eq_refl eq_refl).
Defined.

(** The first server has no [command], or an empty one: [connect] raises
    [Exception("No command specified in MCP config")], nothing is spawned
    and the client is as before, whatever the other servers say. *)
Theorem connect_without_command :
  forall (env : Env) (c : MCPClient) (kvs : dict) (server_name : str)
         (info others : dict),
    config env = JDict kvs ->
    dict_get kvs (lit "mcpServers")
    = Some (JDict ((server_name, JDict info) :: others)) ->
    match dict_get info (lit "command") with
    | Some command => truthy command = false
    | None => True
    end ->
    connect env c
    = (Raise (Exception "No command specified in MCP config"), c).
Proof.
  intros env c kvs server_name info others Hcfg Hs Hc.
  apply connect_without_child. left. rewrite Hcfg.
  unfold resolve_command, py_get. rewrite Hs. cbn [truthy negb].
  rewrite dict_get_head.
  destruct (dict_get info (lit "command")) as [command|].
  - rewrite Hc. reflexivity.
  - reflexivity.
Qed.

Lemma connect_without_command_witness :
  connect
    (mkEnv (JDict [(lit "mcpServers",
                    JDict [(lit "a", JDict [(lit "args", JList [])]);
                           (lit "b", JDict [(lit "command",
                                             JStr (lit "other"))])])])
           (fun _ => Ok (child []))) new_client
  = (Raise (Exception "No command specified in MCP config"), new_client).
Proof.
  refine (connect_without_command
            (mkEnv (JDict [(lit "mcpServers",
                            JDict [(lit "a", JDict [(lit "args", JList [])]);
                                   (lit "b", JDict [(lit "command",
                                                     JStr (lit "other"))])])])
                   (fun _ => Ok (child []))) new_client
            _ (lit "a") [(lit "args", JList [])]
            [(lit "b", JDict [(lit "command", JStr (lit "other"))])]
            eq_refl eq_refl _).
  vm_compute. exact I.
Defined.

(* ------------------------------------------------------------------ *)
(** *** What a handler answers *)
(* ------------------------------------------------------------------ *)

(** A handler is [send_request] followed by [answer]. *)
Lemma forward_answer (request : json) (c : MCPClient) :
  forward request c
  = (Ok (answer (fst (send_request request c))),
     snd (send_request request c)).
Proof.
  unfold forward, answer, try_except, bind, lift, ret, raise.
  destruct (send_request request c) as [[response|e] c1]; [|reflexivity].
  cbn [fst snd].
  destruct (py_in "error" response) as [[|]|e]; try reflexivity.
  - destruct (py_getitem response "error"); reflexivity.
  - destruct (py_get response "result" (JDict [])); reflexivity.
Qed.

Lemma run_endpoint_answer (ep : endpoint) (c : MCPClient) :
  run_endpoint ep c
  = (Ok (answer (fst (send_request (endpoint_request ep) c))),
     snd (send_request (endpoint_request ep) c)).
Proof. rewrite run_endpoint_forward. apply forward_answer. Qed.

Lemma answer_success (outcome : result json) :
  success (answer outcome) = true
  <-> exists kvs, outcome = Ok (JDict kvs)
                  /\ dict_get kvs (lit "error") = None.
Proof.
  split.
  - destruct outcome as [response|e]; [|discriminate].
    destruct response as [|b|z|l|s|xs|kvs]; cbn [answer py_in];
      try discriminate.
    + destruct (str_contains _ _); discriminate.
    + destruct (existsb _ _); discriminate.
    + unfold dict_has, py_getitem.
      destruct (dict_get kvs (lit "error")) eqn:E; [discriminate|].
      intros _. exists kvs. split; [reflexivity|exact E].
  - intros (kvs & -> & E). cbn [answer py_in]. unfold dict_has.
    rewrite E. reflexivity.
Qed.

(** A handler answers [success=True] exactly when its [send_request]
    returned an object without an [error] member; the [result] it then
    carries is the [result] member of that object, or [{}] when there is
    none.  A response that is valid JSON but no object (a list, a string,
    a number, [null]) never counts as a success. *)
Theorem success_iff_object_without_error :
  forall (request : json) (c : MCPClient),
    exists r : MCPResponse,
      fst (forward request c) = Ok r
      /\ (success r = true
          <-> exists kvs, fst (send_request request c) = Ok (JDict kvs)
                          /\ dict_get kvs (lit "error") = None)
      /\ (forall kvs,
             fst (send_request request c) = Ok (JDict kvs) ->
             dict_get kvs (lit "error") = None ->
             r = mkResponse true
                   (Some (match dict_get kvs (lit "result") with
                          | Some v => v
                          | None => JDict []
                          end)) None).
Proof.
  intros request c. rewrite forward_answer. cbn [fst].
  exists (answer (fst (send_request request c))).
  split; [reflexivity|]. split; [apply answer_success|].
  intros kvs -> E. cbn [answer py_in py_get]. unfold dict_has.
  rewrite E. reflexivity.
Qed.

(* ------------------------------------------------------------------ *)
(** *** The connected flag and the child across calls *)
(* ------------------------------------------------------------------ *)

Lemma stdin_drain_terminated (p : Process) :
  terminated (snd (stdin_drain p)) = terminated p.
Proof. unfold stdin_drain. destruct (drains p); reflexivity. Qed.

Lemma stdout_readline_terminated (p : Process) :
  terminated (snd (stdout_readline p)) = terminated p.
Proof. unfold stdout_readline. destruct (reads p); reflexivity. Qed.

Lemma send_request_terminated (request : json) (c : MCPClient) (p : Process) :
  process c = Some p ->
  exists p', process (snd (send_request request c)) = Some p'
             /\ terminated p' = terminated p.
Proof.
  intros Hp. rewrite (send_request_steps request c p Hp).
  destruct (encode_message request) as [data|e]; [|exists p; auto].
  cbv zeta. set (p1 := mkProcess _ _ _ _ _).
  pose proof (stdin_drain_terminated p1) as Hd.
  destruct (stdin_drain p1) as [[[]|e] p2]; cbn [snd] in Hd;
    [|exists p2; auto].
  pose proof (stdout_readline_terminated p2) as Hr.
  destruct (stdout_readline p2) as [[l|e] p3]; cbn [snd] in Hr;
    exists p3; (split; [reflexivity|]); rewrite Hr, Hd; reflexivity.
Qed.

Lemma send_request_no_process (request : json) (c : MCPClient) :
  process c = None ->
  send_request request c = (Raise (Exception "MCP server not connected"), c).
Proof. intros Hp. unfold send_request. rewrite Hp. reflexivity. Qed.


Lemma serve_cons (ep : endpoint) (eps : list endpoint) (c : MCPClient) :
  serve (ep :: eps) c
  = (fst (run_endpoint ep c) :: fst (serve eps (snd (run_endpoint ep c))),
     snd (serve eps (snd (run_endpoint ep c)))).
Proof.
  cbn [serve]. destruct (run_endpoint ep c) as [r c1]. cbn [fst snd].
  destruct (serve eps c1); reflexivity.
Qed.

Lemma run_session_state (eps : list endpoint) (c : MCPClient) :
  connected (run_session eps c) = connected c
  /\ match process c with
     | None => run_session eps c = c
     | Some p =>
         exists p', process (run_session eps c) = Some p'
                    /\ terminated p' = terminated p
     end.
Proof.
  revert c. induction eps as [|ep eps IH]; intros c.
  - split; [reflexivity|].
    destruct (process c) as [p|] eqn:E; [exists p|]; auto.
  - cbn [run_session]. rewrite run_endpoint_forward, forward_client.
    destruct (IH (snd (send_request (endpoint_request ep) c))) as [Hc Hp].
    split; [rewrite Hc; apply send_request_connected|].
    destruct (process c) as [p|] eqn:E.
    + destruct (send_request_terminated (endpoint_request ep) c p E)
        as (p1 & Hp1 & Ht1).
      rewrite Hp1 in Hp. destruct Hp as (p' & Hp' & Ht').
      exists p'. split; [exact Hp'|]. rewrite Ht'. exact Ht1.
    + rewrite (send_request_no_process _ c E) in *. cbn [snd] in *.
      rewrite E in Hp. exact Hp.
Qed.

(** No sequence of handler calls changes the connected flag, gives a
    client without child a child, takes the child away or terminates it:
    the handlers neither reconnect nor disconnect. *)
Theorem session_never_reconnects :
  forall (eps : list endpoint) (c : MCPClient),
    connected (run_session eps c) = connected c
    /\ match process c with
       | None => run_session eps c = c
       | Some p =>
           exists p', process (run_session eps c) = Some p'
                      /\ terminated p' = terminated p
       end.
Proof. exact run_session_state. Qed.

Lemma send_request_flag (request : json) (o : option Process) (b b' : bool) :
  fst (send_request request (mkClient o b))
  = fst (send_request request (mkClient o b'))
  /\ process (snd (send_request request (mkClient o b)))
     = process (snd (send_request request (mkClient o b'))).
Proof.
  destruct o as [p|]; [|split; reflexivity].
  rewrite (send_request_steps request (mkClient (Some p) b) p eq_refl).
  rewrite (send_request_steps request (mkClient (Some p) b') p eq_refl).
  destruct (encode_message request) as [data|e]; [|split; reflexivity].
  cbv zeta. destruct (stdin_drain _) as [[[]|e] p2]; [|split; reflexivity].
  destruct (stdout_readline p2) as [[l|e] p3]; split; reflexivity.
Qed.

(** What a handler answers and what it does to the child depend on
    [self.process] only, never on [self.connected]: a client whose
    handshake failed, or one that has been disconnected, is served like a
    connected one. *)
Theorem handlers_ignore_connected_flag :
  forall (ep : endpoint) (o : option Process) (b b' : bool),
    fst (run_endpoint ep (mkClient o b)) = fst (run_endpoint ep (mkClient o b'))
    /\ process (snd (run_endpoint ep (mkClient o b)))
       = process (snd (run_endpoint ep (mkClient o b'))).
Proof.
  intros ep o b b'. rewrite !run_endpoint_answer. cbn [fst snd].
  destruct (send_request_flag (endpoint_request ep) o b b') as [-> ->].
  split; reflexivity.
Qed.

(* ------------------------------------------------------------------ *)
(** *** Startup *)
(* ------------------------------------------------------------------ *)

Lemma startup_event_steps (env : Env) (c : MCPClient) :
  startup_event env c = (Ok tt, snd (connect env c)).
Proof.
  unfold startup_event, try_except, ret.
  destruct (connect env c) as [[[]|e] c']; reflexivity.
Qed.

Lemma serve_without_process (eps : list endpoint) (c : MCPClient) :
  process c = None ->
  serve eps c
  = (List.map (fun _ => Ok (mkResponse false None
                              (Some (Exception "MCP server not connected"))))
              eps, c).
Proof.
  intros Hp. induction eps as [|ep eps IH]; [reflexivity|].
  rewrite serve_cons, run_endpoint_answer.
  rewrite (send_request_no_process _ c Hp). cbn [fst snd].
  rewrite IH. reflexivity.
Qed.

(** When the configuration gives no command line, or the child cannot be
    spawned, [startup_event] still returns: the application starts with
    the fresh client, every later handler call answers [success=False]
    with "MCP server not connected", and nothing is ever retried. *)
Theorem failed_startup_serves_not_connected :
  forall (env : Env) (e : exn) (eps : list endpoint),
    resolve_command (config env) = Raise e
    \/ (exists full_command,
           resolve_command (config env) = Ok full_command
           /\ spawn env full_command = Raise e) ->
    startup_event env new_client = (Ok tt, new_client)
    /\ lifetime env eps
       = (List.map
            (fun _ => Ok (mkResponse false None
                            (Some (Exception "MCP server not connected"))))
            eps, new_client).
Proof.
  intros env e eps H.
  assert (E : startup_event env new_client = (Ok tt, new_client)).
  { rewrite startup_event_steps, (connect_without_child env new_client e H).
    reflexivity. }
  split; [exact E|]. unfold lifetime. rewrite E. cbn [snd].
  rewrite (serve_without_process eps new_client eq_refl). reflexivity.
Qed.

Lemma failed_startup_serves_not_connected_witness :
  lifetime (mkEnv echo_config (fun _ => Raise OSError))
           [ListTools; CallTool echo_tool_call]
  = ([Ok (mkResponse false None
            (Some (Exception "MCP server not connected")));
      Ok (mkResponse false None
            (Some (Exception "MCP server not connected")))], new_client).
Proof.
  refine (proj2 (failed_startup_serves_not_connected
                   (mkEnv echo_config (fun _ => Raise OSError)) OSError
                   [ListTools; CallTool echo_tool_call] _)).
  right. exists [JStr (lit "echo-server")]. split; reflexivity.
Defined.

Lemma connect_flag (env : Env) (c : MCPClient) :
  connected (snd (connect env c))
  = match fst (connect env c) with
    | Ok _ => true
    | Raise _ => connected c
    end.
Proof.
  destruct (resolve_command (config env)) as [cmd|e] eqn:Hres.
  - destruct (spawn env cmd) as [p|e] eqn:Hsp.
    + rewrite (connect_steps env c cmd p Hres Hsp).
      pose proof (send_request_connected init_request
                    (mkClient (Some p) (connected c))) as H.
      destruct (send_request init_request _) as [[r|e] c']; cbn [fst snd] in *;
        [reflexivity|exact H].
    + rewrite (connect_without_child env c e); [reflexivity|].
      right. exists cmd. auto.
  - rewrite (connect_without_child env c e); [reflexivity|]. left; exact Hres.
Qed.

(** What [/] and [/health] report as connected, after any sequence of
    handler calls, is whether the one [connect] of the startup returned:
    no later success or failure of a call changes it. *)
Theorem reported_connection_is_startup_outcome :
  forall (env : Env) (eps : list endpoint),
    let c := run_session eps (snd (startup_event env new_client)) in
    let b := match fst (connect env new_client) with
             | Ok _ => true
             | Raise _ => false
             end in
    dict_get (root c) (lit "connected") = Some (JBool b)
    /\ dict_get (health_check env c) (lit "mcp_connected") = Some (JBool b).
Proof.
  intros env eps c b.
  assert (E : connected c = b).
  { unfold c. rewrite (proj1 (run_session_state eps _)).
    rewrite startup_event_steps. cbn [snd]. rewrite connect_flag. reflexivity. }
  unfold root, health_check. rewrite E. split; reflexivity.
Qed.

(* ------------------------------------------------------------------ *)
(** *** What the child is sent, and which line answers which call *)
(* ------------------------------------------------------------------ *)

Lemma run_session_written (eps : list endpoint) :
  forall (c : MCPClient) (p : Process),
    process c = Some p ->
    exists p', process (run_session eps c) = Some p'
               /\ stdin_data p' = stdin_data p ++ chunks eps.
Proof.
  induction eps as [|ep eps IH]; intros c p Hp.
  - exists p. split; [exact Hp|]. cbn [chunks flat_map].
    rewrite List.app_nil_r. reflexivity.
  - cbn [run_session]. rewrite run_endpoint_forward, forward_client.
    unfold chunks. cbn [flat_map]. fold (chunks eps).
    destruct (encode_message (endpoint_request ep)) as [data|e] eqn:Henc.
    + destruct (send_request_writes _ c p data Hp Henc) as (p1 & H1 & H2).
      destruct (IH _ p1 H1) as (p' & Hp' & Hd). exists p'.
      split; [exact Hp'|]. rewrite Hd, H2, <- List.app_assoc. reflexivity.
    + rewrite (send_request_steps _ c p Hp), Henc. cbn [snd app].
      apply IH, Hp.
Qed.

(** Whatever the child does (a failing write or read, the end of its
    output, lines that are no JSON), a sequence of handler calls sends it
    the line of each request once, in the order of the calls, and nothing
    else: no call is skipped after a failure and none is repeated. *)
Theorem session_writes_in_order :
  forall (eps : list endpoint) (c : MCPClient),
    written (run_session eps c)
    = match process c with
      | Some p => stdin_data p ++ chunks eps
      | None => []
      end.
Proof.
  intros eps c. unfold written at 1.
  destruct (process c) as [p|] eqn:Hp.
  - destruct (run_session_written eps c p Hp) as (p' & -> & H). exact H.
  - pose proof (proj2 (run_session_state eps c)) as H. rewrite Hp in H.
    rewrite H, Hp. reflexivity.
Qed.

(** One call on a child whose writes succeed and that has printed
    [lines]: the call gets the first of them, or [b''] at the end. *)
Lemma send_request_line (request : json) (c : MCPClient) (p : Process)
      (lines : list bytes) :
  process c = Some p ->
  Forall (fun d => d = Ok tt) (drains p) ->
  reads p = List.map Ok lines ->
  encodes request = true ->
  exists p',
    send_request request c
    = (decode_message (hd [] lines), mkClient (Some p') (connected c))
    /\ Forall (fun d => d = Ok tt) (drains p')
    /\ reads p' = List.map Ok (tl lines).
Proof.
  intros Hp Hd Hr Henc. rewrite (send_request_steps request c p Hp).
  unfold encodes in Henc.
  destruct (encode_message request) as [data|e]; [|discriminate].
  cbv zeta. unfold stdin_drain, stdout_readline. cbn [drains reads].
  destruct (drains p) as [|d ds] eqn:Ed.
  - cbn [reads]. rewrite Hr.
    destruct lines as [|l ls]; cbn [List.map hd tl];
      (eexists; split; [reflexivity|]); cbn [drains reads];
      (split; [constructor|reflexivity]).
  - inversion Hd as [|d' ds' Hd1 Hd2]; subst d' ds' d.
    cbn [reads]. rewrite Hr.
    destruct lines as [|l ls]; cbn [List.map hd tl];
      (eexists; split; [reflexivity|]); cbn [drains reads];
      (split; [exact Hd2|reflexivity]).
Qed.

Lemma serve_by_position (eps : list endpoint) :
  forall (c : MCPClient) (p : Process) (lines : list bytes) (k : nat),
    process c = Some p ->
    Forall (fun d => d = Ok tt) (drains p) ->
    reads p = List.map Ok lines ->
    forallb (fun ep => encodes (endpoint_request ep)) eps = true ->
    k < List.length eps ->
    nth_error (fst (serve eps c)) k
    = Some (Ok (answer (decode_message (nth k lines [])))).
Proof.
  induction eps as [|ep eps IH]; intros c p lines k Hp Hd Hr Henc Hk;
    [inversion Hk|].
  cbn [forallb] in Henc. apply andb_true_iff in Henc.
  destruct Henc as [He Henc].
  destruct (send_request_line _ c p lines Hp Hd Hr He) as (p' & Hs & Hd' & Hr').
  rewrite serve_cons, run_endpoint_answer, Hs. cbn [fst snd].
  destruct k as [|k].
  - cbn [nth_error]. destruct lines; reflexivity.
  - cbn [nth_error].
    rewrite (IH (mkClient (Some p') (connected c)) p' (tl lines) k
               eq_refl Hd' Hr' Henc)
      by (cbn [List.length] in Hk; lia).
    destruct lines as [|l ls]; [destruct k|]; reflexivity.
Qed.

(** Responses are paired with requests by position only.  On a child
    whose writes succeed, the k-th handler call of a session is answered
    from the k-th line the child prints (from [b''] once its output has
    ended), whichever requests were sent: a line too many or too few
    shifts the answers of all later calls. *)
Theorem answers_follow_the_lines :
  forall (eps : list endpoint) (c : MCPClient) (p : Process)
         (lines : list bytes) (k : nat),
    process c = Some p ->
    Forall (fun d => d = Ok tt) (drains p) ->
    reads p = List.map Ok lines ->
    forallb (fun ep => encodes (endpoint_request ep)) eps = true ->
    k < List.length eps ->
    nth_error (fst (serve eps c)) k
    = Some (Ok (answer (decode_message (nth k lines [])))).
Proof. exact serve_by_position. Qed.

Lemma answers_follow_the_lines_witness :
  nth_error (fst (serve [ListTools; CallTool echo_tool_call]
                        (ready [ok_3; tools_2]))) 1
  = Some (Ok (answer (decode_message tools_2))).
Proof.
  refine (answers_follow_the_lines [ListTools; CallTool echo_tool_call]
            (ready [ok_3; tools_2]) (child [ok_3; tools_2])
            [ok_3; tools_2] 1 eq_refl _ eq_refl _ _).
  - constructor.
  - vm_compute. reflexivity.
  - cbn [List.length]. lia.
Defined.

(** [b''], the end of the stream, is no JSON text. *)
Lemma decode_message_empty : decode_message [] = Raise JSONDecodeError.
Proof. vm_compute. reflexivity. Qed.

(** What [send_request] returns is what the next line of the child
    decodes to, and that line is consumed: a response never comes from
    anywhere else, and a returned call has read one line. *)
Theorem response_comes_from_next_line :
  forall (request : json) (c : MCPClient) (response : json),
    fst (send_request request c) = Ok response ->
    exists (p p' : Process) (line : bytes) (rest : list (result bytes)),
      process c = Some p
      /\ reads p = Ok line :: rest
      /\ decode_message line = Ok response
      /\ process (snd (send_request request c)) = Some p'
      /\ reads p' = rest.
Proof.
  intros request c response H.
  destruct (process c) as [p|] eqn:Hp;
    [|rewrite (send_request_no_process request c Hp) in H; discriminate].
  rewrite (send_request_steps request c p Hp) in *.
  destruct (encode_message request) as [data|e]; [|discriminate].
  cbv zeta in *. unfold stdin_drain, stdout_readline in *.
  cbn [drains reads] in *.
  destruct (drains p) as [|[[]|e] ds]; cbn [reads fst snd] in *;
    try discriminate H;
    (destruct (reads p) as [|[line|e] rest] eqn:Er; cbn [fst snd] in *;
     [rewrite decode_message_empty in H; discriminate H
     | | discriminate H]);
    (exists p; eexists; exists line, rest);
    (split; [reflexivity|]); (split; [exact Er|]); (split; [exact H|]);
    split; reflexivity.
Qed.

Lemma response_comes_from_next_line_witness :
  exists (p p' : Process) (line : bytes) (rest : list (result bytes)),
    process (ready [ok_99; ok_3]) = Some p
    /\ reads p = Ok line :: rest
    /\ decode_message line = Ok response_99
    /\ process (snd (send_request request_5 (ready [ok_99; ok_3]))) = Some p'
    /\ reads p' = rest.
Proof.
  refine (response_comes_from_next_line request_5 (ready [ok_99; ok_3])
            response_99 _).
  vm_compute. reflexivity.
Defined.

(** [connect] returns only when the child was spawned and its first line
    decoded as JSON: then the client is connected, the child has been sent
    the handshake and nothing else, and that one line is consumed. *)
Theorem connected_only_after_answer :
  forall (env : Env) (c c' : MCPClient),
    connect env c = (Ok tt, c') ->
    exists (full_command : list json) (p p' : Process) (line : bytes)
           (rest : list (result bytes)) (response : json),
      resolve_command (config env) = Ok full_command
      /\ spawn env full_command = Ok p
      /\ reads p = Ok line :: rest
      /\ decode_message line = Ok response
      /\ c' = mkClient (Some p') true
      /\ reads p' = rest
      /\ stdin_data p' = stdin_data p ++ [handshake_line].
Proof.
  intros env c c' H.
  destruct (resolve_command (config env)) as [cmd|e] eqn:Hres;
    [|rewrite (connect_without_child env c e) in H by (left; exact Hres);
      discriminate].
  destruct (spawn env cmd) as [p|e] eqn:Hsp;
    [|rewrite (connect_without_child env c e) in H
        by (right; exists cmd; auto); discriminate].
  rewrite (connect_steps env c cmd p Hres Hsp) in H.
  rewrite (send_request_steps init_request
             (mkClient (Some p) (connected c)) p eq_refl) in H.
  rewrite encode_init_request in H. cbv zeta in H.
  unfold stdin_drain, stdout_readline in H. cbn [drains reads] in H.
  exists cmd, p.
  destruct (drains p) as [|[[]|e] ds]; cbn [reads process connected] in H;
    try discriminate H;
    (destruct (reads p) as [|[line|e] rest] eqn:Er;
     [rewrite decode_message_empty in H; discriminate H
     | | discriminate H]);
    (destruct (decode_message line) as [response|e] eqn:Hdec;
     [|discriminate H]);
    injection H as <-; cbn [process];
    (eexists; exists line, rest, response);
    repeat (split; [first [reflexivity | assumption]|]); reflexivity.
Qed.

Lemma connected_only_after_answer_witness :
  exists (full_command : list json) (p p' : Process) (line : bytes)
         (rest : list (result bytes)) (response : json),
    resolve_command (config (echo_env [ok_1; tools_2])) = Ok full_command
    /\ spawn (echo_env [ok_1; tools_2]) full_command = Ok p
    /\ reads p = Ok line :: rest
    /\ decode_message line = Ok response
    /\ snd (connect (echo_env [ok_1; tools_2]) new_client)
       = mkClient (Some p') true
    /\ reads p' = rest
    /\ stdin_data p' = stdin_data p ++ [handshake_line].
Proof.
  refine (connected_only_after_answer (echo_env [ok_1; tools_2]) new_client
            (snd (connect (echo_env [ok_1; tools_2]) new_client)) _).
  vm_compute. reflexivity.
Defined.

(* ------------------------------------------------------------------ *)
(** *** Shutdown *)
(* ------------------------------------------------------------------ *)

(** [disconnect] on a client whose child the transport still has. *)
Lemma disconnect_steps (c : MCPClient) (p : Process) :
  process c = Some p ->
  status p <> Finished ->
  disconnect c
  = (Ok tt,
     mkClient (Some (mkProcess (stdin_data p) (drains p) (reads p) true
                               (match status p with
                                | Running => Finished
                                | other => other
                                end)))
              false).
Proof.
  intros Hp Hs. unfold disconnect, bind, on_process, set_connected.
  rewrite Hp. unfold terminate, wait. cbn [process connected].
  destruct (status p) eqn:E; [| |congruence];
    cbn [status process connected]; rewrite ?E; reflexivity.
Qed.

(** [disconnect] on a client whose child has exited and been dropped. *)
Lemma disconnect_finished (c : MCPClient) (p : Process) :
  process c = Some p ->
  status p = Finished ->
  disconnect c = (Raise ProcessLookupError, c).
Proof.
  intros Hp Hs. destruct c as [o b]. cbn [process] in Hp. subst o.
  unfold disconnect, bind, on_process, terminate. cbn [process connected].
  rewrite Hs. reflexivity.
Qed.

(** [disconnect] does not reset [self.process].  After the disconnect of
    a client whose child was running, a later [send_request] is not
    refused as not connected but writes its request to the terminated
    child (the connected flag stays false), and a second [disconnect]
    raises [ProcessLookupError], the child being gone. *)
Theorem requests_after_disconnect :
  forall (request : json) (c : MCPClient) (p : Process) (data : bytes),
    process c = Some p ->
    status p = Running ->
    encode_message request = Ok data ->
    (exists p',
        process (snd (send_request request (snd (disconnect c)))) = Some p'
        /\ terminated p' = true
        /\ stdin_data p' = stdin_data p ++ [data])
    /\ connected (snd (send_request request (snd (disconnect c)))) = false
    /\ disconnect (snd (disconnect c))
       = (Raise ProcessLookupError, snd (disconnect c)).
Proof.
  intros request c p data Hp Hs Henc.
  rewrite (disconnect_steps c p Hp) by (rewrite Hs; discriminate).
  rewrite Hs. cbn [snd]. set (c1 := mkClient _ false).
  split; [|split].
  - destruct (send_request_writes request c1 _ data eq_refl Henc)
      as (p' & H1 & H2).
    destruct (send_request_terminated request c1 _ eq_refl)
      as (p2 & H3 & H4).
    rewrite H1 in H3. injection H3 as <-.
    exists p'. split; [exact H1|]. split; [exact H4|exact H2].
  - rewrite send_request_connected. reflexivity.
  - apply (disconnect_finished c1 _ eq_refl). reflexivity.
Qed.

Lemma requests_after_disconnect_witness :
  exists p',
    process (snd (send_request request_5 (snd (disconnect (ready [ok_99])))))
    = Some p'
    /\ terminated p' = true
    /\ stdin_data p' = stdin_data (child [ok_99])
                       ++ [List.map byte_of (dumps request_5 ++ [10%N])].
Proof.
  refine (proj1 (requests_after_disconnect request_5 (ready [ok_99])
                   (child [ok_99])
                   (List.map byte_of (dumps request_5 ++ [10%N]))
                   eq_refl eq_refl _)).
  vm_compute. reflexivity.
Defined.







(* ------------------------------------------------------------------ *)
(** *** Lines on the wire *)
(* ------------------------------------------------------------------ *)

Section Wire.

Local Open Scope N_scope.

Lemma lstrip_spaces (ws s : str) :
  forallb isspace ws = true -> lstrip (ws ++ s) = lstrip s.
Proof.
  induction ws as [|c ws IH]; cbn [forallb app lstrip]; [reflexivity|].
  intros H. apply andb_true_iff in H. destruct H as [-> H]. exact (IH H).
Qed.


Lemma strip_spaces (text : str) :
  forallb isspace text = true -> strip text = [].
Proof.
  intros H. unfold strip, rstrip.
  rewrite <- (List.app_nil_r text), (lstrip_spaces text [] H). reflexivity.
Qed.

(** A line of white space only (an empty line, a lone newline) is not
    skipped: the call that reads it fails with [JSONDecodeError]. *)
Theorem blank_line_is_decode_error :
  forall (line : bytes) (text : str),
    Text.decode line = Some text ->
    forallb isspace text = true ->
    decode_message line = Raise JSONDecodeError.
Proof.
  intros line text Hd Hs. unfold decode_message.
  rewrite Hd, (strip_spaces text Hs). reflexivity.
Qed.

Lemma blank_line_is_decode_error_witness :
  decode_message [x20; x0d; x0a] = Raise JSONDecodeError.
Proof.
  exact (blank_line_is_decode_error [x20; x0d; x0a] [32; 13; 10]
           eq_refl eq_refl).
Defined.






(** The line of a well-formed message, and what it decodes to. *)
Lemma encode_decode_line (m : json) :
  well_formed m = true ->
  encode_message m = Ok (List.map byte_of (dumps m ++ [10]))
  /\ decode_message (List.map byte_of (dumps m ++ [10])) = Ok m.
Proof.
  intros Hwf.
  assert (Hascii : Forall (fun c => c < 128) (dumps m ++ [10])).
  { apply Forall_app. split; [apply printable_ascii, dumps_printable, Hwf|].
    constructor; [reflexivity|constructor]. }
  destruct (decode_encode_ascii _ Hascii) as [Henc Hdec].
  split; [unfold encode_message; rewrite Henc; reflexivity|].
  unfold decode_message.
  rewrite Hdec, (strip_line m Hwf), (loads_dumps m Hwf). reflexivity.
Qed.

Lemma endpoint_request_well_formed (ep : endpoint) :
  endpoint_well_formed ep = true -> well_formed (endpoint_request ep) = true.
Proof.
  destruct ep as [|tc|r]; cbn [endpoint_well_formed endpoint_request].
  - intros _. vm_compute. reflexivity.
  - intros H. apply andb_true_iff in H. destruct H as [Hn Hp].
    unfold call_tool_request.
    cbn [well_formed forallb List.map fst snd] in *.
    rewrite Hn, Hp. vm_compute. reflexivity.
  - intros H. apply andb_true_iff in H. destruct H as [Hm Hp].
    unfold send_mcp_request_request.
    destruct (params r) as [[|kv kvs]|];
      cbn [well_formed forallb List.map fst snd] in *;
      rewrite Hm; try rewrite Hp; vm_compute; reflexivity.
Qed.

(** A call with well-formed parameters reaches the child unchanged: its
    request is written as one chunk, and that chunk decodes to the request
    the handler built, with the handler's id, the tool name and the
    arguments as they were given. *)
Theorem request_on_the_wire :
  forall ep : endpoint,
    endpoint_well_formed ep = true ->
    exists data : bytes,
      chunks [ep] = [data]
      /\ decode_message data = Ok (endpoint_request ep)
      /\ message_id (endpoint_request ep) = Some (JInt (endpoint_id ep)).
Proof.
  intros ep H.
  destruct (encode_decode_line _ (endpoint_request_well_formed ep H))
    as [Henc Hdec].
  eexists. split; [|split; [exact Hdec|destruct ep; reflexivity]].
  unfold chunks. cbn [flat_map]. rewrite Henc. reflexivity.
Qed.

Lemma request_on_the_wire_witness :
  exists data : bytes,
    chunks [CallTool echo_tool_call] = [data]
    /\ decode_message data = Ok (endpoint_request (CallTool echo_tool_call))
    /\ message_id (endpoint_request (CallTool echo_tool_call))
       = Some (JInt (endpoint_id (CallTool echo_tool_call))).
Proof.
  exact (request_on_the_wire (CallTool echo_tool_call) eq_refl).
Defined.

Lemma dumps_printable_float_free (v : json) :
  float_free v = true -> forallb printable (dumps v) = true.
Proof.
  induction v using json_induction; intros Hff; cbn [dumps float_free] in *.
  - reflexivity.
  - destruct b; reflexivity.
  - apply intstr_printable.
  - discriminate Hff.
  - apply encode_basestring_printable.
  - change (91 :: ?l) with ([91] ++ l). rewrite !forallb_app.
    rewrite join_map_printable; [reflexivity|].
    rewrite forallb_forall in Hff. rewrite Forall_forall in *.
    intros x Hx. exact (H x Hx (Hff x Hx)).
  - change (123 :: ?l) with ([123] ++ l). rewrite !forallb_app.
    rewrite join_map_printable; [reflexivity|].
    rewrite forallb_forall in Hff. rewrite Forall_forall in *.
    intros kv Hkv.
    rewrite !forallb_app, encode_basestring_printable, (H kv Hkv (Hff kv Hkv)).
    reflexivity.
Qed.

(** A request without floats is always written, and as one line:
    whatever text it carries (newlines, quotes, characters outside ASCII,
    lone surrogates), encoding does not fail, every byte is printable
    ASCII but the last, and the last is the only newline. *)
Theorem request_is_one_line :
  forall m : json,
    float_free m = true ->
    exists data : bytes,
      encode_message m = Ok data
      /\ last data x00 = x0a
      /\ Forall (fun b => 32 <= Byte.to_N b <= 126) (removelast data).
Proof.
  intros m Hff.
  pose proof (dumps_printable_float_free m Hff) as Hp.
  assert (Hascii : Forall (fun c => c < 128) (dumps m ++ [10])).
  { apply Forall_app. split; [apply printable_ascii, Hp|].
    constructor; [reflexivity|constructor]. }
  destruct (decode_encode_ascii _ Hascii) as [Henc _].
  exists (List.map byte_of (dumps m ++ [10])).
  split; [unfold encode_message; rewrite Henc; reflexivity|].
  rewrite map_app. cbn [List.map]. change (byte_of 10) with x0a.
  split; [apply last_last|].
  rewrite removelast_last. apply Forall_forall. intros b Hin.
  apply in_map_iff in Hin. destruct Hin as (c & <- & Hin).
  rewrite forallb_forall in Hp. specialize (Hp c Hin).
  apply printable_range in Hp. rewrite to_N_byte_of by lia. exact Hp.
Qed.

Lemma request_is_one_line_witness :
  exists data : bytes,
    encode_message (JStr [10; 34; 0xD800; 233]) = Ok data
    /\ last data x00 = x0a
    /\ Forall (fun b => 32 <= Byte.to_N b <= 126) (removelast data).
Proof.
  exact (request_is_one_line (JStr [10; 34; 0xD800; 233]) eq_refl).
Defined.

End Wire.
